(** * BCM2708 cyclic DMA engine driver: a shallow embedding

    The development follows [drivers/dma/bcm2708-dmaengine.c].  The driver
    runs on a 32-bit ARM core: [unsigned], [size_t], [dma_addr_t] and
    [unsigned long] are 32-bit words, modelled as [Z] with the wrap-around
    written out ([wrap32]).  Kernel memory is a pair of finite maps (the
    [kzalloc] heap holding descriptors, the coherent allocator holding
    arrays of control blocks); every call that leaves the driver (allocator,
    register access, the virt-dma notification, the log) is recorded in a
    trace; what the environment answers (allocation results, register
    values) comes from an oracle indexed by the length of that trace.
    Behaviour that C leaves undefined (division by zero, an access outside
    an allocated array, a dangling descriptor pointer) is an explicit
    [Undef] outcome. *)

From Stdlib Require Import ZArith List Lia String.
From stdpp Require Import base option list gmap strings.

Local Open Scope Z_scope.

(** ** Machine words *)

Definition wrap32 (z : Z) : Z := z mod 2 ^ 32.

Definition is_u32 (z : Z) : Prop := 0 <= z < 2 ^ 32.

(** ** Types of <linux/dmaengine.h> used by the driver *)

Inductive dma_transfer_direction :=
  | DMA_MEM_TO_MEM
  | DMA_MEM_TO_DEV
  | DMA_DEV_TO_MEM
  | DMA_DEV_TO_DEV
  | DMA_TRANS_NONE.

#[global] Instance dma_transfer_direction_eq_dec : EqDecision dma_transfer_direction.
Proof. solve_decision. Defined.

(** The bus width is the number of bytes of one access; the driver only
    compares it with [DMA_SLAVE_BUSWIDTH_4_BYTES]. *)
Definition DMA_SLAVE_BUSWIDTH_4_BYTES : Z := 4.

Record dma_slave_config := {
  direction : dma_transfer_direction;
  src_addr : Z;
  dst_addr : Z;
  src_addr_width : Z;
  dst_addr_width : Z;
  slave_id : Z
}.

Inductive irqreturn_t := IRQ_NONE | IRQ_HANDLED.

(** ** The hardware control block and the register layout of <mach/dma.h>

    The header is not part of the driver file: its constants are parameters
    of the development (a class, so that they keep their names). *)

Record bcm2708_dma_cb := {
  cb_info : Z;
  cb_src : Z;
  cb_dst : Z;
  cb_length : Z;
  cb_next : Z
}.

Definition zero_cb : bcm2708_dma_cb :=
  {| cb_info := 0; cb_src := 0; cb_dst := 0; cb_length := 0; cb_next := 0 |}.

Class mach_dma := {
  BCM2708_DMA_CS : Z;
  BCM2708_DMA_SOURCE_AD : Z;
  BCM2708_DMA_DEST_AD : Z;
  BCM2708_DMA_ACTIVE : Z;
  BCM2708_DMA_INT : Z;
  BCM2708_DMA_INT_EN : Z;
  BCM2708_DMA_D_INC : Z;
  BCM2708_DMA_S_INC : Z;
  BCM2708_DMA_D_DREQ : Z;
  BCM2708_DMA_S_DREQ : Z;
  BCM2708_DMA_PER_MAP : Z -> Z;
  sizeof_bcm2708_dma_cb : Z
}.

Definition BCM2708_DMA_DATA_TYPE_S8 : Z := 1.
Definition BCM2708_DMA_DATA_TYPE_S16 : Z := 2.
Definition BCM2708_DMA_DATA_TYPE_S32 : Z := 4.
Definition BCM2708_DMA_DATA_TYPE_S128 : Z := 16.

(** ** Driver structures *)

Record bcm2708_desc := {
  d_cookie : Z;                      (* vd.tx.cookie *)
  d_dir : dma_transfer_direction;
  d_control_block_size : Z;
  d_control_block_base : Z;          (* kernel address of the coherent block *)
  d_control_block_base_phys : Z;     (* bus address of the same block *)
  d_frames : Z;
  d_size : Z
}.

(** What [kzalloc] hands out: every field zero. *)
Definition zero_desc : bcm2708_desc :=
  {| d_cookie := 0; d_dir := DMA_MEM_TO_MEM; d_control_block_size := 0;
     d_control_block_base := 0; d_control_block_base_phys := 0;
     d_frames := 0; d_size := 0 |}.

Definition set_d_cookie (v : Z) (d : bcm2708_desc) : bcm2708_desc :=
  {| d_cookie := v; d_dir := d_dir d;
     d_control_block_size := d_control_block_size d;
     d_control_block_base := d_control_block_base d;
     d_control_block_base_phys := d_control_block_base_phys d;
     d_frames := d_frames d; d_size := d_size d |}.

Definition set_d_dir (v : dma_transfer_direction) (d : bcm2708_desc) : bcm2708_desc :=
  {| d_cookie := d_cookie d; d_dir := v;
     d_control_block_size := d_control_block_size d;
     d_control_block_base := d_control_block_base d;
     d_control_block_base_phys := d_control_block_base_phys d;
     d_frames := d_frames d; d_size := d_size d |}.

Definition set_d_control_block_size (v : Z) (d : bcm2708_desc) : bcm2708_desc :=
  {| d_cookie := d_cookie d; d_dir := d_dir d;
     d_control_block_size := v;
     d_control_block_base := d_control_block_base d;
     d_control_block_base_phys := d_control_block_base_phys d;
     d_frames := d_frames d; d_size := d_size d |}.

Definition set_d_control_block (base phys : Z) (d : bcm2708_desc) : bcm2708_desc :=
  {| d_cookie := d_cookie d; d_dir := d_dir d;
     d_control_block_size := d_control_block_size d;
     d_control_block_base := base;
     d_control_block_base_phys := phys;
     d_frames := d_frames d; d_size := d_size d |}.

Definition set_d_frames (v : Z) (d : bcm2708_desc) : bcm2708_desc :=
  {| d_cookie := d_cookie d; d_dir := d_dir d;
     d_control_block_size := d_control_block_size d;
     d_control_block_base := d_control_block_base d;
     d_control_block_base_phys := d_control_block_base_phys d;
     d_frames := v; d_size := d_size d |}.

Definition set_d_size (v : Z) (d : bcm2708_desc) : bcm2708_desc :=
  {| d_cookie := d_cookie d; d_dir := d_dir d;
     d_control_block_size := d_control_block_size d;
     d_control_block_base := d_control_block_base d;
     d_control_block_base_phys := d_control_block_base_phys d;
     d_frames := d_frames d; d_size := v |}.

(** Modelled from the spec: the virt-dma channel of "virt-dma.h", which is
    not part of the driver file.  The spec describes it as one FIFO of
    submitted, not yet started descriptors and a source of monotonically
    increasing cookies.  Descriptors are linked through an embedded list
    node, so the queue holds their addresses. *)
Record virt_dma_chan := {
  vc_queue : list Z;
  vc_cookie : Z
}.

Record bcm2708_chan := {
  vc : virt_dma_chan;
  node : bool;                       (* linked into a schedulable list *)
  cfg : dma_slave_config;
  cyclic : bool;
  ch : Z;
  desc : option Z;                   (* the active descriptor, or NULL *)
  chan_base : Z;
  irq_number : Z
}.

Definition set_vc (v : virt_dma_chan) (c : bcm2708_chan) : bcm2708_chan :=
  {| vc := v; node := node c; cfg := cfg c; cyclic := cyclic c; ch := ch c;
     desc := desc c; chan_base := chan_base c; irq_number := irq_number c |}.

Definition set_node (v : bool) (c : bcm2708_chan) : bcm2708_chan :=
  {| vc := vc c; node := v; cfg := cfg c; cyclic := cyclic c; ch := ch c;
     desc := desc c; chan_base := chan_base c; irq_number := irq_number c |}.

Definition set_cfg (v : dma_slave_config) (c : bcm2708_chan) : bcm2708_chan :=
  {| vc := vc c; node := node c; cfg := v; cyclic := cyclic c; ch := ch c;
     desc := desc c; chan_base := chan_base c; irq_number := irq_number c |}.

Definition set_cyclic (v : bool) (c : bcm2708_chan) : bcm2708_chan :=
  {| vc := vc c; node := node c; cfg := cfg c; cyclic := v; ch := ch c;
     desc := desc c; chan_base := chan_base c; irq_number := irq_number c |}.

Definition set_desc (v : option Z) (c : bcm2708_chan) : bcm2708_chan :=
  {| vc := vc c; node := node c; cfg := cfg c; cyclic := cyclic c; ch := ch c;
     desc := v; chan_base := chan_base c; irq_number := irq_number c |}.

(** ** The world outside the driver *)

Inductive event :=
  | Ev_kzalloc (r : option Z)
  | Ev_kfree (p : Z)
  | Ev_dma_zalloc_coherent (sz : Z) (r : option (Z * Z))
  | Ev_dma_free_coherent (sz : Z) (cpu_addr : Z) (dma_handle : Z)
  | Ev_writel (v : Z) (addr : Z)
  | Ev_readl (addr : Z) (v : Z)
  | Ev_bcm_dma_start (base : Z) (cb_phys : Z)
  | Ev_bcm_dma_abort (base : Z)
  | Ev_vchan_cyclic_callback (vd : Z)
  | Ev_cpu_relax
  | Ev_dev_err (msg : string).

#[global] Instance event_eq_dec : EqDecision event.
Proof. solve_decision. Defined.

Record world := {
  kheap : gmap Z bcm2708_desc;
  coherent : gmap Z (list bcm2708_dma_cb);
  trace : list event
}.

(** The answers of the environment; the first argument is the number of
    events recorded so far. *)
Record env := {
  env_kzalloc : nat -> option Z;
  env_dma_zalloc_coherent : nat -> Z -> option (Z * Z);
  env_readl : nat -> Z -> Z
}.

Definition is_alloc_event (ev : event) : bool :=
  match ev with
  | Ev_kzalloc _ | Ev_dma_zalloc_coherent _ _ => true
  | _ => false
  end.

Definition is_readl (ev : event) : bool :=
  match ev with
  | Ev_readl _ _ => true
  | _ => false
  end.

(** ** The monad of driver code: state, trace and undefined behaviour *)

Inductive undefined := DivByZero | OutOfBounds | BadPointer.

Inductive outcome (A : Type) : Type :=
  | Ret (a : A) (w : world)
  | Undef (u : undefined).
Arguments Ret {A} a w.
Arguments Undef {A} u.

Definition M (A : Type) : Type := world -> outcome A.

#[global] Instance M_ret : MRet M := fun A a w => Ret a w.

#[global] Instance M_bind : MBind M := fun A B f m w =>
  match m w with
  | Ret a w' => f a w'
  | Undef u => Undef u
  end.

Definition undef {A : Type} (u : undefined) : M A := fun _ => Undef u.

Definition emit (ev : event) : M unit := fun w =>
  Ret tt {| kheap := kheap w; coherent := coherent w; trace := trace w ++ [ev] |}.

(** [list_del(&vd->node)]: unlink one node from the list it is on. *)
Fixpoint list_del (p : Z) (l : list Z) : list Z :=
  match l with
  | [] => []
  | x :: l' => if decide (x = p) then l' else x :: list_del p l'
  end.

Inductive dma_status := DMA_COMPLETE | DMA_IN_PROGRESS | DMA_PAUSED | DMA_ERROR.

#[global] Instance dma_status_eq_dec : EqDecision dma_status.
Proof. solve_decision. Defined.

Definition is_slave_direction (d : dma_transfer_direction) : bool :=
  match d with
  | DMA_MEM_TO_DEV | DMA_DEV_TO_MEM => true
  | _ => false
  end.

Definition EINVAL : Z := 22.

Section Driver.

Context {H : mach_dma}.
Variable E : env.
(** [dma_cookie_status] of the dmaengine core, not part of the driver file. *)
Variable dma_cookie_status : virt_dma_chan -> Z -> dma_status.

(** *** Memory *)

(** Modelled from the spec: the kernel allocator, external to the driver
    file.  [kzalloc] of a descriptor either fails or hands out a zeroed
    descriptor at an address the environment chooses. *)
Definition kzalloc_desc : M (option Z) := fun w =>
  let r := env_kzalloc E (length (trace w)) in
  Ret r {| kheap := match r with
                    | Some p => <[p := zero_desc]> (kheap w)
                    | None => kheap w
                    end;
           coherent := coherent w;
           trace := trace w ++ [Ev_kzalloc r] |}.

(** [kfree]: the object leaves the heap. *)
Definition kfree (p : Z) : M unit := fun w =>
  Ret tt {| kheap := delete p (kheap w); coherent := coherent w;
            trace := trace w ++ [Ev_kfree p] |}.

(** Modelled from the spec: the coherent memory allocator, external to the
    driver file, "allocate/free a physically contiguous, device-visible
    block of a given size, returning a logical/physical address pair".  A
    block of [sz] bytes is an array of [sz / sizeof cb] zeroed control
    blocks, known by its kernel address and its bus address (a
    [dma_addr_t]). *)
Definition dma_zalloc_coherent (sz : Z) : M (option (Z * Z)) := fun w =>
  let r := match env_dma_zalloc_coherent E (length (trace w)) sz with
           | Some (base, phys) => Some (base, wrap32 phys)
           | None => None
           end in
  Ret r {| kheap := kheap w;
           coherent := match r with
                       | Some (base, _) =>
                           <[base := replicate (Z.to_nat (sz / sizeof_bcm2708_dma_cb)) zero_cb]>
                             (coherent w)
                       | None => coherent w
                       end;
           trace := trace w ++ [Ev_dma_zalloc_coherent sz r] |}.

(** [dma_free_coherent]: the block leaves the coherent memory. *)
Definition dma_free_coherent (sz base phys : Z) : M unit := fun w =>
  Ret tt {| kheap := kheap w; coherent := delete base (coherent w);
            trace := trace w ++ [Ev_dma_free_coherent sz base phys] |}.

(** [*d] for a descriptor pointer. *)
Definition load_desc (p : Z) : M bcm2708_desc := fun w =>
  match kheap w !! p with
  | Some d => Ret d w
  | None => Undef BadPointer
  end.

(** [d->field = v] for a descriptor pointer. *)
Definition modify_desc (p : Z) (f : bcm2708_desc -> bcm2708_desc) : M unit := fun w =>
  match kheap w !! p with
  | Some d => Ret tt {| kheap := <[p := f d]> (kheap w); coherent := coherent w;
                        trace := trace w |}
  | None => Undef BadPointer
  end.

(** [base[i]] for an array of control blocks. *)
Definition load_cb (base : Z) (i : Z) : M bcm2708_dma_cb := fun w =>
  match coherent w !! base with
  | Some cbs =>
      match cbs !! Z.to_nat i with
      | Some cb => Ret cb w
      | None => Undef OutOfBounds
      end
  | None => Undef BadPointer
  end.

(** [base[i] = cb]. *)
Definition store_cb (base : Z) (i : Z) (cb : bcm2708_dma_cb) : M unit := fun w =>
  match coherent w !! base with
  | Some cbs =>
      if decide (Z.to_nat i < length cbs)%nat
      then Ret tt {| kheap := kheap w;
                     coherent := <[base := <[Z.to_nat i := cb]> cbs]> (coherent w);
                     trace := trace w |}
      else Undef OutOfBounds
  | None => Undef BadPointer
  end.

(** Unsigned division and remainder of C: undefined for a zero divisor. *)
Definition udiv (a b : Z) : M Z :=
  if decide (b = 0) then undef DivByZero else mret (a / b).

Definition umod (a b : Z) : M Z :=
  if decide (b = 0) then undef DivByZero else mret (a mod b).

(** *** Registers, log and scheduling *)

(** Modelled from the spec: register access, external to the driver file.
    A write is recorded; a read is "a point-in-time snapshot", a 32-bit
    value the environment chooses. *)
Definition writel (v addr : Z) : M unit := emit (Ev_writel v addr).

(** [readl]: the answer of the environment, as a 32-bit word. *)
Definition readl (addr : Z) : M Z := fun w =>
  let v := wrap32 (env_readl E (length (trace w)) addr) in
  Ret v {| kheap := kheap w; coherent := coherent w;
           trace := trace w ++ [Ev_readl addr v] |}.

(** The kernel log. *)
Definition dev_err (msg : string) : M unit := emit (Ev_dev_err msg).

(** The pause between two polls of a register. *)
Definition cpu_relax : M unit := emit Ev_cpu_relax.

(** Locks and barriers order concurrent accesses; one thread of control
    sees no effect of them. *)
Definition spin_lock_irqsave : M unit := mret tt.
Definition spin_unlock_irqrestore : M unit := mret tt.
Definition dsb : M unit := mret tt.

(** Modelled from the spec: [bcm_dma_start] of the platform DMA code, not
    part of the driver file; it "writes the chain's head address then
    asserts the run bit".  It is recorded as one hardware start. *)
Definition bcm_dma_start (base cb_phys : Z) : M unit :=
  emit (Ev_bcm_dma_start base cb_phys).

(** Modelled from the spec: [bcm_dma_abort] of the platform DMA code, not
    part of the driver file; it "issues the hardware stop command". *)
Definition bcm_dma_abort (base : Z) : M unit :=
  emit (Ev_bcm_dma_abort base).

(** *** virt-dma *)

(** Modelled from the spec: [vchan_tx_prep] of "virt-dma.h" initialises the
    generic part of the descriptor and returns the handle of the
    descriptor, "an owned Descriptor referencing the chain's first step". *)
Definition vchan_tx_prep (v : virt_dma_chan) (vd : Z) (flags : Z) : M (option Z) :=
  mret (Some vd).

(** Modelled from the spec: [vchan_tx_submit] of "virt-dma.h": "assigns a
    monotonically increasing cookie, appends to queue tail. No hardware
    effect." *)
Definition vchan_tx_submit (v : virt_dma_chan) (vd : Z) : M (Z * virt_dma_chan) :=
  let cookie := vc_cookie v + 1 in
  _ ← modify_desc vd (set_d_cookie cookie);
  mret (cookie, {| vc_queue := vc_queue v ++ [vd]; vc_cookie := cookie |}).

(** Modelled from the spec: [vchan_issue_pending] of "virt-dma.h" tells
    whether "the queue is non-empty". *)
Definition vchan_issue_pending (v : virt_dma_chan) : bool :=
  match vc_queue v with
  | [] => false
  | _ :: _ => true
  end.

(** Modelled from the spec: [vchan_next_desc] of "virt-dma.h" is "the head
    descriptor" of the queue, or NULL. *)
Definition vchan_next_desc (v : virt_dma_chan) : option Z :=
  head (vc_queue v).

(** Modelled from the spec: [vchan_find_desc] of "virt-dma.h" looks for the
    "still-queued descriptor" a cookie belongs to. *)
Fixpoint find_desc (q : list Z) (cookie : Z) : M (option Z) :=
  match q with
  | [] => mret None
  | vd :: q' =>
      d ← load_desc vd;
      if decide (d_cookie d = cookie) then mret (Some vd) else find_desc q' cookie
  end.

Definition vchan_find_desc (v : virt_dma_chan) (cookie : Z) : M (option Z) :=
  find_desc (vc_queue v) cookie.

(** Modelled from the spec: [vchan_get_all_descriptors] of "virt-dma.h"
    moves every queued descriptor to the caller's list ("empties the
    queue"). *)
Definition vchan_get_all_descriptors (v : virt_dma_chan) : list Z * virt_dma_chan :=
  (vc_queue v, {| vc_queue := []; vc_cookie := vc_cookie v |}).

(** Modelled from the spec: [vchan_cyclic_callback] of "virt-dma.h" is the
    "registered period-boundary notification". *)
Definition vchan_cyclic_callback (vd : Z) : M unit :=
  emit (Ev_vchan_cyclic_callback vd).

(** *** The driver *)

Definition bcm2708_dma_desc_free (vd : Z) : M unit :=
  d ← load_desc vd;
  _ ← dma_free_coherent (d_control_block_size d) (d_control_block_base d)
        (d_control_block_base_phys d);
  kfree vd.

(** Modelled from the spec: [vchan_dma_desc_free_list] of "virt-dma.h"
    "drains and frees" the descriptors of a list through the channel's
    [desc_free], which [bcm2708_dma_chan_init] sets to
    [bcm2708_dma_desc_free]. *)
Fixpoint vchan_dma_desc_free_list (head : list Z) : M unit :=
  match head with
  | [] => mret tt
  | vd :: head' =>
      _ ← bcm2708_dma_desc_free vd;
      vchan_dma_desc_free_list head'
  end.

Definition bcm2708_dma_start_desc (c : bcm2708_chan) : M bcm2708_chan :=
  match vchan_next_desc (vc c) with
  | None => mret (set_desc None c)
  | Some vd =>
      let c := set_vc {| vc_queue := list_del vd (vc_queue (vc c));
                         vc_cookie := vc_cookie (vc c) |} c in
      let c := set_desc (Some vd) c in
      d ← load_desc vd;
      _ ← bcm_dma_start (chan_base c) (d_control_block_base_phys d);
      mret c
  end.

Definition bcm2708_dma_callback (c : bcm2708_chan) : M irqreturn_t :=
  _ ← spin_lock_irqsave;
  (* Acknowledge interrupt *)
  _ ← writel BCM2708_DMA_INT (chan_base c + BCM2708_DMA_CS);
  _ ← match desc c with
      | Some d => vchan_cyclic_callback d
      | None => mret tt
      end;
  (* Keep the DMA engine running *)
  _ ← dsb;
  _ ← writel BCM2708_DMA_ACTIVE (chan_base c + BCM2708_DMA_CS);
  _ ← spin_unlock_irqrestore;
  mret IRQ_HANDLED.

Definition bcm2708_dma_desc_size (d : bcm2708_desc) : Z := d_size d.

(** One iteration of the loop of [bcm2708_dma_desc_size_pos]. *)
Definition size_pos_step (d : bcm2708_desc) (addr : Z) (i : Z) (size : Z) : M Z :=
  control_block ← load_cb (d_control_block_base d) i;
  let this_size := cb_length control_block in
  let dma := if decide (d_dir d = DMA_DEV_TO_MEM)
             then cb_dst control_block
             else cb_src control_block in
  if decide (size ≠ 0) then mret (wrap32 (size + this_size))
  else if decide (dma <= addr ∧ addr < wrap32 (dma + this_size))
       then mret (wrap32 (size + wrap32 (wrap32 (dma + this_size) - addr)))
       else mret size.

(** [for (size = i = 0; i < d->frames; i++)] with [n] iterations left. *)
Fixpoint size_pos_loop (n : nat) (d : bcm2708_desc) (addr : Z) (i : Z) (size : Z) : M Z :=
  match n with
  | O => mret size
  | S n' =>
      size' ← size_pos_step d addr i size;
      size_pos_loop n' d addr (i + 1) size'
  end.

Definition bcm2708_dma_desc_size_pos (d : bcm2708_desc) (addr : Z) : M Z :=
  size_pos_loop (Z.to_nat (d_frames d)) d addr 0 0.

Definition bcm2708_dma_tx_status (c : bcm2708_chan) (cookie : Z) (txstate : bool)
  : M (dma_status * option Z) :=
  let ret := dma_cookie_status (vc c) cookie in
  if decide (ret = DMA_COMPLETE) then mret (ret, if txstate then Some 0 else None)
  else if negb txstate then mret (ret, None)
  else
    _ ← spin_lock_irqsave;
    vd ← vchan_find_desc (vc c) cookie;
    residue ←
      match vd return M Z with
      | Some p =>
          d ← load_desc p;
          mret (bcm2708_dma_desc_size d)
      | None =>
          match desc c return M Z with
          | None => mret 0
          | Some p =>
              d ← load_desc p;
              if decide (d_cookie d = cookie) then
                pos ←
                  (if decide (d_dir d = DMA_MEM_TO_DEV)
                   then readl (chan_base c + BCM2708_DMA_SOURCE_AD)
                   else if decide (d_dir d = DMA_DEV_TO_MEM)
                   then readl (chan_base c + BCM2708_DMA_DEST_AD)
                   else (mret 0 : M Z));
                bcm2708_dma_desc_size_pos d pos
              else mret 0
          end
      end;
    _ ← spin_unlock_irqrestore;
    mret (ret, Some residue).

Definition bcm2708_dma_issue_pending (c : bcm2708_chan) : M bcm2708_chan :=
  let c := set_cyclic true c in      (* Nothing else is implemented *)
  _ ← spin_lock_irqsave;
  c ← (if vchan_issue_pending (vc c) && negb (bool_decide (is_Some (desc c)))
       then bcm2708_dma_start_desc c
       else mret c);
  _ ← spin_unlock_irqrestore;
  mret c.

(** The body of the loop of [bcm2708_dma_prep_dma_cyclic]: the control
    block of one frame. *)
Definition cyclic_frame (c : bcm2708_chan) (d : Z)
    (dev_addr sync_type buf_addr period_len frame : Z) : M unit :=
  dd ← load_desc d;
  (* Setup adresses *)
  let '(info, src, dst) :=
    if decide (d_dir dd = DMA_DEV_TO_MEM)
    then (BCM2708_DMA_D_INC, dev_addr,
          wrap32 (buf_addr + wrap32 (frame * period_len)))
    else (BCM2708_DMA_S_INC,
          wrap32 (buf_addr + wrap32 (frame * period_len)), dev_addr) in
  (* Enable interrupt *)
  let info := Z.lor info BCM2708_DMA_INT_EN in
  (* Setup synchronization *)
  let info := if decide (sync_type ≠ 0) then Z.lor info sync_type else info in
  (* Setup DREQ channel *)
  let info := if decide (slave_id (cfg c) ≠ 0)
              then Z.lor info (BCM2708_DMA_PER_MAP (slave_id (cfg c)))
              else info in
  (* Length of a frame *)
  let length := period_len in
  _ ← modify_desc d (set_d_size (wrap32 (d_size dd + length)));
  (* Next block is the next frame: wrap around at number of frames. *)
  nxt ← umod (wrap32 (frame + 1)) (d_frames dd);
  store_cb (d_control_block_base dd) frame
    {| cb_info := info; cb_src := src; cb_dst := dst; cb_length := length;
       cb_next := wrap32 (d_control_block_base_phys dd
                          + wrap32 (sizeof_bcm2708_dma_cb * nxt)) |}.

(** [for (frame = ..; frame < d->frames; frame++)] with [n] iterations left. *)
Fixpoint cyclic_frames (n : nat) (c : bcm2708_chan) (d : Z)
    (dev_addr sync_type buf_addr period_len frame : Z) : M unit :=
  match n with
  | O => mret tt
  | S n' =>
      _ ← cyclic_frame c d dev_addr sync_type buf_addr period_len frame;
      cyclic_frames n' c d dev_addr sync_type buf_addr period_len (frame + 1)
  end.

Definition bcm2708_dma_prep_dma_cyclic (c : bcm2708_chan)
    (buf_addr buf_len period_len : Z) (direction : dma_transfer_direction)
    (flags : Z) : M (option Z) :=
  (* Grab configuration *)
  let grab :=
    match direction with
    | DMA_DEV_TO_MEM =>
        Some (src_addr (cfg c), src_addr_width (cfg c), BCM2708_DMA_S_DREQ)
    | DMA_MEM_TO_DEV =>
        Some (dst_addr (cfg c), dst_addr_width (cfg c), BCM2708_DMA_D_DREQ)
    | _ => None
    end in
  match grab with
  | None =>
      _ ← dev_err "bcm2708_dma_prep_dma_cyclic: bad direction?";
      mret None
  | Some (dev_addr, dev_width, sync_type) =>
      (* Bus width translates to the element size (ES) *)
      if decide (dev_width ≠ DMA_SLAVE_BUSWIDTH_4_BYTES) then mret None
      else
        (* Now allocate and setup the descriptor. *)
        od ← kzalloc_desc;
        match od with
        | None => mret None
        | Some d =>
            _ ← modify_desc d (set_d_dir direction);
            frames ← udiv buf_len period_len;
            _ ← modify_desc d (set_d_frames frames);
            (* Allocate memory for control blocks *)
            let control_block_size := wrap32 (frames * sizeof_bcm2708_dma_cb) in
            _ ← modify_desc d (set_d_control_block_size control_block_size);
            r ← dma_zalloc_coherent control_block_size;
            match r with
            | None =>
                _ ← kfree d;
                mret None
            | Some (base, phys) =>
                _ ← modify_desc d (set_d_control_block base phys);
                (* Iterate over all frames, create a control block
                   for each frame and link them together. *)
                _ ← cyclic_frames (Z.to_nat frames) c d dev_addr sync_type
                      buf_addr period_len 0;
                vchan_tx_prep (vc c) d flags
            end
        end
  end.

Definition bcm2708_dma_slave_config (c : bcm2708_chan) (cfg' : dma_slave_config)
  : Z * bcm2708_chan :=
  if bool_decide (direction cfg' = DMA_DEV_TO_MEM
                  ∧ src_addr_width cfg' ≠ DMA_SLAVE_BUSWIDTH_4_BYTES)
     || bool_decide (direction cfg' = DMA_MEM_TO_DEV
                     ∧ dst_addr_width cfg' ≠ DMA_SLAVE_BUSWIDTH_4_BYTES)
     || negb (is_slave_direction (direction cfg'))
  then (- EINVAL, c)
  else (0, set_cfg cfg' c).

(** The polling loop of [bcm2708_dma_terminate_all]; [timeout] counts down
    and the loop returns what is left of it. *)
Fixpoint wait_for_stopping (timeout : nat) (c : bcm2708_chan) : M nat :=
  match timeout with
  | O => mret O
  | S timeout' =>
      cs ← readl (chan_base c + BCM2708_DMA_CS);
      if decide (Z.land cs BCM2708_DMA_ACTIVE = 0) then mret timeout'
      else
        _ ← cpu_relax;
        wait_for_stopping timeout' c
  end.

Definition bcm2708_dma_terminate_all (c : bcm2708_chan) : M (Z * bcm2708_chan) :=
  let timeout := 10000 in
  _ ← spin_lock_irqsave;
  (* Prevent this channel being scheduled *)
  let c := set_node false c in
  (* Stop DMA activity *)
  c ← match desc c with
      | Some _ =>
          let c := set_desc None c in
          _ ← bcm_dma_abort (chan_base c);
          (* Wait for stopping *)
          timeout ← wait_for_stopping (Z.to_nat timeout) c;
          _ ← (if decide (Z.of_nat timeout <= 0)
               then dev_err "DMA transfer could not be terminated"
               else mret tt);
          mret c
      | None => mret c
      end;
  let '(head, v) := vchan_get_all_descriptors (vc c) in
  let c := set_vc v c in
  _ ← spin_unlock_irqrestore;
  _ ← vchan_dma_desc_free_list head;
  mret (0, c).

End Driver.

(** ** Concrete instances, for the examples

    The register layout and flag bits of the BCM2708 DMA controller, and a
    few environments. *)

Definition bcm2708 : mach_dma :=
  {| BCM2708_DMA_CS := 0x00;
     BCM2708_DMA_SOURCE_AD := 0x0c;
     BCM2708_DMA_DEST_AD := 0x10;
     BCM2708_DMA_ACTIVE := 1;
     BCM2708_DMA_INT := 4;
     BCM2708_DMA_INT_EN := 1;
     BCM2708_DMA_D_INC := 16;
     BCM2708_DMA_S_INC := 256;
     BCM2708_DMA_D_DREQ := 64;
     BCM2708_DMA_S_DREQ := 1024;
     BCM2708_DMA_PER_MAP := fun x => wrap32 (Z.shiftl x 16);
     sizeof_bcm2708_dma_cb := 32 |}.

(** Every allocation succeeds, at an address derived from the time of the
    call; the run bit reads as set. *)
Definition env_busy : env :=
  {| env_kzalloc := fun n => Some (0x1000 + Z.of_nat n);
     env_dma_zalloc_coherent := fun n _ =>
       Some (0x2000 + Z.of_nat n, 0x5e000000 + 256 * Z.of_nat n);
     env_readl := fun _ _ => 1 |}.

(** As [env_busy], but the run bit reads as clear. *)
Definition env_idle : env :=
  {| env_kzalloc := fun n => Some (0x1000 + Z.of_nat n);
     env_dma_zalloc_coherent := fun n _ =>
       Some (0x2000 + Z.of_nat n, 0x5e000000 + 256 * Z.of_nat n);
     env_readl := fun _ _ => 0 |}.

(** [kzalloc] succeeds, the coherent allocator is exhausted. *)
Definition env_no_coherent : env :=
  {| env_kzalloc := fun n => Some (0x1000 + Z.of_nat n);
     env_dma_zalloc_coherent := fun _ _ => None;
     env_readl := fun _ _ => 0 |}.

Definition world0 : world :=
  {| kheap := ∅; coherent := ∅; trace := [] |}.

(** An I2S receive endpoint: 4-byte FIFO register, DREQ line 3. *)
Definition cfg_rx : dma_slave_config :=
  {| direction := DMA_DEV_TO_MEM; src_addr := 0x7e203004; dst_addr := 0;
     src_addr_width := 4; dst_addr_width := 0; slave_id := 3 |}.

(** An I2S transmit endpoint. *)
Definition cfg_tx : dma_slave_config :=
  {| direction := DMA_MEM_TO_DEV; src_addr := 0; dst_addr := 0x7e203004;
     src_addr_width := 0; dst_addr_width := 4; slave_id := 2 |}.

(** A 2-byte endpoint, which the driver does not support. *)
Definition cfg_rx16 : dma_slave_config :=
  {| direction := DMA_DEV_TO_MEM; src_addr := 0x7e203004; dst_addr := 0;
     src_addr_width := 2; dst_addr_width := 0; slave_id := 3 |}.

(** A channel as [bcm2708_dma_chan_init] leaves it, with a configuration. *)
Definition chan0 (cf : dma_slave_config) : bcm2708_chan :=
  {| vc := {| vc_queue := []; vc_cookie := 1 |}; node := false; cfg := cf;
     cyclic := false; ch := 0; desc := None; chan_base := 0xf2007000;
     irq_number := 16 |}.

(** ** Vocabulary of the properties *)

(** A flag (a set of bits) is set in a flag word. *)
Definition flag_set (flag word : Z) : Prop := Z.land word flag = flag.

Section Vocabulary.

Context {H : mach_dma}.

(** Bus address of the [i]-th control block of a descriptor, as the
    hardware follows it. *)
Definition cb_phys_addr (d : bcm2708_desc) (i : Z) : Z :=
  wrap32 (d_control_block_base_phys d + wrap32 (sizeof_bcm2708_dma_cb * i)).

(** The control block that [cyclic_frame] stores for a frame. *)
Definition frame_cb (c : bcm2708_chan) (dd : bcm2708_desc)
    (dev_addr sync_type buf_addr period_len frame : Z) : bcm2708_dma_cb :=
  let mem := wrap32 (buf_addr + wrap32 (frame * period_len)) in
  let info0 := if decide (d_dir dd = DMA_DEV_TO_MEM)
               then BCM2708_DMA_D_INC else BCM2708_DMA_S_INC in
  let info1 := Z.lor info0 BCM2708_DMA_INT_EN in
  let info2 := if decide (sync_type ≠ 0) then Z.lor info1 sync_type else info1 in
  let info3 := if decide (slave_id (cfg c) ≠ 0)
               then Z.lor info2 (BCM2708_DMA_PER_MAP (slave_id (cfg c)))
               else info2 in
  {| cb_info := info3;
     cb_src := if decide (d_dir dd = DMA_DEV_TO_MEM) then dev_addr else mem;
     cb_dst := if decide (d_dir dd = DMA_DEV_TO_MEM) then mem else dev_addr;
     cb_length := period_len;
     cb_next := cb_phys_addr dd (wrap32 (frame + 1) mod d_frames dd) |}.

(** The descriptor of [frames = buf_len / period_len] frames, with [size]
    bytes accounted for so far. *)
Definition built_desc (direction : dma_transfer_direction)
    (buf_len period_len base phys size : Z) : bcm2708_desc :=
  {| d_cookie := 0; d_dir := direction;
     d_control_block_size := wrap32 (buf_len / period_len * sizeof_bcm2708_dma_cb);
     d_control_block_base := base;
     d_control_block_base_phys := phys;
     d_frames := buf_len / period_len;
     d_size := size |}.

(** What [bcm2708_dma_prep_dma_cyclic] grabs from the configuration:
    endpoint address, endpoint width and request line. *)
Definition grabbed (c : bcm2708_chan) (direction : dma_transfer_direction)
    (dev_addr dev_width sync_type : Z) : Prop :=
  (direction = DMA_DEV_TO_MEM /\ dev_addr = src_addr (cfg c)
   /\ dev_width = src_addr_width (cfg c) /\ sync_type = BCM2708_DMA_S_DREQ)
  \/ (direction = DMA_MEM_TO_DEV /\ dev_addr = dst_addr (cfg c)
      /\ dev_width = dst_addr_width (cfg c) /\ sync_type = BCM2708_DMA_D_DREQ).

End Vocabulary.

(** Total length of a chain of control blocks. *)
Definition sum_lengths (cbs : list bcm2708_dma_cb) : Z :=
  foldr (fun cb s => cb_length cb + s) 0 cbs.

(** The address of a step that moves: the destination of a
    device-to-memory step, the source otherwise. *)
Definition step_addr (d : bcm2708_desc) (cb : bcm2708_dma_cb) : Z :=
  if decide (d_dir d = DMA_DEV_TO_MEM) then cb_dst cb else cb_src cb.

(** A position lies in the address range of a step. *)
Definition in_step (d : bcm2708_desc) (cb : bcm2708_dma_cb) (pos : Z) : Prop :=
  step_addr d cb <= pos < step_addr d cb + cb_length cb.

(** The events a call appended to the trace. *)
Definition new_events (w w' : world) : list event :=
  drop (length (trace w)) (trace w').

(** Every channel the driver can reach keeps this: a descriptor becomes
    active only in [bcm2708_dma_issue_pending], which has marked the
    channel cyclic by then, and nothing clears the mark. *)
Definition chan_inv (c : bcm2708_chan) : Prop :=
  is_Some (desc c) -> cyclic c = true.

(** The queued descriptors are distinct, live objects of the heap. *)
Definition queue_live (w : world) (q : list Z) : Prop :=
  NoDup q /\ forall p, p ∈ q -> is_Some (kheap w !! p).

(** [n] polls of a register, each followed by [cpu_relax]. *)
Fixpoint is_poll_log (addr : Z) (n : nat) (log : list event) : Prop :=
  match n with
  | O => log = []
  | S n' => exists v log',
      log = Ev_readl addr v :: Ev_cpu_relax :: log' /\ is_poll_log addr n' log'
  end.

(** Number of register reads in a log. *)
Definition polls (log : list event) : nat :=
  length (filter (fun ev => is_readl ev = true) log).

(** The descriptors freed by a log, in order. *)
Definition kfreed (log : list event) : list Z :=
  omap (fun ev => match ev with Ev_kfree p => Some p | _ => None end) log.

(** The chain of an active descriptor, as the builder leaves it for a
    buffer inside the address space: as many blocks as frames, ranges that
    do not wrap around, in increasing order without overlap, of a total
    length that fits a [size_t]. *)
Definition chain_ok (d : bcm2708_desc) (cbs : list bcm2708_dma_cb) : Prop :=
  Z.of_nat (length cbs) = d_frames d
  /\ (forall (i : nat) cb, cbs !! i = Some cb ->
        0 <= step_addr d cb /\ 0 <= cb_length cb
        /\ step_addr d cb + cb_length cb < 2 ^ 32)
  /\ (forall (i j : nat) cbi cbj, (i < j)%nat ->
        cbs !! i = Some cbi -> cbs !! j = Some cbj ->
        step_addr d cbi + cb_length cbi <= step_addr d cbj)
  /\ sum_lengths cbs < 2 ^ 32.

(** The chain of an active descriptor, as the builder leaves it for every
    buffer of the 32-bit address space, the last byte of the space
    included: [chain_ok], but the range of a step may end at 2^32. *)
Definition chain_fits (d : bcm2708_desc) (cbs : list bcm2708_dma_cb) : Prop :=
  Z.of_nat (length cbs) = d_frames d
  /\ (forall (i : nat) cb, cbs !! i = Some cb ->
        0 <= step_addr d cb < 2 ^ 32 /\ 0 <= cb_length cb
        /\ step_addr d cb + cb_length cb <= 2 ^ 32)
  /\ (forall (i j : nat) cbi cbj, (i < j)%nat ->
        cbs !! i = Some cbi -> cbs !! j = Some cbj ->
        step_addr d cbi + cb_length cbi <= step_addr d cbj)
  /\ sum_lengths cbs < 2 ^ 32.

(** What one iteration of the loop of [bcm2708_dma_desc_size_pos] makes of
    the running size, given the control block it reads. *)
Definition size_pos_next (d : bcm2708_desc) (addr : Z) (cb : bcm2708_dma_cb)
    (size : Z) : Z :=
  let this_size := cb_length cb in
  let dma := step_addr d cb in
  if decide (size ≠ 0) then wrap32 (size + this_size)
  else if decide (dma <= addr /\ addr < wrap32 (dma + this_size))
       then wrap32 (size + wrap32 (wrap32 (dma + this_size) - addr))
       else size.

(** The loop of [bcm2708_dma_desc_size_pos] over a list of control blocks. *)
Definition size_pos_fold (d : bcm2708_desc) (addr : Z)
    (cbs : list bcm2708_dma_cb) (size : Z) : Z :=
  foldl (fun sz cb => size_pos_next d addr cb sz) size cbs.

(** A client that prepares one cyclic transfer, submits it and issues it. *)
Definition start_stream {H : mach_dma} (E : env) (c : bcm2708_chan)
    (buf_addr buf_len period_len : Z) (direction : dma_transfer_direction)
  : M bcm2708_chan :=
  tx ← bcm2708_dma_prep_dma_cyclic E c buf_addr buf_len period_len direction 0;
  match tx with
  | None => mret c
  | Some vd =>
      r ← vchan_tx_submit (vc c) vd;
      bcm2708_dma_issue_pending (set_vc r.2 c)
  end.

(** A client that prepares and submits one cyclic transfer. *)
Definition queue_stream {H : mach_dma} (E : env) (c : bcm2708_chan)
    (buf_addr buf_len period_len : Z) (direction : dma_transfer_direction)
  : M bcm2708_chan :=
  tx ← bcm2708_dma_prep_dma_cyclic E c buf_addr buf_len period_len direction 0;
  match tx with
  | None => mret c
  | Some vd =>
      r ← vchan_tx_submit (vc c) vd;
      mret (set_vc r.2 c)
  end.

(** *** A receive stream, step by step

    What [queue_stream] and [start_stream] build in [world0] under
    [env_busy]: a first transfer of two periods of 1024 bytes, then a
    second one of two periods of 512 bytes queued behind it. *)

Definition desc_a : bcm2708_desc :=
  {| d_cookie := 2; d_dir := DMA_DEV_TO_MEM; d_control_block_size := 64;
     d_control_block_base := 0x2001; d_control_block_base_phys := 0x5e000100;
     d_frames := 2; d_size := 2048 |}.

Definition chain_a : list bcm2708_dma_cb :=
  [ {| cb_info := 0x30411; cb_src := 0x7e203004; cb_dst := 0x40000000;
       cb_length := 1024; cb_next := 0x5e000120 |};
    {| cb_info := 0x30411; cb_src := 0x7e203004; cb_dst := 0x40000400;
       cb_length := 1024; cb_next := 0x5e000100 |} ].

Definition desc_b : bcm2708_desc :=
  {| d_cookie := 3; d_dir := DMA_DEV_TO_MEM; d_control_block_size := 64;
     d_control_block_base := 0x2004; d_control_block_base_phys := 0x5e000400;
     d_frames := 2; d_size := 1024 |}.

Definition chain_b : list bcm2708_dma_cb :=
  [ {| cb_info := 0x30411; cb_src := 0x7e203004; cb_dst := 0x40001000;
       cb_length := 512; cb_next := 0x5e000420 |};
    {| cb_info := 0x30411; cb_src := 0x7e203004; cb_dst := 0x40001200;
       cb_length := 512; cb_next := 0x5e000400 |} ].

(** The first transfer is queued. *)
Definition chan_queued : bcm2708_chan :=
  {| vc := {| vc_queue := [0x1000]; vc_cookie := 2 |}; node := false;
     cfg := cfg_rx; cyclic := false; ch := 0; desc := None;
     chan_base := 0xf2007000; irq_number := 16 |}.

Definition world_queued : world :=
  {| kheap := {[ 0x1000 := desc_a ]};
     coherent := {[ 0x2001 := chain_a ]};
     trace := [Ev_kzalloc (Some 0x1000);
               Ev_dma_zalloc_coherent 64 (Some (0x2001, 0x5e000100))] |}.

(** The first transfer is running, the second one is queued. *)
Definition chan_running : bcm2708_chan :=
  {| vc := {| vc_queue := [0x1003]; vc_cookie := 3 |}; node := false;
     cfg := cfg_rx; cyclic := true; ch := 0; desc := Some 0x1000;
     chan_base := 0xf2007000; irq_number := 16 |}.

Definition world_running : world :=
  {| kheap := <[ 0x1003 := desc_b ]> {[ 0x1000 := desc_a ]};
     coherent := <[ 0x2004 := chain_b ]> {[ 0x2001 := chain_a ]};
     trace := [Ev_kzalloc (Some 0x1000);
               Ev_dma_zalloc_coherent 64 (Some (0x2001, 0x5e000100));
               Ev_bcm_dma_start 0xf2007000 0x5e000100;
               Ev_kzalloc (Some 0x1003);
               Ev_dma_zalloc_coherent 64 (Some (0x2004, 0x5e000400))] |}.

(** *** A buffer at the top of the address space

    What the builder makes in [world0] under [env_busy] of the last 2048
    bytes of the address space, in two periods of 1024 bytes. *)

Definition desc_top : bcm2708_desc :=
  {| d_cookie := 0; d_dir := DMA_DEV_TO_MEM; d_control_block_size := 64;
     d_control_block_base := 0x2001; d_control_block_base_phys := 0x5e000100;
     d_frames := 2; d_size := 2048 |}.

Definition chain_top : list bcm2708_dma_cb :=
  [ {| cb_info := 0x30411; cb_src := 0x7e203004; cb_dst := 0xfffff800;
       cb_length := 1024; cb_next := 0x5e000120 |};
    {| cb_info := 0x30411; cb_src := 0x7e203004; cb_dst := 0xfffffc00;
       cb_length := 1024; cb_next := 0x5e000100 |} ].

Definition world_top : world :=
  {| kheap := {[ 0x1000 := desc_top ]};
     coherent := {[ 0x2001 := chain_top ]};
     trace := [Ev_kzalloc (Some 0x1000);
               Ev_dma_zalloc_coherent 64 (Some (0x2001, 0x5e000100))] |}.

(** The same descriptor, submitted (cookie 2) and running. *)
Definition desc_top_running : bcm2708_desc := set_d_cookie 2 desc_top.

Definition chan_top_running : bcm2708_chan :=
  {| vc := {| vc_queue := []; vc_cookie := 2 |}; node := false;
     cfg := cfg_rx; cyclic := true; ch := 0; desc := Some 0x1000;
     chan_base := 0xf2007000; irq_number := 16 |}.

Definition world_top_running : world :=
  {| kheap := {[ 0x1000 := desc_top_running ]};
     coherent := {[ 0x2001 := chain_top ]};
     trace := [Ev_kzalloc (Some 0x1000);
               Ev_dma_zalloc_coherent 64 (Some (0x2001, 0x5e000100));
               Ev_bcm_dma_start 0xf2007000 0x5e000100] |}.

(** ** The rest of the driver *)

Inductive dma_ctrl_cmd :=
  | DMA_TERMINATE_ALL
  | DMA_PAUSE
  | DMA_RESUME
  | DMA_SLAVE_CONFIG
  | FSLDMA_EXTERNAL_START.

Definition ENXIO : Z := 6.
Definition ENOMEM : Z := 12.

(** The first cookie of a channel, [DMA_MIN_COOKIE] of the dmaengine core. *)
Definition DMA_MIN_COOKIE : Z := 1.

(** Events that reach the hardware or the client: register accesses, start
    and abort of the engine, the period notification. *)
Definition is_hw_event (ev : event) : bool :=
  match ev with
  | Ev_writel _ _ | Ev_readl _ _ | Ev_bcm_dma_start _ _ | Ev_bcm_dma_abort _
  | Ev_vchan_cyclic_callback _ => true
  | _ => false
  end.

(** [struct bcm2708_dmadev], as far as the driver file uses it: the channel
    count and the list of channels of the generic device. *)
Record bcm2708_dmadev := {
  ddev_chancnt : Z;
  ddev_channels : list bcm2708_chan
}.

(** What [devm_kzalloc] hands out for a configuration: every field zero. *)
Definition zero_cfg : dma_slave_config :=
  {| direction := DMA_MEM_TO_MEM; src_addr := 0; dst_addr := 0;
     src_addr_width := 0; dst_addr_width := 0; slave_id := 0 |}.

(** What the environment answers to [bcm2708_dma_probe]: the result of
    [dma_set_mask], whether the device and the [i]-th channel can be
    allocated, the [i]-th answer of [bcm_dma_chan_alloc] (identifier,
    register base, interrupt line; a negative identifier is a refusal) and
    the result of [dma_async_device_register]. *)
Record probe_env := {
  pe_dma_set_mask : Z;
  pe_kzalloc_dev : bool;
  pe_chan_alloc : nat -> Z * Z * Z;
  pe_kzalloc_chan : nat -> bool;
  pe_device_register : Z
}.

Section DriverRest.

Context {H : mach_dma}.
Variable E : env.

(** [arg] is the configuration the caller points to. *)
Definition bcm2708_dma_control (c : bcm2708_chan) (cmd : dma_ctrl_cmd)
    (arg : dma_slave_config) : M (Z * bcm2708_chan) :=
  match cmd with
  | DMA_SLAVE_CONFIG => mret (bcm2708_dma_slave_config c arg)
  | DMA_TERMINATE_ALL => bcm2708_dma_terminate_all E c
  | _ => mret (- ENXIO, c)
  end.

(** Modelled from the spec: [vchan_free_chan_resources] of "virt-dma.h"
    releases the queued descriptors of the channel: it takes them all off
    the queue and frees them. *)
Definition vchan_free_chan_resources (v : virt_dma_chan) : M virt_dma_chan :=
  _ ← spin_lock_irqsave;
  let '(head, v') := vchan_get_all_descriptors v in
  _ ← spin_unlock_irqrestore;
  _ ← vchan_dma_desc_free_list head;
  mret v'.

(** Modelled from the spec: [free_irq] of the interrupt subsystem
    unregisters the handler of a line; [irqs] is the set of lines with a
    handler. *)
Definition free_irq (irq : Z) (irqs : gset Z) : gset Z := irqs ∖ {[irq]}.

(** Modelled from the spec: [request_irq] of the interrupt subsystem
    registers a handler for a line, or fails with the code [rc] the
    environment chooses. *)
Definition request_irq (rc : Z) (irq : Z) (irqs : gset Z) : Z * gset Z :=
  if decide (rc = 0) then (0, {[irq]} ∪ irqs) else (rc, irqs).

Definition bcm2708_dma_alloc_chan_resources (rc : Z) (c : bcm2708_chan)
    (irqs : gset Z) : Z * gset Z :=
  request_irq rc (irq_number c) irqs.

Definition bcm2708_dma_free_chan_resources (c : bcm2708_chan) (irqs : gset Z)
  : M (bcm2708_chan * gset Z) :=
  v ← vchan_free_chan_resources (vc c);
  mret (set_vc v c, free_irq (irq_number c) irqs).

End DriverRest.

(** [kzalloc_ok] tells whether [devm_kzalloc] has memory for the channel.
    Modelled from the spec: [vchan_init] of "virt-dma.h" gives the channel
    an empty queue and makes it a member of the channels of the device. *)
Definition bcm2708_dma_chan_init (kzalloc_ok : bool) (d : bcm2708_dmadev)
    (chan_base chan_id irq : Z) : Z * bcm2708_dmadev :=
  if kzalloc_ok then
    let c := {| vc := {| vc_queue := []; vc_cookie := DMA_MIN_COOKIE |};
                node := false; cfg := zero_cfg; cyclic := false;
                ch := chan_id; desc := None; chan_base := chan_base;
                irq_number := irq |} in
    (0, {| ddev_chancnt := ddev_chancnt d + 1;
           ddev_channels := ddev_channels d ++ [c] |})
  else (- ENOMEM, d).

(** [while (!list_empty(&od->ddev.channels))]: one channel leaves the list
    at each turn. *)
Fixpoint free_channels (l : list bcm2708_chan) : list bcm2708_chan :=
  match l with
  | [] => []
  | _ :: l' => free_channels l'
  end.

Definition bcm2708_dma_free (od : bcm2708_dmadev) : bcm2708_dmadev :=
  {| ddev_chancnt := ddev_chancnt od;
     ddev_channels := free_channels (ddev_channels od) |}.

(** The loop of [bcm2708_dma_probe] over the hardware channels, with [n]
    iterations left at index [i]; the result code is that of a failed
    [bcm2708_dma_chan_init], or 0. *)
Fixpoint probe_channels (pe : probe_env) (n : nat) (i : nat)
    (od : bcm2708_dmadev) : Z * bcm2708_dmadev :=
  match n with
  | O => (0, od)
  | S n' =>
      let '(chan_id, chan_base, irq) := pe_chan_alloc pe i in
      if decide (chan_id < 0) then (0, od)
      else
        let '(rc, od') :=
          bcm2708_dma_chan_init (pe_kzalloc_chan pe i) od chan_base chan_id irq in
        if decide (rc ≠ 0) then (rc, bcm2708_dma_free od')
        else probe_channels pe n' (S i) od'
  end.

(** The device is [None] when the probe fails before it is allocated. *)
Definition bcm2708_dma_probe (pe : probe_env) : Z * option bcm2708_dmadev :=
  let rc := pe_dma_set_mask pe in
  if decide (rc ≠ 0) then (rc, None)
  else if pe_kzalloc_dev pe then
    let od := {| ddev_chancnt := 0; ddev_channels := [] |} in
    let '(rc, od) := probe_channels pe 16 0 od in
    if decide (rc ≠ 0) then (rc, Some od)
    else
      let rc := pe_device_register pe in
      if decide (rc ≠ 0) then (rc, Some (bcm2708_dma_free od))
      else (rc, Some od)
  else (- ENOMEM, None).

(** The channel that [bcm2708_dma_probe] makes of the [i]-th answer of
    [bcm_dma_chan_alloc]. *)
Definition probed_chan (pe : probe_env) (i : nat) : bcm2708_chan :=
  let '(chan_id, chan_base, irq) := pe_chan_alloc pe i in
  {| vc := {| vc_queue := []; vc_cookie := DMA_MIN_COOKIE |};
     node := false; cfg := zero_cfg; cyclic := false;
     ch := chan_id; desc := None; chan_base := chan_base;
     irq_number := irq |}.

(** A configuration [bcm2708_dma_slave_config] accepts: a memory-to-device
    or device-to-memory direction whose endpoint is 4 bytes wide. *)
Definition config_ok (cf : dma_slave_config) : Prop :=
  (direction cf = DMA_DEV_TO_MEM
   /\ src_addr_width cf = DMA_SLAVE_BUSWIDTH_4_BYTES)
  \/ (direction cf = DMA_MEM_TO_DEV
      /\ dst_addr_width cf = DMA_SLAVE_BUSWIDTH_4_BYTES).

(** *** More environments, for the examples *)

(** No memory at all. *)
Definition env_no_memory : env :=
  {| env_kzalloc := fun _ => None;
     env_dma_zalloc_coherent := fun _ _ => None;
     env_readl := fun _ _ => 0 |}.

(** As [env_busy], but the run bit reads as clear at time [t], and only
    then. *)
Definition env_stops_at (t : nat) : env :=
  {| env_kzalloc := fun n => Some (0x1000 + Z.of_nat n);
     env_dma_zalloc_coherent := fun n _ =>
       Some (0x2000 + Z.of_nat n, 0x5e000000 + 256 * Z.of_nat n);
     env_readl := fun n _ => if decide (n = t) then 0 else 1 |}.

(** Three hardware channels are free, every allocation succeeds. *)
Definition probe_env_three : probe_env :=
  {| pe_dma_set_mask := 0;
     pe_kzalloc_dev := true;
     pe_chan_alloc := fun i =>
       if decide (i < 3)%nat
       then (Z.of_nat i, 0xf2007000 + 0x100 * Z.of_nat i, 16 + Z.of_nat i)
       else (-1, 0, 0);
     pe_kzalloc_chan := fun _ => true;
     pe_device_register := 0 |}.

(** As [probe_env_three], but there is no memory for the second channel. *)
Definition probe_env_short : probe_env :=
  {| pe_dma_set_mask := 0;
     pe_kzalloc_dev := true;
     pe_chan_alloc := fun i =>
       if decide (i < 3)%nat
       then (Z.of_nat i, 0xf2007000 + 0x100 * Z.of_nat i, 16 + Z.of_nat i)
       else (-1, 0, 0);
     pe_kzalloc_chan := fun i => bool_decide (i = 0)%nat;
     pe_device_register := 0 |}.

(** As [env_busy], but every register reads as [v]. *)
Definition env_reads (v : Z) : env :=
  {| env_kzalloc := fun n => Some (0x1000 + Z.of_nat n);
     env_dma_zalloc_coherent := fun n _ =>
       Some (0x2000 + Z.of_nat n, 0x5e000000 + 256 * Z.of_nat n);
     env_readl := fun _ _ => v |}.

(** A cookie status for the examples: nothing ever completes. *)
Definition cookie_in_progress (v : virt_dma_chan) (cookie : Z) : dma_status :=
  DMA_IN_PROGRESS.

(** * Properties *)

(** ** The monad *)

Lemma bind_Ret {A B : Type} (m : M A) (f : A -> M B) (w w' : world) (a : A) :
  m w = Ret a w' -> (m ≫= f) w = f a w'.
Proof. intros Hm. unfold mbind, M_bind. by rewrite Hm. Qed.

Lemma bind_Undef {A B : Type} (m : M A) (f : A -> M B) (w : world) (u : undefined) :
  m w = Undef u -> (m ≫= f) w = Undef u.
Proof. intros Hm. unfold mbind, M_bind. by rewrite Hm. Qed.

Lemma world_eta (w : world) :
  {| kheap := kheap w; coherent := coherent w; trace := trace w |} = w.
Proof. by destruct w. Qed.

(** ** The program builder *)

Section Builder.

Context {H : mach_dma}.
Variable E : env.

Lemma cyclic_frame_spec c d dev_addr sync buf_addr period_len frame w dd cbs :
  kheap w !! d = Some dd ->
  coherent w !! d_control_block_base dd = Some cbs ->
  d_frames dd ≠ 0 ->
  cyclic_frame c d dev_addr sync buf_addr period_len frame w =
    if decide (Z.to_nat frame < length cbs)%nat
    then Ret tt
           {| kheap := <[d := set_d_size (wrap32 (d_size dd + period_len)) dd]> (kheap w);
              coherent :=
                <[d_control_block_base dd :=
                    <[Z.to_nat frame :=
                        frame_cb c dd dev_addr sync buf_addr period_len frame]> cbs]>
                  (coherent w);
              trace := trace w |}
    else Undef OutOfBounds.
Proof.
  intros Hd Hcbs Hfr.
  unfold cyclic_frame, mbind, M_bind, load_desc. rewrite Hd.
  unfold frame_cb, cb_phys_addr.
  destruct (decide (d_dir dd = DMA_DEV_TO_MEM)) as [Hdir|Hdir];
    unfold modify_desc; rewrite Hd; unfold umod;
    (destruct (decide (d_frames dd = 0)) as [|_]; [done|]);
    unfold mret, M_ret, store_cb; simpl; rewrite Hcbs;
    destruct (decide (Z.to_nat frame < length cbs)%nat); reflexivity.
Qed.

Lemma wrap32_u32 z : is_u32 z -> wrap32 z = z.
Proof. intros Hz. unfold wrap32. apply Z.mod_small. exact Hz. Qed.

Lemma wrap32_is_u32 z : is_u32 (wrap32 z).
Proof. unfold is_u32, wrap32. apply Z.mod_pos_bound. lia. Qed.

Lemma wrap32_add_l a b : wrap32 (wrap32 a + b) = wrap32 (a + b).
Proof. unfold wrap32. apply Zplus_mod_idemp_l. Qed.

Lemma set_d_size_id dd : set_d_size (d_size dd) dd = dd.
Proof. by destruct dd. Qed.

(** The loop over the frames, when the array is large enough: the frames
    [k .. k+n-1] are written, the rest of the array is untouched, the size
    of the descriptor grows by [n] periods. *)
Lemma cyclic_frames_ok c d dev_addr sync buf_addr period_len n :
  forall (k : nat) w dd cbs,
  kheap w !! d = Some dd ->
  coherent w !! d_control_block_base dd = Some cbs ->
  d_frames dd ≠ 0 ->
  is_u32 (d_size dd) ->
  (k + n <= length cbs)%nat ->
  exists w' cbs',
    cyclic_frames n c d dev_addr sync buf_addr period_len (Z.of_nat k) w = Ret tt w'
    /\ kheap w' = <[d := set_d_size (wrap32 (d_size dd + Z.of_nat n * period_len)) dd]> (kheap w)
    /\ coherent w' = <[d_control_block_base dd := cbs']> (coherent w)
    /\ trace w' = trace w
    /\ length cbs' = length cbs
    /\ (forall i, (k <= i < k + n)%nat ->
          cbs' !! i = Some (frame_cb c dd dev_addr sync buf_addr period_len (Z.of_nat i)))
    /\ (forall i, ~ (k <= i < k + n)%nat -> cbs' !! i = cbs !! i).
Proof.
  induction n as [|n IH]; intros k w dd cbs Hd Hcbs Hfr Hsz Hlen.
  - exists w, cbs. simpl. split; [done|]. repeat split.
    + rewrite Z.add_0_r, wrap32_u32, set_d_size_id by done. by rewrite insert_id.
    + by rewrite insert_id.
    + intros i Hi. lia.
  - simpl. 
    rewrite (bind_Ret _ _ _ _ _
               ltac:(rewrite (cyclic_frame_spec c d dev_addr sync buf_addr period_len
                                (Z.of_nat k) w dd cbs Hd Hcbs Hfr);
                     rewrite Nat2Z.id; rewrite decide_True by lia; reflexivity)).
    set (dd1 := set_d_size (wrap32 (d_size dd + period_len)) dd).
    set (cb := frame_cb c dd dev_addr sync buf_addr period_len (Z.of_nat k)).
    set (w1 := {| kheap := <[d:=dd1]> (kheap w);
                  coherent := <[d_control_block_base dd := <[k:=cb]> cbs]> (coherent w);
                  trace := trace w |}).
    destruct (IH (S k) w1 dd1 (<[k:=cb]> cbs)) as (w' & cbs' & Hrun & Hk & Hc & Ht & Hl & Hin & Hout).
    + simpl. apply lookup_insert_eq.
    + simpl. apply lookup_insert_eq.
    + done.
    + simpl. apply wrap32_is_u32.
    + rewrite length_insert. lia.
    + exists w', cbs'. replace (Z.of_nat k + 1) with (Z.of_nat (S k)) by lia.
      split; [exact Hrun|]. repeat split.
      * rewrite Hk. simpl. rewrite insert_insert_eq. f_equal.
        unfold dd1, set_d_size; simpl. f_equal.
        rewrite wrap32_add_l. f_equal. lia.
      * rewrite Hc. simpl. by rewrite insert_insert_eq.
      * by rewrite Ht.
      * by rewrite Hl, length_insert.
      * intros i Hi. destruct (decide (i = k)) as [->|Hne].
        -- rewrite Hout by lia. apply list_lookup_insert_eq. lia.
        -- rewrite Hin by lia. reflexivity.
      * intros i Hi. rewrite Hout by lia. apply list_lookup_insert_ne. lia.
Qed.

(** The loop over the frames, when the array is too small: the first
    store outside it is undefined. *)
Lemma cyclic_frames_oob c d dev_addr sync buf_addr period_len n :
  forall (k : nat) w dd cbs,
  kheap w !! d = Some dd ->
  coherent w !! d_control_block_base dd = Some cbs ->
  d_frames dd ≠ 0 ->
  (length cbs < k + n)%nat ->
  (0 < n)%nat ->
  cyclic_frames n c d dev_addr sync buf_addr period_len (Z.of_nat k) w = Undef OutOfBounds.
Proof.
  induction n as [|n IH]; intros k w dd cbs Hd Hcbs Hfr Hlen Hn; [lia|].
  simpl.
  pose proof (cyclic_frame_spec c d dev_addr sync buf_addr period_len
                (Z.of_nat k) w dd cbs Hd Hcbs Hfr) as Hstep.
  rewrite Nat2Z.id in Hstep.
  destruct (decide (k < length cbs)%nat) as [Hin|Hout].
  - rewrite (bind_Ret _ _ _ _ _ Hstep).
    replace (Z.of_nat k + 1) with (Z.of_nat (S k)) by lia.
    eapply IH.
    + simpl. apply lookup_insert_eq.
    + simpl. apply lookup_insert_eq.
    + done.
    + rewrite length_insert. lia.
    + lia.
  - by rewrite (bind_Undef _ _ _ _ Hstep).
Qed.

(** The builder up to its loop: with a valid direction, a 4-byte endpoint,
    a non-zero period and both allocations granted, what is left to run is
    the loop, on a zeroed array. *)
Lemma prep_upto_loop c buf_addr buf_len period_len direction flags w
    dev_addr sync p base phys :
  grabbed c direction dev_addr DMA_SLAVE_BUSWIDTH_4_BYTES sync ->
  period_len ≠ 0 ->
  env_kzalloc E (length (trace w)) = Some p ->
  env_dma_zalloc_coherent E (S (length (trace w)))
    (wrap32 (buf_len / period_len * sizeof_bcm2708_dma_cb)) = Some (base, phys) ->
  bcm2708_dma_prep_dma_cyclic E c buf_addr buf_len period_len direction flags w =
    (cyclic_frames (Z.to_nat (buf_len / period_len)) c p dev_addr sync
       buf_addr period_len 0 ≫= fun _ => vchan_tx_prep (vc c) p flags)
      {| kheap := <[p := built_desc direction buf_len period_len base (wrap32 phys) 0]>
                    (kheap w);
         coherent :=
           <[base := replicate
                       (Z.to_nat (wrap32 (buf_len / period_len * sizeof_bcm2708_dma_cb)
                                  / sizeof_bcm2708_dma_cb)) zero_cb]> (coherent w);
         trace := trace w ++
                    [Ev_kzalloc (Some p);
                     Ev_dma_zalloc_coherent
                       (wrap32 (buf_len / period_len * sizeof_bcm2708_dma_cb))
                       (Some (base, wrap32 phys))] |}.
Proof.
  intros Hgrab Hper Hk Hco.
  unfold bcm2708_dma_prep_dma_cyclic.
  destruct Hgrab as [(-> & -> & Hw & ->)|(-> & -> & Hw & ->)];
    rewrite <- Hw; (rewrite decide_False by (intros Hne; by apply Hne));
    unfold mbind at 1, M_bind at 1, kzalloc_desc; rewrite Hk;
    unfold mbind at 1, M_bind at 1, modify_desc at 1; simpl;
    rewrite lookup_insert_eq;
    unfold mbind at 1, M_bind at 1, udiv; rewrite decide_False by done;
    unfold mret at 1, M_ret at 1;
    unfold mbind at 1, M_bind at 1, modify_desc at 1; simpl;
    rewrite lookup_insert_eq;
    unfold mbind at 1, M_bind at 1, modify_desc at 1; simpl;
    rewrite lookup_insert_eq;
    unfold mbind at 1, M_bind at 1, dma_zalloc_coherent; simpl;
    rewrite length_app, Nat.add_1_r, Hco;
    unfold mbind at 1, M_bind at 1, modify_desc at 1; simpl;
    rewrite lookup_insert_eq;
    rewrite !insert_insert_eq, <- app_assoc; reflexivity.
Qed.

Lemma slave_grabbed c direction :
  is_slave_direction direction = true ->
  exists dev_addr dev_width sync, grabbed c direction dev_addr dev_width sync.
Proof.
  destruct direction; try discriminate; intros _.
  - exists (dst_addr (cfg c)), (dst_addr_width (cfg c)), BCM2708_DMA_D_DREQ.
    right. done.
  - exists (src_addr (cfg c)), (src_addr_width (cfg c)), BCM2708_DMA_S_DREQ.
    left. done.
Qed.

(** An invalid direction is logged and refused. *)
Lemma prep_bad_direction c buf_addr buf_len period_len direction flags w :
  is_slave_direction direction = false ->
  bcm2708_dma_prep_dma_cyclic E c buf_addr buf_len period_len direction flags w =
    Ret None
      {| kheap := kheap w; coherent := coherent w;
         trace := trace w ++ [Ev_dev_err "bcm2708_dma_prep_dma_cyclic: bad direction?"] |}.
Proof. destruct direction; done. Qed.

(** A width other than 4 bytes is refused. *)
Lemma prep_bad_width c buf_addr buf_len period_len direction flags w
    dev_addr dev_width sync :
  grabbed c direction dev_addr dev_width sync ->
  dev_width ≠ DMA_SLAVE_BUSWIDTH_4_BYTES ->
  bcm2708_dma_prep_dma_cyclic E c buf_addr buf_len period_len direction flags w =
    Ret None w.
Proof.
  intros [(-> & -> & -> & ->)|(-> & -> & -> & ->)] Hw;
    unfold bcm2708_dma_prep_dma_cyclic; by rewrite decide_True.
Qed.

(** No memory for the descriptor itself. *)
Lemma prep_kzalloc_fails c buf_addr buf_len period_len direction flags w
    dev_addr sync :
  grabbed c direction dev_addr DMA_SLAVE_BUSWIDTH_4_BYTES sync ->
  env_kzalloc E (length (trace w)) = None ->
  bcm2708_dma_prep_dma_cyclic E c buf_addr buf_len period_len direction flags w =
    Ret None
      {| kheap := kheap w; coherent := coherent w;
         trace := trace w ++ [Ev_kzalloc None] |}.
Proof.
  intros Hgrab Hk. unfold bcm2708_dma_prep_dma_cyclic.
  destruct Hgrab as [(-> & -> & Hw & ->)|(-> & -> & Hw & ->)];
    rewrite <- Hw; (rewrite decide_False by (intros Hne; by apply Hne));
    unfold mbind at 1, M_bind at 1, kzalloc_desc; by rewrite Hk.
Qed.

(** A zero period: the division that computes the number of frames is
    undefined. *)
Lemma prep_zero_period c buf_addr buf_len direction flags w dev_addr sync p :
  grabbed c direction dev_addr DMA_SLAVE_BUSWIDTH_4_BYTES sync ->
  env_kzalloc E (length (trace w)) = Some p ->
  bcm2708_dma_prep_dma_cyclic E c buf_addr buf_len 0 direction flags w =
    Undef DivByZero.
Proof.
  intros Hgrab Hk. unfold bcm2708_dma_prep_dma_cyclic.
  destruct Hgrab as [(-> & -> & Hw & ->)|(-> & -> & Hw & ->)];
    rewrite <- Hw; (rewrite decide_False by (intros Hne; by apply Hne));
    unfold mbind at 1, M_bind at 1, kzalloc_desc; rewrite Hk;
    unfold mbind at 1, M_bind at 1, modify_desc at 1; simpl;
    rewrite lookup_insert_eq; reflexivity.
Qed.

(** No coherent memory for the control blocks: the descriptor is given
    back. *)
Lemma prep_coherent_fails c buf_addr buf_len period_len direction flags w
    dev_addr sync p :
  grabbed c direction dev_addr DMA_SLAVE_BUSWIDTH_4_BYTES sync ->
  period_len ≠ 0 ->
  env_kzalloc E (length (trace w)) = Some p ->
  env_dma_zalloc_coherent E (S (length (trace w)))
    (wrap32 (buf_len / period_len * sizeof_bcm2708_dma_cb)) = None ->
  bcm2708_dma_prep_dma_cyclic E c buf_addr buf_len period_len direction flags w =
    Ret None
      {| kheap := delete p (kheap w); coherent := coherent w;
         trace := trace w ++
                    [Ev_kzalloc (Some p);
                     Ev_dma_zalloc_coherent
                       (wrap32 (buf_len / period_len * sizeof_bcm2708_dma_cb)) None;
                     Ev_kfree p] |}.
Proof.
  intros Hgrab Hper Hk Hco.
  unfold bcm2708_dma_prep_dma_cyclic.
  destruct Hgrab as [(-> & -> & Hw & ->)|(-> & -> & Hw & ->)];
    rewrite <- Hw; (rewrite decide_False by (intros Hne; by apply Hne));
    unfold mbind at 1, M_bind at 1, kzalloc_desc; rewrite Hk;
    unfold mbind at 1, M_bind at 1, modify_desc at 1; simpl;
    rewrite lookup_insert_eq;
    unfold mbind at 1, M_bind at 1, udiv; rewrite decide_False by done;
    unfold mret at 1, M_ret at 1;
    unfold mbind at 1, M_bind at 1, modify_desc at 1; simpl;
    rewrite lookup_insert_eq;
    unfold mbind at 1, M_bind at 1, modify_desc at 1; simpl;
    rewrite lookup_insert_eq;
    unfold mbind at 1, M_bind at 1, dma_zalloc_coherent; simpl;
    rewrite length_app, Nat.add_1_r, Hco;
    unfold mbind at 1, M_bind at 1, kfree; simpl;
    rewrite !insert_insert_eq, delete_insert_eq, <- !app_assoc; reflexivity.
Qed.

(** The builder, when nothing fails and the array of control blocks fits
    in a 32-bit size: the descriptor and its chain. *)
Lemma prep_built c buf_addr buf_len period_len direction flags w
    dev_addr sync p base phys :
  grabbed c direction dev_addr DMA_SLAVE_BUSWIDTH_4_BYTES sync ->
  0 < sizeof_bcm2708_dma_cb ->
  0 <= buf_len -> 0 < period_len ->
  buf_len / period_len * sizeof_bcm2708_dma_cb < 2 ^ 32 ->
  env_kzalloc E (length (trace w)) = Some p ->
  env_dma_zalloc_coherent E (S (length (trace w)))
    (wrap32 (buf_len / period_len * sizeof_bcm2708_dma_cb)) = Some (base, phys) ->
  exists w' cbs,
    bcm2708_dma_prep_dma_cyclic E c buf_addr buf_len period_len direction flags w
      = Ret (Some p) w'
    /\ kheap w' = <[p := built_desc direction buf_len period_len base (wrap32 phys)
                           (wrap32 (buf_len / period_len * period_len))]> (kheap w)
    /\ coherent w' = <[base := cbs]> (coherent w)
    /\ trace w' = trace w ++
                    [Ev_kzalloc (Some p);
                     Ev_dma_zalloc_coherent
                       (wrap32 (buf_len / period_len * sizeof_bcm2708_dma_cb))
                       (Some (base, wrap32 phys))]
    /\ Z.of_nat (length cbs) = buf_len / period_len
    /\ (forall i, (i < length cbs)%nat ->
          cbs !! i = Some (frame_cb c (built_desc direction buf_len period_len base
                                         (wrap32 phys) 0)
                             dev_addr sync buf_addr period_len (Z.of_nat i))).
Proof.
  intros Hgrab Hs Hlen Hper Hfit Hk Hco.
  assert (Hfr : 0 <= buf_len / period_len) by (apply Z.div_pos; lia).
  rewrite (prep_upto_loop c buf_addr buf_len period_len direction flags w
             dev_addr sync p base phys) by (done || lia).
  set (F := buf_len / period_len) in *.
  assert (Hcap : wrap32 (F * sizeof_bcm2708_dma_cb) / sizeof_bcm2708_dma_cb = F).
  { rewrite wrap32_u32 by (unfold is_u32; nia). apply Z.div_mul. lia. }
  rewrite Hcap.
  set (dd := built_desc direction buf_len period_len base (wrap32 phys) 0).
  set (w0 := {| kheap := <[p:=dd]> (kheap w);
                coherent := <[base:=replicate (Z.to_nat F) zero_cb]> (coherent w);
                trace := _ |}).
  destruct (decide (F = 0)) as [HF0|HF0].
  - exists w0, []. rewrite HF0. simpl. split; [done|].
    subst w0 dd. simpl. rewrite HF0. simpl. repeat split; try done.
    intros i Hi. simpl in Hi. lia.
  - destruct (cyclic_frames_ok c p dev_addr sync buf_addr period_len (Z.to_nat F)
                0%nat w0 dd (replicate (Z.to_nat F) zero_cb))
      as (w' & cbs & Hrun & Hkh & Hch & Htr & Hl & Hin & _).
    + subst w0; simpl. apply lookup_insert_eq.
    + subst w0; simpl. apply lookup_insert_eq.
    + done.
    + done.
    + rewrite length_replicate. lia.
    + exists w', cbs. simpl in Hrun. rewrite (bind_Ret _ _ _ _ _ Hrun).
      split; [done|]. rewrite length_replicate in Hl. repeat split.
      * rewrite Hkh. subst w0; simpl. rewrite insert_insert_eq. f_equal.
        unfold set_d_size, dd, built_desc; simpl. f_equal. f_equal.
        rewrite Z2Nat.id by lia. fold F. lia.
      * rewrite Hch. subst w0 dd; simpl. by rewrite insert_insert_eq.
      * by rewrite Htr.
      * rewrite Hl. lia.
      * intros i Hi. apply Hin. lia.
Qed.

(** The builder, when the byte size of the array of control blocks does
    not fit in 32 bits: the allocation is too small and the loop leaves
    it. *)
Lemma prep_overflow c buf_addr buf_len period_len direction flags w
    dev_addr sync p base phys :
  grabbed c direction dev_addr DMA_SLAVE_BUSWIDTH_4_BYTES sync ->
  0 < sizeof_bcm2708_dma_cb ->
  0 <= buf_len -> 0 < period_len ->
  2 ^ 32 <= buf_len / period_len * sizeof_bcm2708_dma_cb ->
  env_kzalloc E (length (trace w)) = Some p ->
  env_dma_zalloc_coherent E (S (length (trace w)))
    (wrap32 (buf_len / period_len * sizeof_bcm2708_dma_cb)) = Some (base, phys) ->
  bcm2708_dma_prep_dma_cyclic E c buf_addr buf_len period_len direction flags w
    = Undef OutOfBounds.
Proof.
  intros Hgrab Hs Hlen Hper Hbig Hk Hco.
  assert (Hfr : 0 <= buf_len / period_len) by (apply Z.div_pos; lia).
  rewrite (prep_upto_loop c buf_addr buf_len period_len direction flags w
             dev_addr sync p base phys) by (done || lia).
  set (F := buf_len / period_len) in *.
  assert (Hcap : wrap32 (F * sizeof_bcm2708_dma_cb) / sizeof_bcm2708_dma_cb < F).
  { apply Z.div_lt_upper_bound; [lia|].
    pose proof (wrap32_is_u32 (F * sizeof_bcm2708_dma_cb)) as Hw.
    unfold is_u32 in Hw. lia. }
  apply bind_Undef.
  eapply (cyclic_frames_oob c p dev_addr sync buf_addr period_len (Z.to_nat F) 0%nat).
  - simpl. apply lookup_insert_eq.
  - simpl. apply lookup_insert_eq.
  - simpl. fold F. nia.
  - rewrite length_replicate.
    assert (0 <= wrap32 (F * sizeof_bcm2708_dma_cb) / sizeof_bcm2708_dma_cb).
    { apply Z.div_pos; [|lia]. apply wrap32_is_u32. }
    lia.
  - nia.
Qed.

(** Whenever the builder returns a descriptor, it is the one of
    [prep_built]: the other paths return NULL or are undefined. *)
Lemma prep_Some_inv c buf_addr buf_len period_len direction flags w p w' :
  0 < sizeof_bcm2708_dma_cb ->
  0 <= buf_len -> 0 <= period_len ->
  bcm2708_dma_prep_dma_cyclic E c buf_addr buf_len period_len direction flags w
    = Ret (Some p) w' ->
  exists dev_addr sync base phys cbs,
    grabbed c direction dev_addr DMA_SLAVE_BUSWIDTH_4_BYTES sync
    /\ 0 < period_len
    /\ buf_len / period_len * sizeof_bcm2708_dma_cb < 2 ^ 32
    /\ is_u32 phys
    /\ kheap w' = <[p := built_desc direction buf_len period_len base phys
                           (wrap32 (buf_len / period_len * period_len))]> (kheap w)
    /\ coherent w' = <[base := cbs]> (coherent w)
    /\ trace w' = trace w ++
                    [Ev_kzalloc (Some p);
                     Ev_dma_zalloc_coherent
                       (wrap32 (buf_len / period_len * sizeof_bcm2708_dma_cb))
                       (Some (base, phys))]
    /\ Z.of_nat (length cbs) = buf_len / period_len
    /\ (forall i, (i < length cbs)%nat ->
          cbs !! i = Some (frame_cb c (built_desc direction buf_len period_len base
                                         phys 0)
                             dev_addr sync buf_addr period_len (Z.of_nat i))).
Proof.
  intros Hs Hlen Hper Hrun.
  destruct (is_slave_direction direction) eqn:Hdir.
  2: { rewrite prep_bad_direction in Hrun by done. discriminate. }
  destruct (slave_grabbed c direction Hdir) as (dev_addr & dev_width & sync & Hgrab).
  destruct (decide (dev_width = DMA_SLAVE_BUSWIDTH_4_BYTES)) as [->|Hw].
  2: { rewrite (prep_bad_width _ _ _ _ _ _ _ _ _ _ Hgrab Hw) in Hrun. discriminate. }
  destruct (env_kzalloc E (length (trace w))) as [p0|] eqn:Hk.
  2: { rewrite (prep_kzalloc_fails _ _ _ _ _ _ _ _ _ Hgrab Hk) in Hrun. discriminate. }
  destruct (decide (period_len = 0)) as [->|Hp0].
  { rewrite (prep_zero_period _ _ _ _ _ _ _ _ _ Hgrab Hk) in Hrun. discriminate. }
  destruct (env_dma_zalloc_coherent E (S (length (trace w)))
              (wrap32 (buf_len / period_len * sizeof_bcm2708_dma_cb)))
    as [[base phys]|] eqn:Hco.
  2: { rewrite (prep_coherent_fails _ _ _ _ _ _ _ _ _ _ Hgrab Hp0 Hk Hco) in Hrun.
       discriminate. }
  destruct (decide (buf_len / period_len * sizeof_bcm2708_dma_cb < 2 ^ 32)) as [Hfit|Hbig].
  2: { rewrite (prep_overflow _ _ _ _ _ _ _ _ _ _ _ _ Hgrab) in Hrun by (done || lia).
       discriminate. }
  destruct (prep_built c buf_addr buf_len period_len direction flags w
              dev_addr sync p0 base phys) as (w1 & cbs & Hrun1 & Hres);
    try (done || lia).
  rewrite Hrun1 in Hrun. injection Hrun as -> ->.
  exists dev_addr, sync, base, (wrap32 phys), cbs.
  split; [done|]. split; [lia|]. split; [done|]. split; [apply wrap32_is_u32|].
  exact Hres.
Qed.

Lemma sum_lengths_const (cbs : list bcm2708_dma_cb) (x : Z) :
  (forall (i : nat) cb, cbs !! i = Some cb -> cb_length cb = x) ->
  sum_lengths cbs = Z.of_nat (length cbs) * x.
Proof.
  induction cbs as [|cb cbs IH]; intros Hall; [done|].
  change (sum_lengths (cb :: cbs)) with (cb_length cb + sum_lengths cbs).
  rewrite (Hall 0%nat cb eq_refl), IH.
  - simpl length. lia.
  - intros i cb' Hi. exact (Hall (S i) cb' Hi).
Qed.

(** C1.  When the period divides the buffer length exactly into
    [frames >= 1] frames, the descriptor that [bcm2708_dma_prep_dma_cyclic]
    returns has exactly [frames] control blocks, each of the length of one
    period; the next-block address of block [i] is the bus address of block
    [(i+1) mod frames], so that of the last block is the bus address of the
    first one; the lengths of the blocks, and the size recorded in the
    descriptor, add up to the buffer length. *)
Theorem prep_cyclic_chain c buf_addr buf_len period_len direction flags w p w' :
  0 < sizeof_bcm2708_dma_cb ->
  is_u32 buf_len -> is_u32 period_len ->
  (period_len | buf_len) ->
  1 <= buf_len / period_len ->
  bcm2708_dma_prep_dma_cyclic E c buf_addr buf_len period_len direction flags w
    = Ret (Some p) w' ->
  exists d cbs,
    kheap w' !! p = Some d
    /\ coherent w' !! d_control_block_base d = Some cbs
    /\ d_frames d = buf_len / period_len
    /\ Z.of_nat (length cbs) = buf_len / period_len
    /\ (forall (i : nat) cb, cbs !! i = Some cb ->
          cb_length cb = period_len
          /\ cb_next cb = cb_phys_addr d ((Z.of_nat i + 1) mod d_frames d))
    /\ (forall cb, last cbs = Some cb ->
          cb_next cb = cb_phys_addr d 0
          /\ cb_phys_addr d 0 = d_control_block_base_phys d)
    /\ sum_lengths cbs = buf_len
    /\ d_size d = buf_len.
Proof.
  intros Hs Hlen Hper [q Hq] Hfr Hrun.
  destruct (prep_Some_inv c buf_addr buf_len period_len direction flags w p w')
    as (dev_addr & sync & base & phys & cbs & Hgrab & Hpos & Hfit & Hphys
        & Hkh & Hch & Htr & Hl & Hcbs); try (done || (unfold is_u32 in *; lia)).
  set (F := buf_len / period_len) in *.
  assert (HF : F * period_len = buf_len).
  { subst F. rewrite Hq, Z.div_mul by lia. done. }
  assert (Hfields : forall (i : nat) cb, cbs !! i = Some cb ->
            cb_length cb = period_len
            /\ cb_next cb = wrap32 (phys + wrap32 (sizeof_bcm2708_dma_cb
                                                     * ((Z.of_nat i + 1) mod F)))).
  { intros i cb Hi.
    assert (Hlt : (i < length cbs)%nat) by (eapply lookup_lt_Some; exact Hi).
    rewrite (Hcbs i Hlt) in Hi. injection Hi as <-.
    unfold frame_cb, cb_phys_addr, built_desc; simpl. fold F. split; [done|].
    rewrite (wrap32_u32 (Z.of_nat i + 1)); [done|].
    unfold is_u32 in *. nia. }
  exists (built_desc direction buf_len period_len base phys (wrap32 (F * period_len))), cbs.
  split; [rewrite Hkh; apply lookup_insert_eq|].
  split; [rewrite Hch; apply lookup_insert_eq|].
  split; [done|]. split; [done|].
  split; [exact Hfields|].
  split.
  { intros cb Hlast. rewrite last_lookup in Hlast.
    destruct (Hfields _ _ Hlast) as [_ Hnext]. split.
    - rewrite Hnext. unfold cb_phys_addr, built_desc; simpl.
      replace (Z.of_nat (Nat.pred (length cbs)) + 1) with F by lia.
      by rewrite Z.mod_same by lia.
    - unfold cb_phys_addr, built_desc; simpl.
      rewrite Z.mul_0_r. change (wrap32 0) with 0.
      rewrite Z.add_0_r. by apply wrap32_u32. }
  split.
  { rewrite (sum_lengths_const cbs period_len).
    - rewrite Hl. exact HF.
    - intros i cb Hi. by destruct (Hfields i cb Hi). }
  unfold built_desc; simpl. rewrite HF. by apply wrap32_u32.
Qed.

Lemma flag_set_self (f : Z) : flag_set f f.
Proof. unfold flag_set. apply Z.land_diag. Qed.

Lemma flag_set_lor_l (f word x : Z) : flag_set f word -> flag_set f (Z.lor word x).
Proof.
  unfold flag_set. intros Hf. apply Z.bits_inj'. intros n Hn.
  apply (f_equal (fun z => Z.testbit z n)) in Hf.
  rewrite Z.land_spec in Hf. rewrite Z.land_spec, Z.lor_spec.
  destruct (Z.testbit word n), (Z.testbit x n), (Z.testbit f n); done.
Qed.

Lemma flag_set_lor_r (f word : Z) : flag_set f (Z.lor word f).
Proof.
  unfold flag_set. apply Z.bits_inj'. intros n Hn.
  rewrite Z.land_spec, Z.lor_spec.
  destruct (Z.testbit word n), (Z.testbit f n); done.
Qed.

Ltac solve_flag_set :=
  first [ apply flag_set_self
        | apply flag_set_lor_r
        | apply flag_set_lor_l; solve_flag_set ].

(** The flag word of every control block has the interrupt enabled and the
    increment of the side that moves through memory. *)
Lemma frame_cb_flags c dd dev_addr sync buf_addr period_len frame :
  flag_set BCM2708_DMA_INT_EN
    (cb_info (frame_cb c dd dev_addr sync buf_addr period_len frame))
  /\ flag_set (if decide (d_dir dd = DMA_DEV_TO_MEM)
               then BCM2708_DMA_D_INC else BCM2708_DMA_S_INC)
       (cb_info (frame_cb c dd dev_addr sync buf_addr period_len frame)).
Proof.
  unfold frame_cb; simpl.
  split; repeat case_decide; solve_flag_set.
Qed.

(** C2.  In a descriptor that [bcm2708_dma_prep_dma_cyclic] returns for a
    buffer lying in the 32-bit address space, with at least one frame:
    device to memory, block [i] writes to [buf_addr + i * period_len] and
    reads from the configured endpoint address, the destinations are
    strictly increasing and the ranges do not overlap, and every flag word
    has the destination increment and the interrupt enable set; memory to
    device, the same with source and destination exchanged and the source
    increment. *)
Theorem prep_cyclic_addresses c buf_addr buf_len period_len direction flags w p w' :
  0 < sizeof_bcm2708_dma_cb ->
  is_u32 buf_addr -> is_u32 buf_len -> is_u32 period_len ->
  buf_addr + buf_len <= 2 ^ 32 ->
  1 <= buf_len / period_len ->
  bcm2708_dma_prep_dma_cyclic E c buf_addr buf_len period_len direction flags w
    = Ret (Some p) w' ->
  exists d cbs,
    kheap w' !! p = Some d
    /\ coherent w' !! d_control_block_base d = Some cbs
    /\ Z.of_nat (length cbs) = buf_len / period_len
    /\ (direction = DMA_DEV_TO_MEM \/ direction = DMA_MEM_TO_DEV)
    /\ (direction = DMA_DEV_TO_MEM ->
          (forall (i : nat) cb, cbs !! i = Some cb ->
             cb_dst cb = buf_addr + Z.of_nat i * period_len
             /\ cb_src cb = src_addr (cfg c)
             /\ flag_set BCM2708_DMA_D_INC (cb_info cb)
             /\ flag_set BCM2708_DMA_INT_EN (cb_info cb))
          /\ (forall (i j : nat) cbi cbj, (i < j)%nat ->
                cbs !! i = Some cbi -> cbs !! j = Some cbj ->
                cb_dst cbi < cb_dst cbj
                /\ cb_dst cbi + cb_length cbi <= cb_dst cbj))
    /\ (direction = DMA_MEM_TO_DEV ->
          (forall (i : nat) cb, cbs !! i = Some cb ->
             cb_src cb = buf_addr + Z.of_nat i * period_len
             /\ cb_dst cb = dst_addr (cfg c)
             /\ flag_set BCM2708_DMA_S_INC (cb_info cb)
             /\ flag_set BCM2708_DMA_INT_EN (cb_info cb))
          /\ (forall (i j : nat) cbi cbj, (i < j)%nat ->
                cbs !! i = Some cbi -> cbs !! j = Some cbj ->
                cb_src cbi < cb_src cbj
                /\ cb_src cbi + cb_length cbi <= cb_src cbj)).
Proof.
  intros Hs Haddr Hlen Hper Hspace Hfr Hrun.
  destruct (prep_Some_inv c buf_addr buf_len period_len direction flags w p w')
    as (dev_addr & sync & base & phys & cbs & Hgrab & Hpos & Hfit & Hphys
        & Hkh & Hch & Htr & Hl & Hcbs); try (done || (unfold is_u32 in *; lia)).
  set (F := buf_len / period_len) in *.
  assert (HF : F * period_len <= buf_len).
  { subst F. rewrite Z.mul_comm. apply Z.mul_div_le. lia. }
  set (dd := built_desc direction buf_len period_len base phys 0) in *.
  assert (Hmem : forall i : nat, (i < length cbs)%nat ->
            wrap32 (buf_addr + wrap32 (Z.of_nat i * period_len))
            = buf_addr + Z.of_nat i * period_len).
  { intros i Hi. unfold is_u32 in *.
    rewrite (wrap32_u32 (Z.of_nat i * period_len)) by (unfold is_u32; nia).
    apply wrap32_u32. unfold is_u32. nia. }
  assert (Hget : forall (i : nat) cb, cbs !! i = Some cb ->
            (i < length cbs)%nat
            /\ cb = frame_cb c dd dev_addr sync buf_addr period_len (Z.of_nat i)).
  { intros i cb Hi.
    assert (Hlt : (i < length cbs)%nat) by (eapply lookup_lt_Some; exact Hi).
    rewrite (Hcbs i Hlt) in Hi. injection Hi as <-. done. }
  exists (built_desc direction buf_len period_len base phys (wrap32 (F * period_len))), cbs.
  split; [rewrite Hkh; apply lookup_insert_eq|].
  split; [rewrite Hch; apply lookup_insert_eq|].
  split; [done|].
  split; [destruct Hgrab as [(-> & _)|(-> & _)]; auto|].
  split.
  - intros ->.
    destruct Hgrab as [(_ & -> & _)|(Hd & _)]; [|congruence].
    assert (Hdst : forall (i : nat) cb, cbs !! i = Some cb ->
              cb_dst cb = buf_addr + Z.of_nat i * period_len
              /\ cb_length cb = period_len).
    { intros i cb Hi. destruct (Hget i cb Hi) as [Hlt ->].
      unfold frame_cb; simpl. split; [by apply Hmem|done]. }
    split.
    + intros i cb Hi. destruct (Hdst i cb Hi) as [Hd _].
      split; [done|]. destruct (Hget i cb Hi) as [Hlt ->].
      pose proof (frame_cb_flags c dd (src_addr (cfg c)) sync buf_addr period_len
                    (Z.of_nat i)) as [Hint Hinc].
      simpl in Hinc. done.
    + intros i j cbi cbj Hij Hi Hj.
      destruct (Hdst i cbi Hi) as [-> ->]. destruct (Hdst j cbj Hj) as [-> _]. nia.
  - intros ->.
    destruct Hgrab as [(Hd & _)|(_ & -> & _)]; [congruence|].
    assert (Hsrc : forall (i : nat) cb, cbs !! i = Some cb ->
              cb_src cb = buf_addr + Z.of_nat i * period_len
              /\ cb_length cb = period_len).
    { intros i cb Hi. destruct (Hget i cb Hi) as [Hlt ->].
      unfold frame_cb; simpl. split; [by apply Hmem|done]. }
    split.
    + intros i cb Hi. destruct (Hsrc i cb Hi) as [Hd _].
      split; [done|]. destruct (Hget i cb Hi) as [Hlt ->].
      pose proof (frame_cb_flags c dd (dst_addr (cfg c)) sync buf_addr period_len
                    (Z.of_nat i)) as [Hint Hinc].
      simpl in Hinc. done.
    + intros i j cbi cbj Hij Hi Hj.
      destruct (Hsrc i cbi Hi) as [-> ->]. destruct (Hsrc j cbj Hj) as [-> _]. nia.
Qed.

(** C3.  A call whose direction is not memory-to-device or
    device-to-memory, or whose configured endpoint width for the direction
    is not 4 bytes, returns NULL; the heap and the coherent memory are
    unchanged and no allocator was called. *)
Theorem prep_rejects_config c buf_addr buf_len period_len direction flags w :
  is_slave_direction direction = false
  \/ (direction = DMA_DEV_TO_MEM
      /\ src_addr_width (cfg c) ≠ DMA_SLAVE_BUSWIDTH_4_BYTES)
  \/ (direction = DMA_MEM_TO_DEV
      /\ dst_addr_width (cfg c) ≠ DMA_SLAVE_BUSWIDTH_4_BYTES) ->
  exists log,
    bcm2708_dma_prep_dma_cyclic E c buf_addr buf_len period_len direction flags w
      = Ret None {| kheap := kheap w; coherent := coherent w;
                    trace := trace w ++ log |}
    /\ filter (fun ev => is_alloc_event ev = true) log = [].
Proof.
  intros [Hdir|[[-> Hw]|[-> Hw]]].
  - exists [Ev_dev_err "bcm2708_dma_prep_dma_cyclic: bad direction?"].
    split; [by apply prep_bad_direction|done].
  - exists []. split; [|done].
    rewrite (prep_bad_width c buf_addr buf_len period_len DMA_DEV_TO_MEM flags w
               (src_addr (cfg c)) (src_addr_width (cfg c)) BCM2708_DMA_S_DREQ);
      [|by left|done].
    by rewrite app_nil_r, world_eta.
  - exists []. split; [|done].
    rewrite (prep_bad_width c buf_addr buf_len period_len DMA_MEM_TO_DEV flags w
               (dst_addr (cfg c)) (dst_addr_width (cfg c)) BCM2708_DMA_D_DREQ);
      [|by right|done].
    by rewrite app_nil_r, world_eta.
Qed.

(** C4.  A call that reaches the allocation of the control blocks and is
    refused coherent memory returns NULL after giving the descriptor back
    to the allocator: heap and coherent memory are as before the call. *)
Theorem prep_coherent_oom c buf_addr buf_len period_len direction flags w
    dev_addr sync p :
  grabbed c direction dev_addr DMA_SLAVE_BUSWIDTH_4_BYTES sync ->
  period_len ≠ 0 ->
  env_kzalloc E (length (trace w)) = Some p ->
  kheap w !! p = None ->
  env_dma_zalloc_coherent E (S (length (trace w)))
    (wrap32 (buf_len / period_len * sizeof_bcm2708_dma_cb)) = None ->
  bcm2708_dma_prep_dma_cyclic E c buf_addr buf_len period_len direction flags w =
    Ret None
      {| kheap := kheap w; coherent := coherent w;
         trace := trace w ++
                    [Ev_kzalloc (Some p);
                     Ev_dma_zalloc_coherent
                       (wrap32 (buf_len / period_len * sizeof_bcm2708_dma_cb)) None;
                     Ev_kfree p] |}.
Proof.
  intros Hgrab Hper Hk Hfresh Hco.
  rewrite (prep_coherent_fails c buf_addr buf_len period_len direction flags w
             dev_addr sync p Hgrab Hper Hk Hco).
  by rewrite delete_id.
Qed.

(** A buffer shorter than one period: the loop has no iteration. *)
Lemma prep_short_buffer c buf_addr buf_len period_len direction flags w
    dev_addr sync :
  grabbed c direction dev_addr DMA_SLAVE_BUSWIDTH_4_BYTES sync ->
  0 <= buf_len < period_len ->
  exists r w',
    bcm2708_dma_prep_dma_cyclic E c buf_addr buf_len period_len direction flags w
      = Ret r w'
    /\ forall p, r = Some p ->
         exists d,
           kheap w' !! p = Some d
           /\ d_frames d = 0 /\ d_size d = 0
           /\ coherent w' !! d_control_block_base d = Some [].
Proof.
  intros Hgrab Hlen.
  assert (HF : buf_len / period_len = 0) by (apply Z.div_small; lia).
  destruct (env_kzalloc E (length (trace w))) as [p0|] eqn:Hk.
  2: { eexists _, _. split; [by eapply prep_kzalloc_fails|]. discriminate. }
  destruct (env_dma_zalloc_coherent E (S (length (trace w)))
              (wrap32 (buf_len / period_len * sizeof_bcm2708_dma_cb)))
    as [[base phys]|] eqn:Hco.
  2: { eexists _, _. split; [eapply prep_coherent_fails; (done || lia)|].
       discriminate. }
  rewrite (prep_upto_loop c buf_addr buf_len period_len direction flags w
             dev_addr sync p0 base phys) by (done || lia).
  rewrite HF. simpl.
  eexists _, _. split; [reflexivity|].
  intros p [= <-]. eexists. simpl.
  split; [apply lookup_insert_eq|]. simpl. rewrite HF.
  split; [done|]. split; [done|].
  rewrite lookup_insert_eq. done.
Qed.

(** C10, as the code has it.  A call with a valid direction, a 4-byte
    endpoint and a buffer shorter than one period computes zero frames; the
    body of the loop, and with it the remainder by the number of frames, is
    never evaluated.  The call is defined, and what it returns is settled
    by the allocators alone: NULL when [kzalloc] is refused, with memory
    as before; NULL when the coherent allocator, asked for 0 bytes, is
    refused, with the descriptor given back; and otherwise the descriptor
    [kzalloc] handed out, of zero frames and size zero over an empty array
    of control blocks, after nothing but the two allocations. *)
Theorem prep_zero_frames c buf_addr buf_len period_len direction flags w
    dev_addr sync :
  grabbed c direction dev_addr DMA_SLAVE_BUSWIDTH_4_BYTES sync ->
  0 <= buf_len < period_len ->
  buf_len / period_len = 0
  /\ (env_kzalloc E (length (trace w)) = None ->
      exists w',
        bcm2708_dma_prep_dma_cyclic E c buf_addr buf_len period_len direction
          flags w = Ret None w'
        /\ kheap w' = kheap w /\ coherent w' = coherent w)
  /\ (forall p,
        env_kzalloc E (length (trace w)) = Some p ->
        env_dma_zalloc_coherent E (S (length (trace w))) 0 = None ->
        exists w',
          bcm2708_dma_prep_dma_cyclic E c buf_addr buf_len period_len direction
            flags w = Ret None w'
          /\ kheap w' = delete p (kheap w) /\ coherent w' = coherent w)
  /\ (forall p base phys,
        env_kzalloc E (length (trace w)) = Some p ->
        env_dma_zalloc_coherent E (S (length (trace w))) 0 = Some (base, phys) ->
        exists w' d,
          bcm2708_dma_prep_dma_cyclic E c buf_addr buf_len period_len direction
            flags w = Ret (Some p) w'
          /\ kheap w' !! p = Some d
          /\ d_frames d = 0 /\ d_size d = 0
          /\ d_control_block_size d = 0 /\ d_control_block_base d = base
          /\ coherent w' !! base = Some []
          /\ new_events w w'
             = [Ev_kzalloc (Some p);
                Ev_dma_zalloc_coherent 0 (Some (base, wrap32 phys))]).
Proof.
  intros Hgrab Hlen.
  assert (HF : buf_len / period_len = 0) by (apply Z.div_small; lia).
  assert (Hsz : wrap32 (buf_len / period_len * sizeof_bcm2708_dma_cb) = 0)
    by (rewrite HF; reflexivity).
  split; [exact HF|]. split; [|split].
  - intros Hk. eexists. split; [by eapply prep_kzalloc_fails|]. done.
  - intros p Hk Hco. eexists.
    split; [eapply prep_coherent_fails; [exact Hgrab|lia|exact Hk|]|done].
    by rewrite Hsz.
  - intros p base phys Hk Hco.
    rewrite (prep_upto_loop c buf_addr buf_len period_len direction flags w
               dev_addr sync p base phys Hgrab ltac:(lia) Hk
               ltac:(by rewrite Hsz)).
    rewrite Hsz, HF. simpl.
    eexists _, _. split; [reflexivity|]. simpl.
    split; [apply lookup_insert_eq|]. simpl.
    split; [exact HF|]. split; [done|]. split; [exact Hsz|]. split; [done|].
    split; [apply lookup_insert_eq|].
    unfold new_events. simpl. by rewrite drop_app_length.
Qed.

End Builder.

(** The scenario of the specification: a buffer of 4096 bytes in periods of
    1024 bytes gives four frames. *)
Lemma prep_cyclic_chain_witness :
  exists p w',
    @bcm2708_dma_prep_dma_cyclic bcm2708 env_busy (chan0 cfg_rx)
      0x40000000 4096 1024 DMA_DEV_TO_MEM 0 world0 = Ret (Some p) w'
    /\ exists d cbs,
         kheap w' !! p = Some d
         /\ coherent w' !! d_control_block_base d = Some cbs
         /\ d_frames d = 4096 / 1024
         /\ Z.of_nat (length cbs) = 4096 / 1024
         /\ (forall (i : nat) cb, cbs !! i = Some cb ->
               cb_length cb = 1024
               /\ cb_next cb = @cb_phys_addr bcm2708 d ((Z.of_nat i + 1) mod d_frames d))
         /\ (forall cb, last cbs = Some cb ->
               cb_next cb = @cb_phys_addr bcm2708 d 0
               /\ @cb_phys_addr bcm2708 d 0 = d_control_block_base_phys d)
         /\ sum_lengths cbs = 4096
         /\ d_size d = 4096.
Proof.
  eexists _, _. split; [vm_compute; reflexivity|].
  apply (@prep_cyclic_chain bcm2708 env_busy (chan0 cfg_rx)
           0x40000000 4096 1024 DMA_DEV_TO_MEM 0 world0).
  - reflexivity.
  - unfold is_u32; lia.
  - unfold is_u32; lia.
  - exists 4. reflexivity.
  - vm_compute. discriminate.
  - vm_compute. reflexivity.
Defined.

(** A transmit buffer of three periods of 512 bytes. *)
Lemma prep_cyclic_addresses_witness :
  exists p w',
    @bcm2708_dma_prep_dma_cyclic bcm2708 env_idle (chan0 cfg_tx)
      0x48000000 1536 512 DMA_MEM_TO_DEV 0 world0 = Ret (Some p) w'
    /\ exists d cbs,
         kheap w' !! p = Some d
         /\ coherent w' !! d_control_block_base d = Some cbs
         /\ Z.of_nat (length cbs) = 1536 / 512
         /\ (DMA_MEM_TO_DEV = DMA_DEV_TO_MEM \/ DMA_MEM_TO_DEV = DMA_MEM_TO_DEV)
         /\ (DMA_MEM_TO_DEV = DMA_DEV_TO_MEM ->
               (forall (i : nat) cb, cbs !! i = Some cb ->
                  cb_dst cb = 0x48000000 + Z.of_nat i * 512
                  /\ cb_src cb = src_addr cfg_tx
                  /\ flag_set (@BCM2708_DMA_D_INC bcm2708) (cb_info cb)
                  /\ flag_set (@BCM2708_DMA_INT_EN bcm2708) (cb_info cb))
               /\ (forall (i j : nat) cbi cbj, (i < j)%nat ->
                     cbs !! i = Some cbi -> cbs !! j = Some cbj ->
                     cb_dst cbi < cb_dst cbj
                     /\ cb_dst cbi + cb_length cbi <= cb_dst cbj))
         /\ (DMA_MEM_TO_DEV = DMA_MEM_TO_DEV ->
               (forall (i : nat) cb, cbs !! i = Some cb ->
                  cb_src cb = 0x48000000 + Z.of_nat i * 512
                  /\ cb_dst cb = dst_addr cfg_tx
                  /\ flag_set (@BCM2708_DMA_S_INC bcm2708) (cb_info cb)
                  /\ flag_set (@BCM2708_DMA_INT_EN bcm2708) (cb_info cb))
               /\ (forall (i j : nat) cbi cbj, (i < j)%nat ->
                     cbs !! i = Some cbi -> cbs !! j = Some cbj ->
                     cb_src cbi < cb_src cbj
                     /\ cb_src cbi + cb_length cbi <= cb_src cbj)).
Proof.
  eexists _, _. split; [vm_compute; reflexivity|].
  apply (@prep_cyclic_addresses bcm2708 env_idle (chan0 cfg_tx)
           0x48000000 1536 512 DMA_MEM_TO_DEV 0 world0).
  - reflexivity.
  - unfold is_u32; lia.
  - unfold is_u32; lia.
  - unfold is_u32; lia.
  - lia.
  - vm_compute. discriminate.
  - vm_compute. reflexivity.
Defined.

(** A 2-byte endpoint: refused, nothing allocated. *)
Lemma prep_rejects_config_witness :
  exists log,
    @bcm2708_dma_prep_dma_cyclic bcm2708 env_busy (chan0 cfg_rx16)
      0x40000000 4096 1024 DMA_DEV_TO_MEM 0 world0
      = Ret None {| kheap := kheap world0; coherent := coherent world0;
                    trace := trace world0 ++ log |}
    /\ filter (fun ev => is_alloc_event ev = true) log = [].
Proof.
  apply (@prep_rejects_config bcm2708 env_busy (chan0 cfg_rx16)
           0x40000000 4096 1024 DMA_DEV_TO_MEM 0 world0).
  right. left. split; [reflexivity|]. vm_compute. discriminate.
Defined.

(** The coherent allocator is exhausted: the descriptor at 0x1000 is
    allocated and freed again. *)
Lemma prep_coherent_oom_witness :
  @bcm2708_dma_prep_dma_cyclic bcm2708 env_no_coherent (chan0 cfg_rx)
    0x40000000 4096 1024 DMA_DEV_TO_MEM 0 world0 =
  Ret None
    {| kheap := kheap world0; coherent := coherent world0;
       trace := trace world0 ++
                  [Ev_kzalloc (Some 0x1000);
                   Ev_dma_zalloc_coherent
                     (wrap32 (4096 / 1024 * @sizeof_bcm2708_dma_cb bcm2708)) None;
                   Ev_kfree 0x1000] |}.
Proof.
  apply (@prep_coherent_oom bcm2708 env_no_coherent (chan0 cfg_rx)
           0x40000000 4096 1024 DMA_DEV_TO_MEM 0 world0
           (src_addr cfg_rx) (@BCM2708_DMA_S_DREQ bcm2708) 0x1000).
  - left. repeat split; reflexivity.
  - lia.
  - reflexivity.
  - reflexivity.
  - reflexivity.
Defined.

(** Half a period of buffer, both allocations granted: the descriptor at
    0x1000, of zero frames. *)
Lemma prep_zero_frames_witness :
  exists w' d,
    @bcm2708_dma_prep_dma_cyclic bcm2708 env_busy (chan0 cfg_rx)
      0x40000000 512 1024 DMA_DEV_TO_MEM 0 world0 = Ret (Some 0x1000) w'
    /\ kheap w' !! 0x1000 = Some d
    /\ d_frames d = 0 /\ d_size d = 0
    /\ d_control_block_size d = 0 /\ d_control_block_base d = 0x2001
    /\ coherent w' !! 0x2001 = Some []
    /\ new_events world0 w'
       = [Ev_kzalloc (Some 0x1000);
          Ev_dma_zalloc_coherent 0 (Some (0x2001, wrap32 0x5e000100))].
Proof.
  destruct (@prep_zero_frames bcm2708 env_busy (chan0 cfg_rx)
              0x40000000 512 1024 DMA_DEV_TO_MEM 0 world0
              (src_addr cfg_rx) (@BCM2708_DMA_S_DREQ bcm2708))
    as (_ & _ & _ & Hok).
  - left. repeat split; reflexivity.
  - lia.
  - exact (Hok 0x1000 0x2001 0x5e000100 eq_refl eq_refl).
Defined.

(** C10, as stated, fails: no call with a valid direction, a 4-byte
    endpoint and a buffer shorter than one period is undefined, so none
    takes a remainder by zero. *)
Lemma prep_short_buffer_defined :
  ~ exists (H : mach_dma) (E : env) c buf_addr buf_len period_len direction
           flags w dev_addr sync u,
      grabbed c direction dev_addr DMA_SLAVE_BUSWIDTH_4_BYTES sync
      /\ 0 <= buf_len < period_len
      /\ bcm2708_dma_prep_dma_cyclic E c buf_addr buf_len period_len direction
           flags w = Undef u.
Proof.
  intros (H & E & c & buf_addr & buf_len & period_len & direction & flags & w
          & dev_addr & sync & u & Hgrab & Hlen & Hrun).
  destruct (prep_short_buffer E c buf_addr buf_len period_len direction flags w
              dev_addr sync Hgrab Hlen) as (r & w' & Hret & _).
  congruence.
Qed.

(** ** The transfer queue and the interrupt handler *)

Section Channel.

Context {H : mach_dma}.
Variable E : env.

(** Starting the head of the queue: it leaves the queue, becomes the
    active descriptor and the hardware is given its chain. *)
Lemma start_desc_head c w vd q d :
  vc_queue (vc c) = vd :: q ->
  kheap w !! vd = Some d ->
  bcm2708_dma_start_desc c w =
    Ret (set_desc (Some vd)
           (set_vc {| vc_queue := q; vc_cookie := vc_cookie (vc c) |} c))
        {| kheap := kheap w; coherent := coherent w;
           trace := trace w ++
                      [Ev_bcm_dma_start (chan_base c) (d_control_block_base_phys d)] |}.
Proof.
  intros Hq Hd. unfold bcm2708_dma_start_desc, vchan_next_desc.
  rewrite Hq. simpl. rewrite decide_True by done.
  unfold mbind, M_bind, load_desc. by rewrite Hd.
Qed.

Lemma issue_pending_active c w :
  is_Some (desc c) ->
  bcm2708_dma_issue_pending c w = Ret (set_cyclic true c) w.
Proof.
  intros Hact. unfold bcm2708_dma_issue_pending. simpl.
  rewrite (bool_decide_eq_true_2 _ Hact), andb_false_r. reflexivity.
Qed.

Lemma set_cyclic_id c : cyclic c = true -> set_cyclic true c = c.
Proof. destruct c; simpl. by intros ->. Qed.

(** [chan_inv] holds of a fresh channel and is kept by every entry point
    that changes the channel. *)
Lemma chan_inv_init cf : chan_inv (chan0 cf).
Proof. intros [? Hd]. discriminate. Qed.

Lemma chan_inv_issue_pending c w c' w' :
  bcm2708_dma_issue_pending c w = Ret c' w' -> chan_inv c'.
Proof.
  unfold bcm2708_dma_issue_pending, bcm2708_dma_start_desc. intros Hrun _.
  unfold mbind, M_bind, mret, M_ret, spin_lock_irqsave, spin_unlock_irqrestore,
    bcm_dma_start, emit, load_desc in Hrun.
  simpl in Hrun.
  destruct (vchan_issue_pending (vc c) && negb (bool_decide (is_Some (desc c)))).
  - destruct (vchan_next_desc (vc c)) as [vd|]; simpl in Hrun.
    + destruct (kheap w !! vd); [|discriminate].
      by injection Hrun as <- _.
    + by injection Hrun as <- _.
  - by injection Hrun as <- _.
Qed.

Lemma chan_inv_no_desc c : desc c = None -> chan_inv c.
Proof. intros Hd [? Hs]. congruence. Qed.

Lemma chan_inv_slave_config c cf :
  chan_inv c -> chan_inv (bcm2708_dma_slave_config c cf).2.
Proof.
  unfold bcm2708_dma_slave_config. intros Hinv.
  by destruct (_ || _); simpl.
Qed.

(** C5.  On a channel without active descriptor and with a non-empty
    queue, [bcm2708_dma_issue_pending] moves the head of the queue to the
    active slot and starts the hardware once, with the bus address of the
    first control block of that descriptor; the channel is then running,
    and issuing again changes nothing.  On any channel with an active
    descriptor the call changes neither the channel nor the world: no
    second start. *)
Theorem issue_pending_spec c w :
  chan_inv c ->
  (forall vd q d,
     desc c = None -> vc_queue (vc c) = vd :: q -> kheap w !! vd = Some d ->
     exists c' w',
       bcm2708_dma_issue_pending c w = Ret c' w'
       /\ desc c' = Some vd
       /\ vc_queue (vc c') = q
       /\ kheap w' = kheap w /\ coherent w' = coherent w
       /\ trace w' = trace w ++
                       [Ev_bcm_dma_start (chan_base c) (d_control_block_base_phys d)]
       /\ bcm2708_dma_issue_pending c' w' = Ret c' w')
  /\ (is_Some (desc c) -> bcm2708_dma_issue_pending c w = Ret c w).
Proof.
  intros Hinv. split.
  - intros vd q d Hnone Hq Hd.
    eexists _, _. split.
    { unfold bcm2708_dma_issue_pending. simpl.
      unfold vchan_issue_pending. rewrite Hq, Hnone. simpl.
      rewrite (bind_Ret spin_lock_irqsave _ w w tt eq_refl).
      rewrite (bind_Ret _ _ _ _ _
                 (start_desc_head (set_cyclic true c) w vd q d Hq Hd)).
      reflexivity. }
    simpl. repeat split; try done.
    rewrite issue_pending_active by (simpl; eauto).
    reflexivity.
  - intros Hact. rewrite issue_pending_active by done.
    by rewrite set_cyclic_id by auto.
Qed.

(** The interrupt handler on a channel with an active descriptor:
    acknowledge, notify, re-arm. *)
Lemma callback_active c w d :
  desc c = Some d ->
  bcm2708_dma_callback c w =
    Ret IRQ_HANDLED
      {| kheap := kheap w; coherent := coherent w;
         trace := trace w ++
                    [Ev_writel BCM2708_DMA_INT (chan_base c + BCM2708_DMA_CS);
                     Ev_vchan_cyclic_callback d;
                     Ev_writel BCM2708_DMA_ACTIVE (chan_base c + BCM2708_DMA_CS)] |}.
Proof.
  intros Hd. unfold bcm2708_dma_callback. rewrite Hd.
  unfold mbind, M_bind, spin_lock_irqsave, writel, vchan_cyclic_callback, dsb,
    spin_unlock_irqrestore, emit, mret, M_ret. simpl.
  by rewrite <- !app_assoc.
Qed.

(** C6 fails on the code.  The interrupt handler on a channel without
    active descriptor skips the notification and leaves memory alone, but
    after the acknowledge it writes the run bit to the control and status
    register all the same: two hardware writes, not one. *)
Theorem callback_without_desc c w :
  desc c = None ->
  bcm2708_dma_callback c w =
    Ret IRQ_HANDLED
      {| kheap := kheap w; coherent := coherent w;
         trace := trace w ++
                    [Ev_writel BCM2708_DMA_INT (chan_base c + BCM2708_DMA_CS);
                     Ev_writel BCM2708_DMA_ACTIVE (chan_base c + BCM2708_DMA_CS)] |}.
Proof.
  intros Hd. unfold bcm2708_dma_callback. rewrite Hd.
  unfold mbind, M_bind, spin_lock_irqsave, writel, dsb,
    spin_unlock_irqrestore, emit, mret, M_ret. simpl.
  by rewrite <- !app_assoc.
Qed.

(** *** Termination *)

Lemma new_events_app w w' log :
  trace w' = trace w ++ log -> new_events w w' = log.
Proof. intros Ht. unfold new_events. rewrite Ht. apply drop_app_length. Qed.

Lemma polls_app l1 l2 : polls (l1 ++ l2) = (polls l1 + polls l2)%nat.
Proof. unfold polls. by rewrite filter_app, length_app. Qed.

(** The polling loop always returns: it reads the register once for each
    unit of [timeout] it uses up, and touches nothing else. *)
Lemma wait_for_stopping_run c n :
  forall w, exists left log,
    wait_for_stopping E n c w
      = Ret left {| kheap := kheap w; coherent := coherent w;
                    trace := trace w ++ log |}
    /\ (left <= n)%nat
    /\ polls log = (n - left)%nat
    /\ kfreed log = []
    /\ ((forall t, Z.land (wrap32 (env_readl E t (chan_base c + BCM2708_DMA_CS)))
                    BCM2708_DMA_ACTIVE ≠ 0) ->
        left = 0%nat /\ is_poll_log (chan_base c + BCM2708_DMA_CS) n log).
Proof.
  induction n as [|n IH]; intros w.
  - exists 0%nat, []. simpl. rewrite app_nil_r, world_eta.
    repeat split; done.
  - simpl. unfold mbind at 1, M_bind at 1, readl at 1.
    set (v := wrap32 (env_readl E (length (trace w)) (chan_base c + BCM2708_DMA_CS))).
    set (w1 := {| kheap := kheap w; coherent := coherent w;
                  trace := trace w ++ [Ev_readl (chan_base c + BCM2708_DMA_CS) v] |}).
    destruct (decide (Z.land v BCM2708_DMA_ACTIVE = 0)) as [Hclr|Hset].
    + exists n, [Ev_readl (chan_base c + BCM2708_DMA_CS) v].
      split; [done|]. split; [lia|]. split; [unfold polls; simpl; lia|].
      split; [done|].
      intros Hnever. exfalso. exact (Hnever _ Hclr).
    + unfold mbind at 1, M_bind at 1, cpu_relax, emit. simpl.
      set (w2 := {| kheap := kheap w; coherent := coherent w;
                    trace := (trace w ++ [Ev_readl (chan_base c + BCM2708_DMA_CS) v])
                               ++ [Ev_cpu_relax] |}).
      destruct (IH w2) as (left & log & Hrun & Hle & Hpolls & Hfree & Hnever).
      exists left, (Ev_readl (chan_base c + BCM2708_DMA_CS) v :: Ev_cpu_relax :: log).
      split.
      { rewrite Hrun. subst w2; simpl. by rewrite <- !app_assoc. }
      split; [lia|]. split.
      { change (Ev_readl (chan_base c + BCM2708_DMA_CS) v :: Ev_cpu_relax :: log)
          with ([Ev_readl (chan_base c + BCM2708_DMA_CS) v; Ev_cpu_relax] ++ log).
        rewrite polls_app, Hpolls. unfold polls at 1; simpl. lia. }
      split; [done|].
      intros Hn. destruct (Hnever Hn) as [-> Hlog]. split; [done|].
      exists v, log. done.
Qed.

(** Freeing a list of distinct live descriptors: each is given back to
    [kfree], its array to the coherent allocator; no register is read. *)
Lemma vchan_dma_desc_free_list_run q :
  forall w, queue_live w q ->
  exists w' log,
    vchan_dma_desc_free_list q w = Ret tt w'
    /\ trace w' = trace w ++ log
    /\ kfreed log = q
    /\ polls log = 0%nat
    /\ (forall x, kheap w' !! x = if decide (x ∈ q) then None else kheap w !! x)
    /\ (forall b, coherent w !! b = None -> coherent w' !! b = None)
    /\ (forall x d, x ∈ q -> kheap w !! x = Some d ->
          coherent w' !! d_control_block_base d = None).
Proof.
  induction q as [|p q IH]; intros w [Hnd Hlive].
  - exists w, []. simpl. rewrite app_nil_r. repeat split; try done.
    intros x d Hx. by apply not_elem_of_nil in Hx.
  - apply NoDup_cons in Hnd as [Hp Hnd].
    destruct (Hlive p) as [d Hd]; [by left|].
    simpl. unfold bcm2708_dma_desc_free.
    unfold mbind at 1 2, M_bind at 1 2, load_desc. rewrite Hd.
    unfold mbind at 1, M_bind at 1, dma_free_coherent, kfree. simpl.
    set (w1 := {| kheap := delete p (kheap w);
                  coherent := delete (d_control_block_base d) (coherent w);
                  trace := _ |}).
    destruct (IH w1) as (w' & log & Hrun & Htr & Hfreed & Hpolls & Hkh & Hmono & Hco).
    { split; [done|]. intros x Hx. subst w1; simpl.
      rewrite lookup_delete_ne by (intros ->; done). apply Hlive. by right. }
    exists w', ([Ev_dma_free_coherent (d_control_block_size d)
                   (d_control_block_base d) (d_control_block_base_phys d);
                 Ev_kfree p] ++ log).
    split; [exact Hrun|]. split.
    { rewrite Htr. subst w1; simpl. by rewrite <- !app_assoc. }
    split; [simpl; by rewrite Hfreed|].
    split; [rewrite polls_app, Hpolls; done|].
    split.
    { intros x. rewrite Hkh. subst w1; simpl.
      destruct (decide (x = p)) as [->|Hne].
      - rewrite decide_False by done. rewrite lookup_delete_eq.
        rewrite decide_True by (by left). done.
      - rewrite lookup_delete_ne by done.
        destruct (decide (x ∈ q)) as [Hin|Hnin].
        + rewrite decide_True by (by right). done.
        + rewrite decide_False; [done|]. intros Hx.
          apply elem_of_cons in Hx as [->|Hx]; done. }
    split.
    { intros b Hb. apply Hmono. subst w1; simpl.
      destruct (decide (b = d_control_block_base d)) as [->|Hne].
      - apply lookup_delete_eq.
      - by rewrite lookup_delete_ne. }
    intros x dx Hx Hdx. apply elem_of_cons in Hx as [->|Hx].
    + rewrite Hd in Hdx. injection Hdx as <-.
      apply Hmono. subst w1; simpl. apply lookup_delete_eq.
    + apply (Hco x dx Hx). subst w1; simpl.
      rewrite lookup_delete_ne by (intros ->; done). done.
Qed.

Lemma set_desc_None_id c : desc c = None -> set_desc None c = c.
Proof. destruct c; simpl. by intros ->. Qed.

(** [bcm2708_dma_terminate_all] on a channel whose queue is sound: it
    always returns 0; the channel is left without active descriptor and
    with an empty queue; the log splits into the stopping of the hardware
    and the freeing of the queue. *)
Lemma terminate_all_run c w :
  queue_live w (vc_queue (vc c)) ->
  exists w' stop_log free_log,
    bcm2708_dma_terminate_all E c w
      = Ret (0, set_vc {| vc_queue := []; vc_cookie := vc_cookie (vc c) |}
                  (set_desc None (set_node false c))) w'
    /\ trace w' = trace w ++ stop_log ++ free_log
    /\ kfreed stop_log = []
    /\ kfreed free_log = vc_queue (vc c)
    /\ polls free_log = 0%nat
    /\ (polls stop_log <= Z.to_nat 10000)%nat
    /\ (desc c = None -> stop_log = [])
    /\ ((forall t, Z.land (wrap32 (env_readl E t (chan_base c + BCM2708_DMA_CS)))
                    BCM2708_DMA_ACTIVE ≠ 0) ->
        is_Some (desc c) ->
        exists poll_log,
          stop_log = Ev_bcm_dma_abort (chan_base c) :: poll_log
                       ++ [Ev_dev_err "DMA transfer could not be terminated"]
          /\ is_poll_log (chan_base c + BCM2708_DMA_CS) (Z.to_nat 10000) poll_log)
    /\ (forall x, kheap w' !! x
                  = if decide (x ∈ vc_queue (vc c)) then None else kheap w !! x)
    /\ (forall b, coherent w !! b = None -> coherent w' !! b = None)
    /\ (forall x d, x ∈ vc_queue (vc c) -> kheap w !! x = Some d ->
          coherent w' !! d_control_block_base d = None).
Proof.
  intros Hlive.
  unfold bcm2708_dma_terminate_all. cbv zeta.
  set (n := Z.to_nat 10000). clearbody n.
  rewrite (bind_Ret spin_lock_irqsave _ w w tt eq_refl).
  destruct (desc c) as [p|] eqn:Hdesc.
  - change (desc (set_node false c)) with (desc c). rewrite Hdesc.
    set (c2 := set_desc None (set_node false c)).
    set (wa := {| kheap := kheap w; coherent := coherent w;
                  trace := trace w ++ [Ev_bcm_dma_abort (chan_base c)] |}).
    destruct (wait_for_stopping_run c2 n wa)
      as (left & plog & Hwait & Hle & Hpolls & Hpfree & Hnever).
    set (tail := if decide (Z.of_nat left <= 0)
                 then [Ev_dev_err "DMA transfer could not be terminated"]
                 else []).
    set (wb := {| kheap := kheap w; coherent := coherent w;
                  trace := trace w ++ (Ev_bcm_dma_abort (chan_base c) :: plog ++ tail) |}).
    destruct (vchan_dma_desc_free_list_run (vc_queue (vc c)) wb Hlive)
      as (w' & flog & Hfree & Htr & Hfreed & Hfpolls & Hkh & Hmono & Hco).
    exists w', (Ev_bcm_dma_abort (chan_base c) :: plog ++ tail), flog.
    split.
    { unfold mbind at 1, M_bind at 1.
      unfold mbind at 1, M_bind at 1, bcm_dma_abort at 1, emit at 1.
      unfold mbind at 1, M_bind at 1.
      change (wait_for_stopping E n _ _) with (wait_for_stopping E n c2 wa).
      rewrite Hwait.
      unfold mbind at 1, M_bind at 1, dev_err, emit, mret, M_ret.
      unfold vchan_get_all_descriptors, spin_unlock_irqrestore.
      clear Htr Hkh Hmono Hco. unfold wb, tail in Hfree.
      destruct (decide (Z.of_nat left <= 0)); simpl;
        unfold mbind, M_bind; simpl;
        rewrite <- !app_assoc; simpl; rewrite ?app_nil_r in Hfree;
        by rewrite Hfree. }
    split; [rewrite Htr; unfold wb; cbn [trace]; by rewrite <- app_assoc|].
    assert (Htail : kfreed tail = [] /\ polls tail = 0%nat).
    { subst tail. by destruct (decide _). }
    destruct Htail as [Htf Htp].
    split.
    { change (Ev_bcm_dma_abort (chan_base c) :: plog ++ tail)
        with ([Ev_bcm_dma_abort (chan_base c)] ++ plog ++ tail).
      unfold kfreed in *. rewrite !omap_app, Hpfree, Htf. done. }
    split; [done|]. split; [done|].
    split.
    { change (Ev_bcm_dma_abort (chan_base c) :: plog ++ tail)
        with ([Ev_bcm_dma_abort (chan_base c)] ++ plog ++ tail).
      rewrite !polls_app, Hpolls, Htp. unfold polls at 1; simpl. lia. }
    split; [discriminate|].
    split; [|done].
    intros Hn _. destruct (Hnever Hn) as [-> Hlog].
    exists plog. split; [|done]. subst tail. by rewrite decide_True by lia.
  - change (desc (set_node false c)) with (desc c). rewrite Hdesc.
    destruct (vchan_dma_desc_free_list_run (vc_queue (vc c)) w Hlive)
      as (w' & flog & Hfree & Htr & Hfreed & Hfpolls & Hkh & Hmono & Hco).
    exists w', [], flog.
    split.
    { unfold mbind, M_bind, mret, M_ret, vchan_get_all_descriptors,
        spin_unlock_irqrestore. simpl. rewrite Hfree.
      rewrite (set_desc_None_id (set_node false c)) by done. done. }
    split; [done|]. split; [done|]. split; [done|]. split; [done|].
    split; [unfold polls; simpl; lia|].
    split; [done|]. split; [|done].
    intros _ [? ?]. discriminate.
Qed.

(** Terminating an idle channel changes nothing and succeeds. *)
Lemma terminate_all_idle c w :
  desc c = None -> vc_queue (vc c) = [] -> node c = false ->
  bcm2708_dma_terminate_all E c w = Ret (0, c) w.
Proof.
  intros Hd Hq Hn. unfold bcm2708_dma_terminate_all. cbv zeta.
  rewrite (bind_Ret spin_lock_irqsave _ w w tt eq_refl).
  change (desc (set_node false c)) with (desc c). rewrite Hd.
  unfold mbind, M_bind, mret, M_ret, vchan_get_all_descriptors,
    spin_unlock_irqrestore. simpl. rewrite Hq. simpl.
  destruct c as [[q k] nd cf cy chn ds base irq]; simpl in *. by subst.
Qed.

(** C8 fails on the code.  Terminating a running channel clears the active
    slot, empties the queue, gives every queued descriptor back to the
    allocator and returns 0, and a second call changes nothing; but the
    descriptor that was active left the queue when it was started, its
    only reference is overwritten with NULL, and it is never freed: it is
    still in the heap afterwards. *)
Theorem terminate_all_leaks_active c w p d :
  desc c = Some p ->
  kheap w !! p = Some d ->
  p ∉ vc_queue (vc c) ->
  queue_live w (vc_queue (vc c)) ->
  exists c' w',
    bcm2708_dma_terminate_all E c w = Ret (0, c') w'
    /\ desc c' = None
    /\ vc_queue (vc c') = []
    /\ (forall x, x ∈ vc_queue (vc c) -> kheap w' !! x = None)
    /\ kfreed (new_events w w') = vc_queue (vc c)
    /\ bcm2708_dma_terminate_all E c' w' = Ret (0, c') w'
    /\ kheap w' !! p = Some d.
Proof.
  intros Hdesc Hd Hp Hlive.
  destruct (terminate_all_run c w Hlive)
    as (w' & slog & flog & Hrun & Htr & Hsfree & Hffree & _ & _ & _ & _ & Hkh & _).
  eexists _, w'. split; [exact Hrun|]. simpl.
  split; [done|]. split; [done|].
  split; [intros x Hx; rewrite Hkh; by rewrite decide_True|].
  split.
  { rewrite (new_events_app w w' (slog ++ flog) Htr).
    unfold kfreed in *. by rewrite omap_app, Hsfree, Hffree. }
  split; [by apply terminate_all_idle|].
  rewrite Hkh. by rewrite decide_False.
Qed.

(** C9.  [bcm2708_dma_terminate_all] returns 0 on every channel whose
    queue is sound, whatever the hardware answers; it reads the control
    and status register at most 10000 times and leaves the channel without
    active descriptor and with an empty queue.  When a descriptor was
    active and the run bit reads as set at every poll, the call aborts the
    hardware, polls exactly 10000 times with a [cpu_relax] after each
    poll, logs that the transfer could not be terminated, and goes on to
    free the queue. *)
Theorem terminate_all_bounded c w :
  queue_live w (vc_queue (vc c)) ->
  exists c' w',
    bcm2708_dma_terminate_all E c w = Ret (0, c') w'
    /\ desc c' = None
    /\ vc_queue (vc c') = []
    /\ Z.of_nat (polls (new_events w w')) <= 10000
    /\ ((forall t, Z.land (wrap32 (env_readl E t (chan_base c + BCM2708_DMA_CS)))
                    BCM2708_DMA_ACTIVE ≠ 0) ->
        is_Some (desc c) ->
        exists poll_log free_log,
          new_events w w'
            = Ev_bcm_dma_abort (chan_base c) :: poll_log
                ++ Ev_dev_err "DMA transfer could not be terminated" :: free_log
          /\ is_poll_log (chan_base c + BCM2708_DMA_CS) (Z.to_nat 10000) poll_log
          /\ polls free_log = 0%nat).
Proof.
  intros Hlive.
  destruct (terminate_all_run c w Hlive)
    as (w' & slog & flog & Hrun & Htr & _ & _ & Hfp & Hsp & _ & Hnever & _).
  eexists _, w'. split; [exact Hrun|].
  split; [reflexivity|]. split; [reflexivity|].
  rewrite (new_events_app w w' (slog ++ flog) Htr).
  split; [rewrite polls_app, Hfp; lia|].
  intros Hn Hact. destruct (Hnever Hn Hact) as (plog & -> & Hpoll).
  exists plog, flog. split; [|split; [exact Hpoll|exact Hfp]].
  rewrite <- app_comm_cons, <- app_assoc. reflexivity.
Qed.

End Channel.

(** ** The residue *)

Section Residue.

Context {H : mach_dma}.
Variable E : env.

Lemma size_pos_step_next d addr i size w cbs cb :
  coherent w !! d_control_block_base d = Some cbs ->
  cbs !! Z.to_nat i = Some cb ->
  size_pos_step d addr i size w = Ret (size_pos_next d addr cb size) w.
Proof.
  intros Hcbs Hcb. unfold size_pos_step, mbind, M_bind, load_cb.
  rewrite Hcbs, Hcb. unfold size_pos_next, step_addr.
  repeat case_decide; reflexivity.
Qed.

(** The loop reads the blocks [i .. i+n-1] in order and touches nothing. *)
Lemma size_pos_loop_fold d addr w cbs n :
  forall (i : nat) size,
  coherent w !! d_control_block_base d = Some cbs ->
  (i + n <= length cbs)%nat ->
  size_pos_loop n d addr (Z.of_nat i) size w
    = Ret (size_pos_fold d addr (take n (drop i cbs)) size) w.
Proof.
  induction n as [|n IH]; intros i size Hcbs Hlen.
  - by rewrite take_0.
  - destruct (lookup_lt_is_Some_2 cbs i ltac:(lia)) as [cb Hcb].
    simpl.
    rewrite (bind_Ret _ _ _ _ _
               (size_pos_step_next d addr (Z.of_nat i) size w cbs cb Hcbs
                  ltac:(by rewrite Nat2Z.id))).
    replace (Z.of_nat i + 1) with (Z.of_nat (S i)) by lia.
    rewrite IH by (done || lia).
    rewrite (drop_S cbs cb i Hcb). reflexivity.
Qed.

Lemma sum_lengths_app l1 l2 :
  sum_lengths (l1 ++ l2) = sum_lengths l1 + sum_lengths l2.
Proof.
  induction l1 as [|cb l1 IH]; [done|].
  change (cb_length cb + sum_lengths (l1 ++ l2)
          = cb_length cb + sum_lengths l1 + sum_lengths l2).
  rewrite IH. lia.
Qed.

Lemma sum_lengths_nonneg l :
  (forall cb, cb ∈ l -> 0 <= cb_length cb) -> 0 <= sum_lengths l.
Proof.
  induction l as [|cb l IH]; intros Hl; [done|].
  change (0 <= cb_length cb + sum_lengths l).
  pose proof (Hl cb ltac:(by left)).
  pose proof (IH ltac:(intros x Hx; apply Hl; by right)). lia.
Qed.

Lemma size_pos_fold_cons d addr cb l size :
  size_pos_fold d addr (cb :: l) size
  = size_pos_fold d addr l (size_pos_next d addr cb size).
Proof. reflexivity. Qed.

(** Once the position is found, the remaining lengths are added. *)
Lemma size_pos_fold_found d addr l :
  forall size,
  (forall cb, cb ∈ l -> 0 <= cb_length cb) ->
  0 < size -> size + sum_lengths l < 2 ^ 32 ->
  size_pos_fold d addr l size = size + sum_lengths l.
Proof.
  induction l as [|cb l IH]; intros size Hl Hsz Hsum.
  - simpl. unfold sum_lengths. simpl. lia.
  - change (sum_lengths (cb :: l)) with (cb_length cb + sum_lengths l) in *.
    pose proof (Hl cb ltac:(by left)) as Hcb.
    pose proof (sum_lengths_nonneg l ltac:(intros x Hx; apply Hl; by right)) as Hrest.
    rewrite size_pos_fold_cons.
    unfold size_pos_next. rewrite decide_True by lia.
    rewrite wrap32_u32 by (unfold is_u32; lia).
    rewrite IH; [lia| |lia|lia].
    intros x Hx. apply Hl. by right.
Qed.

(** Steps that do not contain the position leave the size at zero. *)
Lemma size_pos_fold_miss d addr l :
  (forall cb, cb ∈ l ->
     0 <= step_addr d cb /\ 0 <= cb_length cb
     /\ step_addr d cb + cb_length cb < 2 ^ 32) ->
  (forall cb, cb ∈ l -> ~ in_step d cb addr) ->
  size_pos_fold d addr l 0 = 0.
Proof.
  induction l as [|cb l IH]; intros Hl Hmiss; [done|].
  rewrite size_pos_fold_cons.
  destruct (Hl cb ltac:(by left)) as (Ha & Hlen & Hend).
  pose proof (Hmiss cb ltac:(by left)) as Hcb. unfold in_step in Hcb.
  unfold size_pos_next. rewrite decide_False by lia.
  rewrite wrap32_u32 by (unfold is_u32; lia).
  rewrite decide_False by lia.
  apply IH.
  - intros x Hx. apply Hl. by right.
  - intros x Hx. apply Hmiss. by right.
Qed.

(** The step that contains the position contributes what is left of it. *)
Lemma size_pos_next_hit d addr cb :
  0 <= step_addr d cb -> step_addr d cb + cb_length cb < 2 ^ 32 ->
  in_step d cb addr ->
  size_pos_next d addr cb 0 = step_addr d cb + cb_length cb - addr.
Proof.
  intros Ha Hend Hin. unfold in_step in Hin. unfold size_pos_next.
  rewrite decide_False by lia.
  rewrite (wrap32_u32 (step_addr d cb + cb_length cb)) by (unfold is_u32; lia).
  rewrite decide_True by lia.
  rewrite (wrap32_u32 (step_addr d cb + cb_length cb - addr)) by (unfold is_u32; lia).
  apply wrap32_u32. unfold is_u32. lia.
Qed.

Lemma desc_size_pos_fold d addr w cbs :
  coherent w !! d_control_block_base d = Some cbs ->
  Z.of_nat (length cbs) = d_frames d ->
  bcm2708_dma_desc_size_pos d addr w = Ret (size_pos_fold d addr cbs 0) w.
Proof.
  intros Hcbs Hlen. unfold bcm2708_dma_desc_size_pos.
  rewrite <- Hlen, Nat2Z.id.
  pose proof (size_pos_loop_fold d addr w cbs (length cbs) 0%nat 0 Hcbs
                ltac:(lia)) as Hloop.
  change (Z.of_nat 0) with 0 in Hloop. rewrite Hloop.
  by rewrite drop_0, firstn_all.
Qed.

(** A step that ends at 2^32: the end of its range wraps around to 0 in
    the comparison, which is false for every position. *)
Lemma size_pos_next_top d addr cb :
  0 <= step_addr d cb ->
  step_addr d cb + cb_length cb = 2 ^ 32 ->
  size_pos_next d addr cb 0 = 0.
Proof.
  intros Ha Hend. unfold size_pos_next.
  rewrite decide_False by lia.
  rewrite Hend. change (wrap32 (2 ^ 32)) with 0.
  by rewrite decide_False by lia.
Qed.

(** Steps that do not contain the position, or end at 2^32, leave the
    size at zero. *)
Lemma size_pos_fold_skip d addr l :
  (forall cb, cb ∈ l ->
     0 <= step_addr d cb /\ 0 <= cb_length cb
     /\ step_addr d cb + cb_length cb <= 2 ^ 32
     /\ (~ in_step d cb addr \/ step_addr d cb + cb_length cb = 2 ^ 32)) ->
  size_pos_fold d addr l 0 = 0.
Proof.
  induction l as [|cb l IH]; intros Hl; [done|].
  rewrite size_pos_fold_cons.
  destruct (Hl cb ltac:(by left)) as (Ha & Hlen & Hend & Hskip).
  assert (Hnext : size_pos_next d addr cb 0 = 0).
  { destruct (decide (step_addr d cb + cb_length cb = 2 ^ 32)) as [Htop|Hlow].
    - by apply size_pos_next_top.
    - destruct Hskip as [Hmiss|Htop]; [|done].
      unfold in_step in Hmiss. unfold size_pos_next.
      rewrite decide_False by lia.
      rewrite wrap32_u32 by (unfold is_u32; lia).
      by rewrite decide_False by lia. }
  rewrite Hnext. apply IH. intros x Hx. apply Hl. by right.
Qed.

Lemma chain_ok_fits d cbs : chain_ok d cbs -> chain_fits d cbs.
Proof.
  intros (Hlen & Hrange & Hord & Hsum).
  split; [done|]. split; [|done].
  intros i cb Hi. destruct (Hrange i cb Hi) as (Ha & Hl & Hend). lia.
Qed.

(** The loop of [bcm2708_dma_desc_size_pos] at a position inside step [i]
    of a chain as the builder leaves it. *)
Lemma size_pos_fold_fits d cbs pos (i : nat) cb :
  chain_fits d cbs ->
  cbs !! i = Some cb ->
  in_step d cb pos ->
  size_pos_fold d pos cbs 0
  = if decide (step_addr d cb + cb_length cb = 2 ^ 32) then 0
    else step_addr d cb + cb_length cb - pos + sum_lengths (drop (S i) cbs).
Proof.
  intros (Hlen & Hrange & Hord & Hsum) Hi Hin.
  destruct (Hrange i cb Hi) as (Ha & Hl & Hend).
  pose proof Hin as Hin'. unfold in_step in Hin'.
  destruct (decide (step_addr d cb + cb_length cb = 2 ^ 32)) as [Htop|Hlow].
  - apply size_pos_fold_skip. intros x Hx.
    apply list_elem_of_lookup in Hx as [j Hj].
    destruct (Hrange j x Hj) as (Hxa & Hxl & Hxend).
    split; [lia|]. split; [done|]. split; [done|].
    destruct (lt_eq_lt_dec j i) as [[Hlt| ->]|Hgt].
    + left. pose proof (Hord j i x cb Hlt Hj Hi). unfold in_step. lia.
    + right. rewrite Hi in Hj. by injection Hj as <-.
    + pose proof (Hord i j cb x Hgt Hi Hj). lia.
  - pose proof (take_drop_middle cbs i cb Hi) as Hsplit.
    assert (Hnn : forall x, x ∈ cbs -> 0 <= cb_length x).
    { intros x Hx. apply list_elem_of_lookup in Hx as [j Hj].
      by destruct (Hrange j x Hj) as (_ & ? & _). }
    rewrite <- Hsplit at 1. unfold size_pos_fold. rewrite foldl_app.
    fold (size_pos_fold d pos (take i cbs) 0).
    rewrite size_pos_fold_skip.
    + simpl. fold (size_pos_fold d pos (drop (S i) cbs)).
      rewrite size_pos_next_hit by (done || lia).
      assert (Htot : sum_lengths cbs
                     = sum_lengths (take i cbs) + (cb_length cb
                                                   + sum_lengths (drop (S i) cbs))).
      { rewrite <- Hsplit at 1. by rewrite sum_lengths_app. }
      assert (0 <= sum_lengths (take i cbs)).
      { apply sum_lengths_nonneg. intros x Hx. apply Hnn.
        rewrite <- Hsplit. apply elem_of_app. by left. }
      apply size_pos_fold_found; [|lia|lia].
      intros x Hx. apply Hnn. rewrite <- Hsplit.
      apply elem_of_app. right. by right.
    + intros x Hx. apply elem_of_take in Hx as (j & Hj & Hlt).
      destruct (Hrange j x Hj) as (Hxa & Hxl & Hxend).
      pose proof (Hord j i x cb Hlt Hj Hi).
      split; [lia|]. split; [done|]. split; [done|].
      left. unfold in_step. lia.
Qed.

(** C7, as the code has it.  For a descriptor whose chain is as the
    builder leaves it, and every position: [bcm2708_dma_desc_size_pos]
    walks the chain once from the first control block and changes nothing;
    the address it compares is the destination of a device-to-memory
    descriptor and the source otherwise; when the position lies in no
    range the result is 0; when it lies in the range of step [i] the
    result is the rest of that step plus the lengths of all later steps,
    except in a step that ends at 2^32, the top of the address space:
    there the end of the range, computed in 32 bits, wraps around to 0, the
    comparison fails and the result is 0, although the position lies
    inside the step. *)
Theorem desc_size_pos_top_step d cbs pos w :
  coherent w !! d_control_block_base d = Some cbs ->
  chain_fits d cbs ->
  (forall cb, step_addr d cb
              = if decide (d_dir d = DMA_DEV_TO_MEM) then cb_dst cb else cb_src cb)
  /\ (forall (i : nat) cb,
        cbs !! i = Some cb -> in_step d cb pos ->
        bcm2708_dma_desc_size_pos d pos w
          = Ret (if decide (step_addr d cb + cb_length cb = 2 ^ 32) then 0
                 else step_addr d cb + cb_length cb - pos
                      + sum_lengths (drop (S i) cbs)) w)
  /\ ((forall (i : nat) cb, cbs !! i = Some cb -> ~ in_step d cb pos) ->
      bcm2708_dma_desc_size_pos d pos w = Ret 0 w).
Proof.
  intros Hcbs Hfits.
  split; [done|]. split.
  - intros i cb Hi Hin.
    rewrite (desc_size_pos_fold d pos w cbs Hcbs (proj1 Hfits)). f_equal.
    by apply size_pos_fold_fits.
  - intros Hmiss. destruct Hfits as (Hlen & Hrange & _).
    rewrite (desc_size_pos_fold d pos w cbs Hcbs Hlen). f_equal.
    apply size_pos_fold_skip. intros x Hx.
    apply list_elem_of_lookup in Hx as [j Hj].
    destruct (Hrange j x Hj) as (Hxa & Hxl & Hxend).
    split; [lia|]. split; [done|]. split; [done|].
    left. by apply (Hmiss j).
Qed.

(** The chains the builder makes for a buffer strictly inside the address
    space are the ones [chain_ok] describes. *)
Lemma prep_chain_ok c buf_addr buf_len period_len direction flags w p w' :
  0 < sizeof_bcm2708_dma_cb ->
  is_u32 buf_addr -> is_u32 buf_len -> is_u32 period_len ->
  buf_addr + buf_len < 2 ^ 32 ->
  bcm2708_dma_prep_dma_cyclic E c buf_addr buf_len period_len direction flags w
    = Ret (Some p) w' ->
  exists d cbs,
    kheap w' !! p = Some d
    /\ coherent w' !! d_control_block_base d = Some cbs
    /\ chain_ok d cbs.
Proof.
  intros Hs Haddr Hlen Hper Hspace Hrun.
  destruct (prep_Some_inv E c buf_addr buf_len period_len direction flags w p w')
    as (dev_addr & sync & base & phys & cbs & Hgrab & Hpos & Hfit & Hphys
        & Hkh & Hch & Htr & Hl & Hcbs); try (done || (unfold is_u32 in *; lia)).
  set (F := buf_len / period_len) in *.
  assert (HF : F * period_len <= buf_len).
  { subst F. rewrite Z.mul_comm. apply Z.mul_div_le. lia. }
  set (d := built_desc direction buf_len period_len base phys (wrap32 (F * period_len))).
  assert (Hstep : forall (i : nat) cb, cbs !! i = Some cb ->
            step_addr d cb = buf_addr + Z.of_nat i * period_len
            /\ cb_length cb = period_len /\ Z.of_nat i < F).
  { intros i cb Hi.
    assert (Hlt : (i < length cbs)%nat) by (eapply lookup_lt_Some; exact Hi).
    rewrite (Hcbs i Hlt) in Hi. injection Hi as <-.
    unfold step_addr, frame_cb, d, built_desc; simpl.
    unfold is_u32 in *.
    assert (Hmem : wrap32 (buf_addr + wrap32 (Z.of_nat i * period_len))
                   = buf_addr + Z.of_nat i * period_len).
    { rewrite (wrap32_u32 (Z.of_nat i * period_len)) by (unfold is_u32; nia).
      apply wrap32_u32. unfold is_u32. nia. }
    split; [by case_decide|]. split; [done|lia]. }
  exists d, cbs.
  split; [rewrite Hkh; apply lookup_insert_eq|].
  split; [rewrite Hch; apply lookup_insert_eq|].
  unfold is_u32 in *.
  split; [done|]. split; [|split].
  - intros i cb Hi. destruct (Hstep i cb Hi) as (-> & -> & Hi'). nia.
  - intros i j cbi cbj Hij Hi Hj.
    destruct (Hstep i cbi Hi) as (-> & -> & _).
    destruct (Hstep j cbj Hj) as (-> & _ & _). nia.
  - rewrite (sum_lengths_const cbs period_len).
    + rewrite Hl. lia.
    + intros i cb Hi. by destruct (Hstep i cb Hi) as (_ & -> & _).
Qed.

(** The chains the builder makes for a buffer anywhere in the address
    space, its last byte included, are the ones [chain_fits] describes. *)
Lemma prep_chain_fits c buf_addr buf_len period_len direction flags w p w' :
  0 < sizeof_bcm2708_dma_cb ->
  is_u32 buf_addr -> is_u32 buf_len -> is_u32 period_len ->
  buf_addr + buf_len <= 2 ^ 32 ->
  bcm2708_dma_prep_dma_cyclic E c buf_addr buf_len period_len direction flags w
    = Ret (Some p) w' ->
  exists d cbs,
    kheap w' !! p = Some d
    /\ coherent w' !! d_control_block_base d = Some cbs
    /\ chain_fits d cbs.
Proof.
  intros Hs Haddr Hlen Hper Hspace Hrun.
  destruct (prep_Some_inv E c buf_addr buf_len period_len direction flags w p w')
    as (dev_addr & sync & base & phys & cbs & Hgrab & Hpos & Hfit & Hphys
        & Hkh & Hch & Htr & Hl & Hcbs); try (done || (unfold is_u32 in *; lia)).
  set (F := buf_len / period_len) in *.
  assert (HF : F * period_len <= buf_len).
  { subst F. rewrite Z.mul_comm. apply Z.mul_div_le. lia. }
  set (d := built_desc direction buf_len period_len base phys (wrap32 (F * period_len))).
  assert (Hstep : forall (i : nat) cb, cbs !! i = Some cb ->
            step_addr d cb = buf_addr + Z.of_nat i * period_len
            /\ cb_length cb = period_len /\ Z.of_nat i < F).
  { intros i cb Hi.
    assert (Hlt : (i < length cbs)%nat) by (eapply lookup_lt_Some; exact Hi).
    rewrite (Hcbs i Hlt) in Hi. injection Hi as <-.
    unfold step_addr, frame_cb, d, built_desc; simpl.
    unfold is_u32 in *.
    assert (Hmem : wrap32 (buf_addr + wrap32 (Z.of_nat i * period_len))
                   = buf_addr + Z.of_nat i * period_len).
    { rewrite (wrap32_u32 (Z.of_nat i * period_len)) by (unfold is_u32; nia).
      apply wrap32_u32. unfold is_u32. nia. }
    split; [by case_decide|]. split; [done|lia]. }
  exists d, cbs.
  split; [rewrite Hkh; apply lookup_insert_eq|].
  split; [rewrite Hch; apply lookup_insert_eq|].
  unfold is_u32 in *.
  split; [done|]. split; [|split].
  - intros i cb Hi. destruct (Hstep i cb Hi) as (-> & -> & Hi'). nia.
  - intros i j cbi cbj Hij Hi Hj.
    destruct (Hstep i cbi Hi) as (-> & -> & _).
    destruct (Hstep j cbj Hj) as (-> & _ & _). nia.
  - rewrite (sum_lengths_const cbs period_len).
    + rewrite Hl. lia.
    + intros i cb Hi. by destruct (Hstep i cb Hi) as (_ & -> & _).
Qed.

(** [bcm2708_dma_tx_status] for the cookie of the active descriptor: the
    position is read from the destination address register of a
    device-to-memory transfer and from the source address register of a
    memory-to-device transfer, and handed to
    [bcm2708_dma_desc_size_pos]. *)
Lemma tx_status_active dma_cookie_status c cookie w p d :
  dma_cookie_status (vc c) cookie ≠ DMA_COMPLETE ->
  vchan_find_desc (vc c) cookie w = Ret None w ->
  desc c = Some p ->
  kheap w !! p = Some d ->
  d_cookie d = cookie ->
  d_dir d = DMA_DEV_TO_MEM \/ d_dir d = DMA_MEM_TO_DEV ->
  let reg := if decide (d_dir d = DMA_DEV_TO_MEM)
             then BCM2708_DMA_DEST_AD else BCM2708_DMA_SOURCE_AD in
  let pos := wrap32 (env_readl E (length (trace w)) (chan_base c + reg)) in
  let w1 := {| kheap := kheap w; coherent := coherent w;
               trace := trace w ++ [Ev_readl (chan_base c + reg) pos] |} in
  bcm2708_dma_tx_status E dma_cookie_status c cookie true w =
    match bcm2708_dma_desc_size_pos d pos w1 with
    | Ret residue w2 => Ret (dma_cookie_status (vc c) cookie, Some residue) w2
    | Undef u => Undef u
    end.
Proof.
  intros Hst Hfind Hdesc Hd Hck Hdir reg pos w1.
  unfold bcm2708_dma_tx_status. rewrite decide_False by done. simpl.
  rewrite (bind_Ret spin_lock_irqsave _ w w tt eq_refl).
  rewrite (bind_Ret _ _ _ _ _ Hfind). rewrite Hdesc.
  unfold mbind at 1, M_bind at 1.
  unfold mbind at 1, M_bind at 1, load_desc. rewrite Hd.
  rewrite decide_True by done.
  subst reg pos w1.
  destruct Hdir as [Hdir|Hdir]; rewrite Hdir; simpl;
    unfold mbind, M_bind, readl, spin_unlock_irqrestore, mret, M_ret;
    by destruct (bcm2708_dma_desc_size_pos _ _ _).
Qed.

End Residue.

(** ** The example stream *)

(** The example states are states of the driver: the client calls reach
    them from the initial world. *)
Example queue_stream_reaches_queued :
  @queue_stream bcm2708 env_busy (chan0 cfg_rx) 0x40000000 2048 1024
    DMA_DEV_TO_MEM world0 = Ret chan_queued world_queued.
Proof. vm_compute. reflexivity. Qed.

Example start_stream_reaches_running :
  (c ← @start_stream bcm2708 env_busy (chan0 cfg_rx) 0x40000000 2048 1024
         DMA_DEV_TO_MEM;
   @queue_stream bcm2708 env_busy c 0x40001000 1024 512 DMA_DEV_TO_MEM) world0
  = Ret chan_running world_running.
Proof. vm_compute. reflexivity. Qed.

Lemma queue_live_running : queue_live world_running (vc_queue (vc chan_running)).
Proof.
  split.
  - apply NoDup_singleton.
  - intros p Hp. apply list_elem_of_singleton in Hp as ->.
    exists desc_b. reflexivity.
Defined.

(** Issuing the queued transfer starts it once; issuing on the running
    channel does nothing. *)
Lemma issue_pending_spec_witness :
  (exists c' w',
     bcm2708_dma_issue_pending chan_queued world_queued = Ret c' w'
     /\ desc c' = Some 0x1000
     /\ vc_queue (vc c') = []
     /\ kheap w' = kheap world_queued /\ coherent w' = coherent world_queued
     /\ trace w' = trace world_queued ++
                     [Ev_bcm_dma_start (chan_base chan_queued)
                        (d_control_block_base_phys desc_a)]
     /\ bcm2708_dma_issue_pending c' w' = Ret c' w')
  /\ bcm2708_dma_issue_pending chan_running world_running
     = Ret chan_running world_running.
Proof.
  split.
  - apply (proj1 (issue_pending_spec chan_queued world_queued
                    ltac:(intros [? Hd]; discriminate Hd)) 0x1000 [] desc_a);
      reflexivity.
  - apply (proj2 (issue_pending_spec chan_running world_running
                    ltac:(intros _; reflexivity))).
    exists 0x1000. reflexivity.
Defined.

(** An interrupt on the fresh channel, which has no active descriptor:
    the run bit is written after the acknowledge. *)
Lemma callback_without_desc_witness :
  @bcm2708_dma_callback bcm2708 (chan0 cfg_rx) world0 =
    Ret IRQ_HANDLED
      {| kheap := kheap world0; coherent := coherent world0;
         trace := trace world0 ++
                    [Ev_writel (@BCM2708_DMA_INT bcm2708)
                       (chan_base (chan0 cfg_rx) + @BCM2708_DMA_CS bcm2708);
                     Ev_writel (@BCM2708_DMA_ACTIVE bcm2708)
                       (chan_base (chan0 cfg_rx) + @BCM2708_DMA_CS bcm2708)] |}.
Proof.
  apply (@callback_without_desc bcm2708 (chan0 cfg_rx) world0). reflexivity.
Defined.

(** Terminating the running example channel: the queued descriptor 0x1003
    is freed, the descriptor 0x1000 that was active stays in the heap. *)
Lemma terminate_all_leaks_active_witness :
  exists c' w',
    @bcm2708_dma_terminate_all bcm2708 env_busy chan_running world_running
      = Ret (0, c') w'
    /\ desc c' = None
    /\ vc_queue (vc c') = []
    /\ (forall x, x ∈ vc_queue (vc chan_running) -> kheap w' !! x = None)
    /\ kfreed (new_events world_running w') = vc_queue (vc chan_running)
    /\ @bcm2708_dma_terminate_all bcm2708 env_busy c' w' = Ret (0, c') w'
    /\ kheap w' !! 0x1000 = Some desc_a.
Proof.
  apply (@terminate_all_leaks_active bcm2708 env_busy chan_running world_running
           0x1000 desc_a).
  - reflexivity.
  - reflexivity.
  - intros Hin. apply list_elem_of_singleton in Hin. discriminate Hin.
  - exact queue_live_running.
Defined.

(** Terminating the running example channel while the run bit stays set:
    10000 polls, the log entry, success. *)
Lemma terminate_all_bounded_witness :
  exists c' w',
    @bcm2708_dma_terminate_all bcm2708 env_busy chan_running world_running
      = Ret (0, c') w'
    /\ desc c' = None
    /\ vc_queue (vc c') = []
    /\ Z.of_nat (polls (new_events world_running w')) <= 10000
    /\ exists poll_log free_log,
         new_events world_running w'
           = Ev_bcm_dma_abort (chan_base chan_running) :: poll_log
               ++ Ev_dev_err "DMA transfer could not be terminated" :: free_log
         /\ is_poll_log (chan_base chan_running + @BCM2708_DMA_CS bcm2708)
              (Z.to_nat 10000) poll_log
         /\ polls free_log = 0%nat.
Proof.
  destruct (@terminate_all_bounded bcm2708 env_busy chan_running world_running
              queue_live_running)
    as (c' & w' & Hrun & Hdesc & Hq & Hpolls & Hnever).
  exists c', w'.
  split; [exact Hrun|]. split; [exact Hdesc|]. split; [exact Hq|].
  split; [exact Hpolls|].
  apply Hnever.
  - intros t. vm_compute. discriminate.
  - exists 0x1000. reflexivity.
Defined.

Lemma chain_ok_a : chain_ok desc_a chain_a.
Proof.
  split; [reflexivity|]. split; [|split].
  - intros [|[|i]] cb Hcb; try discriminate Hcb;
      injection Hcb as <-; unfold step_addr; simpl; lia.
  - intros [|[|i]] [|[|j]] cbi cbj Hij Hi Hj;
      try discriminate Hi; try discriminate Hj; try lia.
    injection Hi as <-. injection Hj as <-. unfold step_addr; simpl; lia.
  - reflexivity.
Defined.

Lemma chain_fits_top : chain_fits desc_top chain_top.
Proof.
  split; [reflexivity|]. split; [|split].
  - intros [|[|i]] cb Hcb; try discriminate Hcb;
      injection Hcb as <-; unfold step_addr; simpl; lia.
  - intros [|[|i]] [|[|j]] cbi cbj Hij Hi Hj;
      try discriminate Hi; try discriminate Hj; try lia.
    injection Hi as <-. injection Hj as <-. unfold step_addr; simpl; lia.
  - reflexivity.
Defined.

(** The builder returns [desc_top] for the last 2048 bytes of the address
    space. *)
Example prep_reaches_top :
  @bcm2708_dma_prep_dma_cyclic bcm2708 env_busy (chan0 cfg_rx)
    0xfffff800 2048 1024 DMA_DEV_TO_MEM 0 world0 = Ret (Some 0x1000) world_top.
Proof. vm_compute. reflexivity. Qed.

(** The residue of the transfer at the top of the address space: 256 bytes
    into its first period, the 768 bytes left of it and the whole second
    period; 256 bytes into its second period, which ends at 2^32: 0, where
    768 bytes are left; at the last byte of the buffer: 0, where 1 byte is
    left. *)
Lemma desc_size_pos_top_step_witness :
  bcm2708_dma_desc_size_pos desc_top 0xfffff900 world_top = Ret 1792 world_top
  /\ bcm2708_dma_desc_size_pos desc_top 0xfffffd00 world_top = Ret 0 world_top
  /\ bcm2708_dma_desc_size_pos desc_top 0xffffffff world_top = Ret 0 world_top.
Proof.
  split; [|split].
  - apply (proj1 (proj2 (desc_size_pos_top_step desc_top chain_top 0xfffff900
                           world_top eq_refl chain_fits_top)) 0%nat _ eq_refl).
    unfold in_step, step_addr; simpl; lia.
  - apply (proj1 (proj2 (desc_size_pos_top_step desc_top chain_top 0xfffffd00
                           world_top eq_refl chain_fits_top)) 1%nat _ eq_refl).
    unfold in_step, step_addr; simpl; lia.
  - apply (proj1 (proj2 (desc_size_pos_top_step desc_top chain_top 0xffffffff
                           world_top eq_refl chain_fits_top)) 1%nat _ eq_refl).
    unfold in_step, step_addr; simpl; lia.
Defined.

(** Half a period of buffer, evaluated: the builder returns the descriptor
    at 0x1000 with no frame and an empty array of control blocks. *)
Example prep_half_period :
  match @bcm2708_dma_prep_dma_cyclic bcm2708 env_busy (chan0 cfg_rx)
          0x40000000 512 1024 DMA_DEV_TO_MEM 0 world0 with
  | Ret (Some p) w' =>
      p = 0x1000
      /\ kheap w' !! p
         = Some {| d_cookie := 0; d_dir := DMA_DEV_TO_MEM;
                   d_control_block_size := 0; d_control_block_base := 0x2001;
                   d_control_block_base_phys := 0x5e000100;
                   d_frames := 0; d_size := 0 |}
      /\ coherent w' !! 0x2001 = Some []
      /\ trace w' = [Ev_kzalloc (Some 0x1000);
                     Ev_dma_zalloc_coherent 0 (Some (0x2001, 0x5e000100))]
  | _ => False
  end.
Proof. vm_compute. repeat split. Qed.

(** Terminating the running example channel when the hardware stops at
    once, evaluated: one poll, the queued descriptor 0x1003 and its array
    are freed, the descriptor 0x1000 and its array remain. *)
Example terminate_running_evaluated :
  @bcm2708_dma_terminate_all bcm2708 env_idle chan_running world_running =
    Ret (0, {| vc := {| vc_queue := []; vc_cookie := 3 |}; node := false;
               cfg := cfg_rx; cyclic := true; ch := 0; desc := None;
               chan_base := 0xf2007000; irq_number := 16 |})
        {| kheap := {[ 0x1000 := desc_a ]};
           coherent := {[ 0x2001 := chain_a ]};
           trace := trace world_running ++
                      [Ev_bcm_dma_abort 0xf2007000;
                       Ev_readl 0xf2007000 0;
                       Ev_dma_free_coherent 64 0x2004 0x5e000400;
                       Ev_kfree 0x1003] |}.
Proof. vm_compute. reflexivity. Qed.

(** An interrupt that arrives after that termination, evaluated: the
    handler sets the run bit again. *)
Example callback_after_terminate :
  match @bcm2708_dma_terminate_all bcm2708 env_idle chan_running world_running with
  | Ret (_, c') w' =>
      match @bcm2708_dma_callback bcm2708 c' w' with
      | Ret r w'' =>
          r = IRQ_HANDLED
          /\ new_events w' w'' = [Ev_writel 4 0xf2007000; Ev_writel 1 0xf2007000]
      | Undef _ => False
      end
  | Undef _ => False
  end.
Proof. vm_compute. split; reflexivity. Qed.

(** * More of the driver *)

(** ** More on the program builder *)

Ltac flag_set_tac :=
  first [ apply flag_set_self
        | apply flag_set_lor_r
        | apply flag_set_lor_l; flag_set_tac ].

Section BuilderMore.

Context {H : mach_dma}.
Variable E : env.

(** X1.  With a valid direction, a 4-byte endpoint, a non-zero period, both
    allocations granted and an array of control blocks whose byte size fits
    32 bits, [bcm2708_dma_prep_dma_cyclic] returns the descriptor [kzalloc]
    handed out: it asks the coherent allocator for
    [frames * sizeof (struct bcm2708_dma_cb)] bytes, records direction,
    number of frames, size and bus address, leaves the cookie at zero, and
    touches no other object of the heap or of the coherent memory. *)
Theorem prep_returns_descriptor c buf_addr buf_len period_len direction flags w
    dev_addr sync p base phys :
  grabbed c direction dev_addr DMA_SLAVE_BUSWIDTH_4_BYTES sync ->
  0 < sizeof_bcm2708_dma_cb ->
  0 <= buf_len -> 0 < period_len ->
  buf_len / period_len * sizeof_bcm2708_dma_cb < 2 ^ 32 ->
  env_kzalloc E (length (trace w)) = Some p ->
  env_dma_zalloc_coherent E (S (length (trace w)))
    (wrap32 (buf_len / period_len * sizeof_bcm2708_dma_cb)) = Some (base, phys) ->
  exists w' d,
    bcm2708_dma_prep_dma_cyclic E c buf_addr buf_len period_len direction flags w
      = Ret (Some p) w'
    /\ new_events w w'
       = [Ev_kzalloc (Some p);
          Ev_dma_zalloc_coherent (buf_len / period_len * sizeof_bcm2708_dma_cb)
            (Some (base, wrap32 phys))]
    /\ kheap w' !! p = Some d
    /\ d_cookie d = 0 /\ d_dir d = direction
    /\ d_frames d = buf_len / period_len
    /\ d_control_block_size d = buf_len / period_len * sizeof_bcm2708_dma_cb
    /\ d_control_block_base d = base
    /\ d_control_block_base_phys d = wrap32 phys
    /\ (forall q, q ≠ p -> kheap w' !! q = kheap w !! q)
    /\ (forall b, b ≠ base -> coherent w' !! b = coherent w !! b).
Proof.
  intros Hgrab Hs Hlen Hper Hfit Hk Hco.
  destruct (prep_built E c buf_addr buf_len period_len direction flags w
              dev_addr sync p base phys Hgrab Hs Hlen Hper Hfit Hk Hco)
    as (w' & cbs & Hrun & Hkh & Hch & Htr & _).
  assert (Hfr : 0 <= buf_len / period_len) by (apply Z.div_pos; lia).
  assert (Hsz : wrap32 (buf_len / period_len * sizeof_bcm2708_dma_cb)
                = buf_len / period_len * sizeof_bcm2708_dma_cb).
  { apply wrap32_u32. unfold is_u32. nia. }
  eexists w', _. split; [exact Hrun|].
  split; [rewrite (new_events_app w w' _ Htr); by rewrite Hsz|].
  split; [rewrite Hkh; apply lookup_insert_eq|].
  unfold built_desc; simpl.
  repeat (split; [done|]).
  split.
  - intros q Hq. rewrite Hkh. by apply lookup_insert_ne.
  - intros b Hb. rewrite Hch. by apply lookup_insert_ne.
Qed.

(** X2.  When the byte size of the array of control blocks does not fit 32
    bits, [d->control_block_size] wraps around, the allocation is smaller
    than [frames] blocks and the loop stores outside it: the call is
    undefined. *)
Theorem prep_size_overflow c buf_addr buf_len period_len direction flags w
    dev_addr sync p base phys :
  grabbed c direction dev_addr DMA_SLAVE_BUSWIDTH_4_BYTES sync ->
  0 < sizeof_bcm2708_dma_cb ->
  0 <= buf_len -> 0 < period_len ->
  2 ^ 32 <= buf_len / period_len * sizeof_bcm2708_dma_cb ->
  env_kzalloc E (length (trace w)) = Some p ->
  env_dma_zalloc_coherent E (S (length (trace w)))
    (wrap32 (buf_len / period_len * sizeof_bcm2708_dma_cb)) = Some (base, phys) ->
  bcm2708_dma_prep_dma_cyclic E c buf_addr buf_len period_len direction flags w
    = Undef OutOfBounds.
Proof. apply prep_overflow. Qed.

(** X3.  A zero period never yields a descriptor: the descriptor is
    allocated first, and with it in hand the division that computes the
    number of frames is undefined. *)
Theorem prep_period_zero c buf_addr buf_len direction flags w dev_addr sync p :
  grabbed c direction dev_addr DMA_SLAVE_BUSWIDTH_4_BYTES sync ->
  env_kzalloc E (length (trace w)) = Some p ->
  bcm2708_dma_prep_dma_cyclic E c buf_addr buf_len 0 direction flags w
    = Undef DivByZero.
Proof. apply prep_zero_period. Qed.

(** X4.  When [kzalloc] has no memory for the descriptor the call returns
    NULL at once, whatever the buffer and the period (a zero period
    included): memory is unchanged and the coherent allocator is not
    asked. *)
Theorem prep_kzalloc_oom c buf_addr buf_len period_len direction flags w
    dev_addr sync :
  grabbed c direction dev_addr DMA_SLAVE_BUSWIDTH_4_BYTES sync ->
  env_kzalloc E (length (trace w)) = None ->
  exists w',
    bcm2708_dma_prep_dma_cyclic E c buf_addr buf_len period_len direction flags w
      = Ret None w'
    /\ kheap w' = kheap w /\ coherent w' = coherent w
    /\ new_events w w' = [Ev_kzalloc None].
Proof.
  intros Hgrab Hk. eexists. split; [by eapply prep_kzalloc_fails|].
  simpl. repeat split. by apply new_events_app.
Qed.

(** X5.  The number of frames is the quotient of the integer division: a
    returned descriptor covers [buf_len - buf_len mod period_len] bytes,
    which is what its size and the lengths of its control blocks add up
    to, and every block ends within that part of the buffer; the last
    [buf_len mod period_len] bytes of the buffer, less than one period,
    belong to no block. *)
Theorem prep_truncates_tail c buf_addr buf_len period_len direction flags w p w' :
  0 < sizeof_bcm2708_dma_cb ->
  is_u32 buf_addr -> is_u32 buf_len -> is_u32 period_len ->
  buf_addr + buf_len <= 2 ^ 32 ->
  bcm2708_dma_prep_dma_cyclic E c buf_addr buf_len period_len direction flags w
    = Ret (Some p) w' ->
  exists d cbs,
    kheap w' !! p = Some d
    /\ coherent w' !! d_control_block_base d = Some cbs
    /\ d_size d = buf_len - buf_len mod period_len
    /\ sum_lengths cbs = d_size d
    /\ 0 <= buf_len - d_size d < period_len
    /\ (forall (i : nat) cb, cbs !! i = Some cb ->
          buf_addr <= step_addr d cb
          /\ step_addr d cb + cb_length cb <= buf_addr + d_size d).
Proof.
  intros Hs Haddr Hlen Hper Hspace Hrun.
  destruct (prep_Some_inv E c buf_addr buf_len period_len direction flags w p w')
    as (dev_addr & sync & base & phys & cbs & Hgrab & Hpos & Hfit & Hphys
        & Hkh & Hch & Htr & Hl & Hcbs); try (done || (unfold is_u32 in *; lia)).
  set (F := buf_len / period_len) in *.
  assert (HF : F * period_len = buf_len - buf_len mod period_len).
  { subst F. pose proof (Z.div_mod buf_len period_len ltac:(lia)). lia. }
  pose proof (Z.mod_pos_bound buf_len period_len Hpos) as Hmod.
  unfold is_u32 in *.
  set (d := built_desc direction buf_len period_len base phys (wrap32 (F * period_len))).
  assert (Hstep : forall (i : nat) cb, cbs !! i = Some cb ->
            step_addr d cb = buf_addr + Z.of_nat i * period_len
            /\ cb_length cb = period_len /\ Z.of_nat i < F).
  { intros i cb Hi.
    assert (Hlt : (i < length cbs)%nat) by (eapply lookup_lt_Some; exact Hi).
    rewrite (Hcbs i Hlt) in Hi. injection Hi as <-.
    unfold step_addr, frame_cb, d, built_desc; simpl.
    assert (Hmem : wrap32 (buf_addr + wrap32 (Z.of_nat i * period_len))
                   = buf_addr + Z.of_nat i * period_len).
    { rewrite (wrap32_u32 (Z.of_nat i * period_len)) by (unfold is_u32; nia).
      apply wrap32_u32. unfold is_u32. nia. }
    split; [by case_decide|]. split; [done|lia]. }
  assert (Hsize : d_size d = buf_len - buf_len mod period_len).
  { unfold d, built_desc; simpl. rewrite HF. apply wrap32_u32. unfold is_u32. lia. }
  exists d, cbs.
  split; [rewrite Hkh; apply lookup_insert_eq|].
  split; [rewrite Hch; apply lookup_insert_eq|].
  split; [exact Hsize|].
  split.
  { rewrite (sum_lengths_const cbs period_len).
    - rewrite Hl, Hsize. exact HF.
    - intros i cb Hi. by destruct (Hstep i cb Hi) as (_ & -> & _). }
  split; [rewrite Hsize; lia|].
  intros i cb Hi. destruct (Hstep i cb Hi) as (-> & -> & Hi').
  rewrite Hsize, <- HF. nia.
Qed.

(** X6.  Every control block of a returned descriptor selects the request
    line of the endpoint: the source request flag for device to memory,
    the destination request flag for memory to device; the peripheral map
    of the configured slave identifier is set when that identifier is
    non-zero, and with a zero identifier the flag word is exactly
    increment, interrupt enable and request line. *)
Theorem prep_request_line c buf_addr buf_len period_len direction flags w p w' :
  0 < sizeof_bcm2708_dma_cb ->
  is_u32 buf_len -> is_u32 period_len ->
  bcm2708_dma_prep_dma_cyclic E c buf_addr buf_len period_len direction flags w
    = Ret (Some p) w' ->
  exists d cbs,
    kheap w' !! p = Some d
    /\ coherent w' !! d_control_block_base d = Some cbs
    /\ forall (i : nat) cb, cbs !! i = Some cb ->
         let sync := if decide (direction = DMA_DEV_TO_MEM)
                     then BCM2708_DMA_S_DREQ else BCM2708_DMA_D_DREQ in
         let inc := if decide (direction = DMA_DEV_TO_MEM)
                    then BCM2708_DMA_D_INC else BCM2708_DMA_S_INC in
         flag_set sync (cb_info cb)
         /\ (slave_id (cfg c) ≠ 0 ->
             flag_set (BCM2708_DMA_PER_MAP (slave_id (cfg c))) (cb_info cb))
         /\ (slave_id (cfg c) = 0 ->
             cb_info cb = Z.lor (Z.lor inc BCM2708_DMA_INT_EN) sync).
Proof.
  intros Hs Hlen Hper Hrun.
  destruct (prep_Some_inv E c buf_addr buf_len period_len direction flags w p w')
    as (dev_addr & sync & base & phys & cbs & Hgrab & Hpos & Hfit & Hphys
        & Hkh & Hch & Htr & Hl & Hcbs); try (done || (unfold is_u32 in *; lia)).
  eexists _, cbs.
  split; [rewrite Hkh; apply lookup_insert_eq|].
  split; [rewrite Hch; apply lookup_insert_eq|].
  intros i cb Hi.
  assert (Hlt : (i < length cbs)%nat) by (eapply lookup_lt_Some; exact Hi).
  rewrite (Hcbs i Hlt) in Hi. injection Hi as <-.
  assert (Hzero : forall f word, ~ f ≠ 0 -> flag_set f word).
  { intros f word Hf. assert (f = 0) as -> by lia. apply Z.land_0_r. }
  destruct Hgrab as [(-> & _ & _ & ->)|(-> & _ & _ & ->)];
    simpl; unfold frame_cb, built_desc; simpl.
  - split; [|split].
    + destruct (decide (BCM2708_DMA_S_DREQ ≠ 0)), (decide (slave_id (cfg c) ≠ 0));
        first [flag_set_tac | by apply Hzero].
    + intros Hid. rewrite (decide_True _ _ Hid). apply flag_set_lor_r.
    + intros Hid. rewrite decide_False by lia.
      destruct (decide (BCM2708_DMA_S_DREQ ≠ 0)) as [|Hz]; [done|].
      assert (BCM2708_DMA_S_DREQ = 0) as -> by lia. by rewrite Z.lor_0_r.
  - split; [|split].
    + destruct (decide (BCM2708_DMA_D_DREQ ≠ 0)), (decide (slave_id (cfg c) ≠ 0));
        first [flag_set_tac | by apply Hzero].
    + intros Hid. rewrite (decide_True _ _ Hid). apply flag_set_lor_r.
    + intros Hid. rewrite decide_False by lia.
      destruct (decide (BCM2708_DMA_D_DREQ ≠ 0)) as [|Hz]; [done|].
      assert (BCM2708_DMA_D_DREQ = 0) as -> by lia. by rewrite Z.lor_0_r.
Qed.

(** Every return of the builder: what it logged, and what a NULL return
    leaves of the memory. *)
Lemma prep_Ret_inv c buf_addr buf_len period_len direction flags w r w' :
  0 < sizeof_bcm2708_dma_cb ->
  is_u32 buf_len -> is_u32 period_len ->
  bcm2708_dma_prep_dma_cyclic E c buf_addr buf_len period_len direction flags w
    = Ret r w' ->
  exists log,
    trace w' = trace w ++ log
    /\ Forall (fun ev => is_hw_event ev = false) log
    /\ (r = None ->
        coherent w' = coherent w
        /\ (kheap w' = kheap w
            \/ exists p, env_kzalloc E (length (trace w)) = Some p
                         /\ kheap w' = delete p (kheap w))).
Proof.
  intros Hs Hlen Hper Hrun. unfold is_u32 in *.
  destruct (is_slave_direction direction) eqn:Hdir.
  2: { rewrite prep_bad_direction in Hrun by done. injection Hrun as <- <-.
       eexists. split; [reflexivity|]. split; [by repeat constructor|]. auto. }
  destruct (slave_grabbed c direction Hdir) as (dev_addr & dev_width & sync & Hgrab).
  destruct (decide (dev_width = DMA_SLAVE_BUSWIDTH_4_BYTES)) as [->|Hw].
  2: { rewrite (prep_bad_width _ _ _ _ _ _ _ _ _ _ _ Hgrab Hw) in Hrun.
       injection Hrun as <- <-. exists []. rewrite app_nil_r. auto. }
  destruct (env_kzalloc E (length (trace w))) as [p0|] eqn:Hk.
  2: { rewrite (prep_kzalloc_fails _ _ _ _ _ _ _ _ _ _ Hgrab Hk) in Hrun.
       injection Hrun as <- <-.
       eexists. split; [reflexivity|]. split; [by repeat constructor|]. auto. }
  destruct (decide (period_len = 0)) as [->|Hp0].
  { rewrite (prep_zero_period _ _ _ _ _ _ _ _ _ _ Hgrab Hk) in Hrun. discriminate. }
  destruct (env_dma_zalloc_coherent E (S (length (trace w)))
              (wrap32 (buf_len / period_len * sizeof_bcm2708_dma_cb)))
    as [[base phys]|] eqn:Hco.
  2: { rewrite (prep_coherent_fails _ _ _ _ _ _ _ _ _ _ _ Hgrab Hp0 Hk Hco) in Hrun.
       injection Hrun as <- <-.
       eexists. split; [reflexivity|]. split; [by repeat constructor|].
       intros _. split; [done|]. right. by exists p0. }
  destruct (decide (buf_len / period_len * sizeof_bcm2708_dma_cb < 2 ^ 32)) as [Hfit|Hbig].
  2: { rewrite (prep_overflow _ _ _ _ _ _ _ _ _ _ _ _ _ Hgrab) in Hrun by (done || lia).
       discriminate. }
  destruct (prep_built E c buf_addr buf_len period_len direction flags w
              dev_addr sync p0 base phys) as (w1 & cbs & Hrun1 & _ & _ & Htr & _);
    try (done || lia).
  rewrite Hrun1 in Hrun. injection Hrun as <- <-.
  eexists. split; [exact Htr|]. split; [by repeat constructor|]. discriminate.
Qed.

(** X7.  Whatever it returns, [bcm2708_dma_prep_dma_cyclic] only talks to
    the allocators and the log: it reads and writes no register, does not
    start or stop the engine and notifies nobody.  When it returns NULL it
    leaves nothing behind: the coherent memory is as before and the heap
    holds no object it did not hold before. *)
Theorem prep_only_allocates c buf_addr buf_len period_len direction flags w r w' :
  0 < sizeof_bcm2708_dma_cb ->
  is_u32 buf_len -> is_u32 period_len ->
  bcm2708_dma_prep_dma_cyclic E c buf_addr buf_len period_len direction flags w
    = Ret r w' ->
  exists log,
    trace w' = trace w ++ log
    /\ Forall (fun ev => is_hw_event ev = false) log
    /\ (r = None ->
        coherent w' = coherent w
        /\ forall q d, kheap w' !! q = Some d -> kheap w !! q = Some d).
Proof.
  intros Hs Hlen Hper Hrun.
  destruct (prep_Ret_inv c buf_addr buf_len period_len direction flags w r w'
              Hs Hlen Hper Hrun) as (log & Htr & Hlog & Hnone).
  exists log. split; [done|]. split; [done|].
  intros Hr. destruct (Hnone Hr) as [Hco [Hkh|(p & _ & Hkh)]].
  - split; [done|]. by rewrite Hkh.
  - split; [done|]. rewrite Hkh. intros q d Hq.
    apply lookup_delete_Some in Hq as [_ Hq]. done.
Qed.

End BuilderMore.

(** ** Configuration and channel set-up *)

Section Setup.

Context {H : mach_dma}.
Variable E : env.

(** X8.  [bcm2708_dma_slave_config] accepts exactly the configurations
    with a memory-to-device or device-to-memory direction and a 4-byte
    endpoint on the device side of that direction (the width of the other
    side is not looked at): it then stores the configuration and returns
    0; every other configuration is refused with [-EINVAL] and leaves the
    channel, and so the configuration in force, as it was. *)
Theorem slave_config_spec c cf :
  (config_ok cf -> bcm2708_dma_slave_config c cf = (0, set_cfg cf c))
  /\ (~ config_ok cf -> bcm2708_dma_slave_config c cf = (- EINVAL, c)).
Proof.
  unfold config_ok, bcm2708_dma_slave_config. split.
  - intros [[Hd Hw]|[Hd Hw]]; rewrite Hd, Hw; reflexivity.
  - intros Hno.
    destruct (direction cf) eqn:Hd; try reflexivity.
    + destruct (decide (dst_addr_width cf = DMA_SLAVE_BUSWIDTH_4_BYTES)) as [Hw|Hw].
      * destruct Hno. right. done.
      * rewrite bool_decide_eq_false_2 by (intros [? ?]; discriminate).
        rewrite bool_decide_eq_true_2 by done. reflexivity.
    + destruct (decide (src_addr_width cf = DMA_SLAVE_BUSWIDTH_4_BYTES)) as [Hw|Hw].
      * destruct Hno. left. done.
      * rewrite bool_decide_eq_true_2 by done. reflexivity.
Qed.

(** X9.  A configuration that [bcm2708_dma_slave_config] accepted is
    enough for [bcm2708_dma_prep_dma_cyclic] in the configured direction:
    with a non-zero period, both allocations granted and an array that
    fits, the builder returns a descriptor. *)
Theorem slave_config_then_prep c cf c' buf_addr buf_len period_len flags w
    p base phys :
  bcm2708_dma_slave_config c cf = (0, c') ->
  0 < sizeof_bcm2708_dma_cb ->
  0 <= buf_len -> 0 < period_len ->
  buf_len / period_len * sizeof_bcm2708_dma_cb < 2 ^ 32 ->
  env_kzalloc E (length (trace w)) = Some p ->
  env_dma_zalloc_coherent E (S (length (trace w)))
    (wrap32 (buf_len / period_len * sizeof_bcm2708_dma_cb)) = Some (base, phys) ->
  exists w',
    bcm2708_dma_prep_dma_cyclic E c' buf_addr buf_len period_len (direction cf)
      flags w = Ret (Some p) w'.
Proof.
  intros Hcfg Hs Hlen Hper Hfit Hk Hco.
  assert (Hok : config_ok cf /\ c' = set_cfg cf c).
  { unfold bcm2708_dma_slave_config in Hcfg.
    destruct (_ || _) eqn:Hbad; [discriminate|].
    injection Hcfg as <-. split; [|done].
    apply orb_false_elim in Hbad as [Hbad Hdir].
    apply orb_false_elim in Hbad as [Hsrc Hdst].
    apply bool_decide_eq_false_1 in Hsrc, Hdst.
    unfold config_ok.
    destruct (direction cf); try discriminate.
    - right. split; [done|].
      destruct (decide (dst_addr_width cf = DMA_SLAVE_BUSWIDTH_4_BYTES)); [done|].
      destruct Hdst. done.
    - left. split; [done|].
      destruct (decide (src_addr_width cf = DMA_SLAVE_BUSWIDTH_4_BYTES)); [done|].
      destruct Hsrc. done. }
  destruct Hok as [Hok ->].
  assert (Hgrab : exists dev_addr sync,
            grabbed (set_cfg cf c) (direction cf) dev_addr
              DMA_SLAVE_BUSWIDTH_4_BYTES sync).
  { destruct Hok as [[Hd Hw]|[Hd Hw]].
    - exists (src_addr cf), BCM2708_DMA_S_DREQ. left. simpl. by rewrite Hw.
    - exists (dst_addr cf), BCM2708_DMA_D_DREQ. right. simpl. by rewrite Hw. }
  destruct Hgrab as (dev_addr & sync & Hgrab).
  destruct (prep_built E (set_cfg cf c) buf_addr buf_len period_len (direction cf)
              flags w dev_addr sync p base phys Hgrab Hs Hlen Hper Hfit Hk Hco)
    as (w' & cbs & Hrun & _).
  by exists w'.
Qed.

(** X10.  A channel that [bcm2708_dma_chan_init] has just made is idle and
    not configured: the device counts one channel more and lists it last,
    and until a configuration is accepted
    [bcm2708_dma_prep_dma_cyclic] on it returns NULL in every direction,
    without asking an allocator. *)
Theorem chan_init_unconfigured ok d base chan_id irq d' :
  bcm2708_dma_chan_init ok d base chan_id irq = (0, d') ->
  exists c,
    ddev_channels d' = ddev_channels d ++ [c]
    /\ ddev_chancnt d' = ddev_chancnt d + 1
    /\ ch c = chan_id /\ chan_base c = base /\ irq_number c = irq
    /\ desc c = None /\ vc_queue (vc c) = [] /\ cyclic c = false
    /\ forall buf_addr buf_len period_len direction flags w,
         exists log,
           bcm2708_dma_prep_dma_cyclic E c buf_addr buf_len period_len direction
             flags w
             = Ret None {| kheap := kheap w; coherent := coherent w;
                           trace := trace w ++ log |}
           /\ filter (fun ev => is_alloc_event ev = true) log = [].
Proof.
  unfold bcm2708_dma_chan_init. destruct ok; [|discriminate]. intros [= <-].
  eexists. split; [reflexivity|]. simpl. repeat (split; [reflexivity|]).
  intros buf_addr buf_len period_len direction flags w.
  destruct (is_slave_direction direction) eqn:Hdir.
  - exists []. split; [|done]. rewrite app_nil_r, world_eta.
    destruct direction; try discriminate.
    + eapply (prep_bad_width E _ _ _ _ DMA_MEM_TO_DEV _ _ 0 0 BCM2708_DMA_D_DREQ);
        [by right|done].
    + eapply (prep_bad_width E _ _ _ _ DMA_DEV_TO_MEM _ _ 0 0 BCM2708_DMA_S_DREQ);
        [by left|done].
  - eexists. split; [by apply prep_bad_direction|done].
Qed.

End Setup.

(** ** The probe *)

Lemma free_channels_nil l : free_channels l = [].
Proof. induction l as [|c l IH]; [done|exact IH]. Qed.

(** The loop over the hardware channels either ends at the first refusal
    of a hardware channel (or after [n] of them) with one driver channel
    for each hardware channel obtained, or fails for lack of memory with
    the list of channels emptied. *)
Lemma probe_channels_run pe n :
  forall i od rc od',
  probe_channels pe n i od = (rc, od') ->
  (rc = 0
   /\ exists k, (k <= n)%nat
      /\ ddev_channels od' = ddev_channels od ++ map (probed_chan pe) (seq i k)
      /\ ddev_chancnt od' = ddev_chancnt od + Z.of_nat k
      /\ (forall j, (j < k)%nat -> 0 <= (pe_chan_alloc pe (i + j)).1.1)
      /\ ((k < n)%nat -> (pe_chan_alloc pe (i + k)).1.1 < 0))
  \/ (rc = - ENOMEM /\ ddev_channels od' = []).
Proof.
  induction n as [|n IH]; intros i od rc od' Hrun; simpl in Hrun.
  - injection Hrun as <- <-. left. split; [done|]. exists 0%nat.
    simpl. rewrite app_nil_r, Z.add_0_r. repeat split; try done; lia.
  - destruct (pe_chan_alloc pe i) as [[chan_id base] irq] eqn:Halloc.
    destruct (decide (chan_id < 0)) as [Hneg|Hpos].
    + injection Hrun as <- <-. left. split; [done|]. exists 0%nat.
      simpl. rewrite app_nil_r, Z.add_0_r, Nat.add_0_r, Halloc.
      repeat split; try done; lia.
    + unfold bcm2708_dma_chan_init in Hrun.
      destruct (pe_kzalloc_chan pe i).
      * rewrite decide_False in Hrun by (intros Hne; by apply Hne).
        apply IH in Hrun as [(-> & k & Hk & Hch & Hcnt & Hgot & Hstop)|Hfail];
          [left|by right].
        split; [done|]. exists (S k). simpl in Hch, Hcnt.
        split; [lia|]. split.
        { rewrite Hch, <- app_assoc. simpl. f_equal. f_equal.
          unfold probed_chan. by rewrite Halloc. }
        split; [lia|]. split.
        { intros [|j] Hj.
          - rewrite Nat.add_0_r, Halloc. simpl. lia.
          - replace (i + S j)%nat with (S i + j)%nat by lia. apply Hgot. lia. }
        intros Hlt. replace (i + S k)%nat with (S i + k)%nat by lia.
        apply Hstop. lia.
      * rewrite decide_True in Hrun by (unfold ENOMEM; lia).
        injection Hrun as <- <-. right. split; [done|].
        simpl. apply free_channels_nil.
Qed.

(** X11.  A successful [bcm2708_dma_probe] has made one channel for each
    hardware channel [bcm_dma_chan_alloc] handed out before its first
    refusal, at most 16, in that order and with the identifier, register
    base and interrupt line it was given; the channel count of the device
    is their number, and every channel is idle and not configured. *)
Theorem probe_makes_channels pe od :
  bcm2708_dma_probe pe = (0, Some od) ->
  exists k : nat,
    (k <= 16)%nat
    /\ ddev_channels od = map (probed_chan pe) (seq 0 k)
    /\ ddev_chancnt od = Z.of_nat k
    /\ (forall j, (j < k)%nat -> 0 <= (pe_chan_alloc pe j).1.1)
    /\ ((k < 16)%nat -> (pe_chan_alloc pe k).1.1 < 0)
    /\ (forall (j : nat) c, ddev_channels od !! j = Some c ->
          ch c = (pe_chan_alloc pe j).1.1
          /\ chan_base c = (pe_chan_alloc pe j).1.2
          /\ irq_number c = (pe_chan_alloc pe j).2
          /\ desc c = None /\ vc_queue (vc c) = [] /\ cfg c = zero_cfg).
Proof.
  unfold bcm2708_dma_probe. intros Hrun.
  destruct (decide (pe_dma_set_mask pe ≠ 0)); [by injection Hrun|].
  destruct (pe_kzalloc_dev pe); [|discriminate].
  destruct (probe_channels pe 16 0 {| ddev_chancnt := 0; ddev_channels := [] |})
    as [rc od1] eqn:Hloop.
  destruct (decide (rc ≠ 0)) as [Hrc|Hrc]; [injection Hrun as -> _; done|].
  destruct (decide (pe_device_register pe ≠ 0)) as [Hreg|Hreg];
    [injection Hrun as Hz _; done|].
  injection Hrun as _ ->.
  apply probe_channels_run in Hloop
    as [(_ & k & Hk & Hch & Hcnt & Hgot & Hstop)|[-> _]];
    [|exfalso; apply Hrc; done].
  simpl in Hch, Hcnt.
  exists k. split; [done|]. split; [done|]. split; [lia|].
  split; [done|]. split; [done|].
  intros j c Hj. rewrite Hch in Hj.
  apply list_lookup_fmap_Some in Hj as (i & -> & Hi).
  apply lookup_seq in Hi as [-> _]. simpl.
  unfold probed_chan. by destruct (pe_chan_alloc pe j) as [[? ?] ?].
Qed.

(** X12.  A failed [bcm2708_dma_probe] leaves no channel on the device:
    either the device was never allocated (the mask was refused, with the
    code of [dma_set_mask], or there was no memory, [-ENOMEM]), or its
    list of channels has been emptied (no memory for a channel, [-ENOMEM],
    or the registration failed, with the code of
    [dma_async_device_register]). *)
Theorem probe_failure pe rc r :
  bcm2708_dma_probe pe = (rc, r) ->
  rc ≠ 0 ->
  (r = None /\ (rc = pe_dma_set_mask pe \/ rc = - ENOMEM))
  \/ (exists od, r = Some od /\ ddev_channels od = []
               /\ (rc = - ENOMEM \/ rc = pe_device_register pe)).
Proof.
  unfold bcm2708_dma_probe. intros Hrun Hrc.
  destruct (decide (pe_dma_set_mask pe ≠ 0)).
  { injection Hrun as <- <-. left. auto. }
  destruct (pe_kzalloc_dev pe).
  2: { injection Hrun as <- <-. left. auto. }
  destruct (probe_channels pe 16 0 {| ddev_chancnt := 0; ddev_channels := [] |})
    as [rc1 od1] eqn:Hloop.
  apply probe_channels_run in Hloop.
  destruct (decide (rc1 ≠ 0)) as [Hrc1|Hrc1].
  { injection Hrun as <- <-. right. exists od1.
    destruct Hloop as [[-> _]|[-> Hnil]]; [done|]. auto. }
  destruct (decide (pe_device_register pe ≠ 0)) as [Hreg|Hreg].
  { injection Hrun as <- <-. right. eexists. split; [reflexivity|].
    split; [apply free_channels_nil|auto]. }
  injection Hrun as <- <-. lia.
Qed.

(** ** More on the queue, the interrupt handler and termination *)

Section ChannelMore.

Context {H : mach_dma}.
Variable E : env.

(** X13.  [bcm2708_dma_issue_pending] never touches memory and starts the
    hardware at most once: either nothing happens beyond marking the
    channel cyclic (the queue is empty or a descriptor is active), or the
    channel was idle and the one start is for the head of the queue, which
    becomes the active descriptor and leaves the queue. *)
Theorem issue_pending_at_most_one_start c w c' w' :
  bcm2708_dma_issue_pending c w = Ret c' w' ->
  kheap w' = kheap w /\ coherent w' = coherent w
  /\ cyclic c' = true
  /\ ((c' = set_cyclic true c /\ w' = w
       /\ (vc_queue (vc c) = [] \/ is_Some (desc c)))
      \/ (exists vd q d,
            desc c = None /\ vc_queue (vc c) = vd :: q
            /\ kheap w !! vd = Some d
            /\ desc c' = Some vd /\ vc_queue (vc c') = q
            /\ new_events w w'
               = [Ev_bcm_dma_start (chan_base c) (d_control_block_base_phys d)])).
Proof.
  intros Hrun.
  destruct (desc c) as [a|] eqn:Hdesc.
  { rewrite issue_pending_active in Hrun by (rewrite Hdesc; eauto).
    injection Hrun as <- <-. repeat split; try done. left. eauto. }
  destruct (vc_queue (vc c)) as [|vd q] eqn:Hq.
  { unfold bcm2708_dma_issue_pending, vchan_issue_pending in Hrun.
    simpl in Hrun. rewrite Hq in Hrun. simpl in Hrun.
    injection Hrun as <- <-. repeat split; try done. left. auto. }
  destruct (kheap w !! vd) as [d|] eqn:Hd.
  - unfold bcm2708_dma_issue_pending, vchan_issue_pending in Hrun.
    simpl in Hrun. rewrite Hq, Hdesc in Hrun. simpl in Hrun.
    rewrite (bind_Ret spin_lock_irqsave _ w w tt eq_refl) in Hrun.
    rewrite (bind_Ret _ _ _ _ _
               (start_desc_head (set_cyclic true c) w vd q d Hq Hd)) in Hrun.
    injection Hrun as <- <-. simpl. repeat split; try done.
    right. exists vd, q, d. repeat split; try done.
    by apply new_events_app.
  - unfold bcm2708_dma_issue_pending, vchan_issue_pending in Hrun.
    simpl in Hrun. rewrite Hq, Hdesc in Hrun. simpl in Hrun.
    rewrite (bind_Ret spin_lock_irqsave _ w w tt eq_refl) in Hrun.
    unfold bcm2708_dma_start_desc, vchan_next_desc in Hrun. simpl in Hrun.
    rewrite Hq in Hrun. simpl in Hrun.
    unfold mbind, M_bind, load_desc in Hrun. rewrite Hd in Hrun. discriminate.
Qed.

(** X14.  [bcm2708_dma_callback] always returns [IRQ_HANDLED] and leaves
    memory alone; it first acknowledges the interrupt and last writes the
    run bit, both to the control and status register of the channel; in
    between it notifies the client exactly once when a descriptor is
    active and not at all otherwise.  It reads no register. *)
Theorem callback_events c w :
  exists w',
    bcm2708_dma_callback c w = Ret IRQ_HANDLED w'
    /\ kheap w' = kheap w /\ coherent w' = coherent w
    /\ new_events w w'
       = [Ev_writel BCM2708_DMA_INT (chan_base c + BCM2708_DMA_CS)]
           ++ match desc c with
              | Some d => [Ev_vchan_cyclic_callback d]
              | None => []
              end
           ++ [Ev_writel BCM2708_DMA_ACTIVE (chan_base c + BCM2708_DMA_CS)].
Proof.
  unfold bcm2708_dma_callback.
  unfold mbind, M_bind, spin_lock_irqsave, writel, vchan_cyclic_callback, dsb,
    spin_unlock_irqrestore, emit, mret, M_ret.
  destruct (desc c); simpl; eexists; (split; [reflexivity|]); simpl;
    repeat split; apply new_events_app; simpl; by rewrite <- !app_assoc.
Qed.

(** The polling loop when the run bit first reads clear at poll [k]
    (counting from 0; poll [j] happens at time [length (trace w) + 2 * j]):
    [k] polls with a pause, one more poll, and [timeout - (k + 1)] is
    left. *)
Lemma wait_for_stopping_stops c n :
  forall (k : nat) w,
  (k < n)%nat ->
  (forall j, (j < k)%nat ->
     Z.land (wrap32 (env_readl E (length (trace w) + 2 * j)
                       (chan_base c + BCM2708_DMA_CS)))
       BCM2708_DMA_ACTIVE ≠ 0) ->
  Z.land (wrap32 (env_readl E (length (trace w) + 2 * k)
                    (chan_base c + BCM2708_DMA_CS)))
    BCM2708_DMA_ACTIVE = 0 ->
  exists log v,
    wait_for_stopping E n c w
      = Ret (n - S k)%nat
          {| kheap := kheap w; coherent := coherent w;
             trace := trace w ++ log ++ [Ev_readl (chan_base c + BCM2708_DMA_CS) v] |}
    /\ is_poll_log (chan_base c + BCM2708_DMA_CS) k log.
Proof.
  induction n as [|n IH]; intros k w Hk Hset Hclr; [lia|].
  simpl. unfold mbind at 1, M_bind at 1, readl at 1.
  set (v := wrap32 (env_readl E (length (trace w)) (chan_base c + BCM2708_DMA_CS))).
  destruct k as [|k].
  - rewrite Nat.mul_0_r, Nat.add_0_r in Hclr. fold v in Hclr.
    rewrite decide_True by done.
    exists [], v. split; [|done]. simpl. by rewrite Nat.sub_0_r.
  - pose proof (Hset 0%nat ltac:(lia)) as H0.
    rewrite Nat.mul_0_r, Nat.add_0_r in H0. fold v in H0.
    rewrite decide_False by done.
    unfold mbind at 1, M_bind at 1, cpu_relax, emit. simpl.
    set (w2 := {| kheap := kheap w; coherent := coherent w;
                  trace := (trace w ++ [Ev_readl (chan_base c + BCM2708_DMA_CS) v])
                             ++ [Ev_cpu_relax] |}).
    assert (Hlen : length (trace w2) = (length (trace w) + 2)%nat).
    { subst w2; simpl. rewrite !length_app. simpl. lia. }
    destruct (IH k w2) as (log & v' & Hrun & Hlog).
    + lia.
    + intros j Hj. rewrite Hlen.
      replace (length (trace w) + 2 + 2 * j)%nat
        with (length (trace w) + 2 * S j)%nat by lia.
      apply Hset. lia.
    + rewrite Hlen.
      replace (length (trace w) + 2 + 2 * k)%nat
        with (length (trace w) + 2 * S k)%nat by lia.
      exact Hclr.
    + exists (Ev_readl (chan_base c + BCM2708_DMA_CS) v :: Ev_cpu_relax :: log), v'.
      split.
      * rewrite Hrun. subst w2; simpl. by rewrite <- !app_assoc.
      * exists v, log. done.
Qed.

(** [bcm2708_dma_terminate_all] on a channel with an active descriptor,
    given what the polling loop does. *)
Lemma terminate_all_active_run c w p left plog :
  desc c = Some p ->
  queue_live w (vc_queue (vc c)) ->
  wait_for_stopping E (Z.to_nat 10000) (set_desc None (set_node false c))
    {| kheap := kheap w; coherent := coherent w;
       trace := trace w ++ [Ev_bcm_dma_abort (chan_base c)] |}
    = Ret left
        {| kheap := kheap w; coherent := coherent w;
           trace := (trace w ++ [Ev_bcm_dma_abort (chan_base c)]) ++ plog |} ->
  exists w' flog,
    bcm2708_dma_terminate_all E c w
      = Ret (0, set_vc {| vc_queue := []; vc_cookie := vc_cookie (vc c) |}
                  (set_desc None (set_node false c))) w'
    /\ trace w' = trace w ++ Ev_bcm_dma_abort (chan_base c) :: plog
                    ++ (if decide (left = 0%nat)
                        then [Ev_dev_err "DMA transfer could not be terminated"]
                        else [])
                    ++ flog
    /\ kfreed flog = vc_queue (vc c)
    /\ polls flog = 0%nat.
Proof.
  intros Hdesc Hlive Hwait.
  unfold bcm2708_dma_terminate_all. cbv zeta.
  set (n := Z.to_nat 10000) in *. clearbody n.
  rewrite (bind_Ret spin_lock_irqsave _ w w tt eq_refl).
  change (desc (set_node false c)) with (desc c). rewrite Hdesc.
  set (c2 := set_desc None (set_node false c)) in *.
  set (tail := if decide (left = 0%nat)
               then [Ev_dev_err "DMA transfer could not be terminated"]
               else []).
  set (wb := {| kheap := kheap w; coherent := coherent w;
                trace := trace w ++ (Ev_bcm_dma_abort (chan_base c) :: plog ++ tail) |}).
  destruct (vchan_dma_desc_free_list_run (vc_queue (vc c)) wb Hlive)
    as (w' & flog & Hfree & Htr & Hfreed & Hfpolls & _).
  exists w', flog. split.
  { unfold mbind at 1, M_bind at 1.
    unfold mbind at 1, M_bind at 1, bcm_dma_abort at 1, emit at 1.
    unfold mbind at 1, M_bind at 1.
    match goal with
    | |- context [wait_for_stopping E n ?cc ?ww] =>
        change (wait_for_stopping E n cc ww)
          with (wait_for_stopping E n c2
                  {| kheap := kheap w; coherent := coherent w;
                     trace := trace w ++ [Ev_bcm_dma_abort (chan_base c)] |})
    end.
    rewrite Hwait.
    unfold mbind at 1, M_bind at 1, dev_err, emit, mret, M_ret.
    unfold vchan_get_all_descriptors, spin_unlock_irqrestore.
    clear Htr. unfold wb, tail in Hfree.
    destruct (decide (left = 0%nat)) as [->|Hleft].
    - rewrite decide_True by (simpl; lia). simpl.
      unfold mbind, M_bind; simpl.
      rewrite <- !app_assoc; simpl. by rewrite Hfree.
    - rewrite decide_False by lia. simpl.
      unfold mbind, M_bind; simpl.
      rewrite <- !app_assoc; simpl. rewrite ?app_nil_r in Hfree.
      by rewrite Hfree. }
  split; [|done].
  rewrite Htr. unfold wb; cbn [trace].
  rewrite <- app_assoc, <- app_comm_cons, <- app_assoc. reflexivity.
Qed.

(** X15.  When a descriptor is active and the run bit first reads clear
    at poll [k] of the 10000 (counting from 0),
    [bcm2708_dma_terminate_all] aborts, polls [k] times with a
    [cpu_relax] after each poll, polls once more and stops polling.  It
    logs that the transfer could not be terminated exactly when [k] is
    9999: the test after the loop looks at the counter, which is used up by
    then, so a transfer that stops at the very last poll is reported as
    not terminated.  In every case the call goes on to free the queue and
    returns 0. *)
Theorem terminate_all_stops_at c w p (k : nat) :
  desc c = Some p ->
  queue_live w (vc_queue (vc c)) ->
  Z.of_nat k < 10000 ->
  (forall j, (j < k)%nat ->
     Z.land (wrap32 (env_readl E (S (length (trace w)) + 2 * j)
                       (chan_base c + BCM2708_DMA_CS)))
       BCM2708_DMA_ACTIVE ≠ 0) ->
  Z.land (wrap32 (env_readl E (S (length (trace w)) + 2 * k)
                    (chan_base c + BCM2708_DMA_CS)))
    BCM2708_DMA_ACTIVE = 0 ->
  exists c' w' poll_log v free_log,
    bcm2708_dma_terminate_all E c w = Ret (0, c') w'
    /\ desc c' = None /\ vc_queue (vc c') = []
    /\ new_events w w'
       = Ev_bcm_dma_abort (chan_base c) :: poll_log
           ++ [Ev_readl (chan_base c + BCM2708_DMA_CS) v]
           ++ (if decide (Z.of_nat k = 9999)
               then [Ev_dev_err "DMA transfer could not be terminated"]
               else [])
           ++ free_log
    /\ is_poll_log (chan_base c + BCM2708_DMA_CS) k poll_log
    /\ kfreed free_log = vc_queue (vc c)
    /\ polls free_log = 0%nat.
Proof.
  intros Hdesc Hlive Hk Hset Hclr.
  set (c2 := set_desc None (set_node false c)).
  set (wa := {| kheap := kheap w; coherent := coherent w;
                trace := trace w ++ [Ev_bcm_dma_abort (chan_base c)] |}).
  assert (Hlen : length (trace wa) = S (length (trace w))).
  { subst wa; simpl. rewrite length_app. simpl. lia. }
  destruct (wait_for_stopping_stops c2 (Z.to_nat 10000) k wa ltac:(lia))
    as (plog & v & Hwait & Hpoll).
  { intros j Hj. rewrite Hlen. by apply Hset. }
  { rewrite Hlen. exact Hclr. }
  destruct (terminate_all_active_run c w p (Z.to_nat 10000 - S k)
              (plog ++ [Ev_readl (chan_base c + BCM2708_DMA_CS) v]) Hdesc Hlive)
    as (w' & flog & Hrun & Htr & Hfreed & Hfpolls).
  { exact Hwait. }
  eexists _, w', plog, v, flog.
  split; [exact Hrun|]. split; [reflexivity|]. split; [reflexivity|].
  split; [|done].
  rewrite (new_events_app w w' _ Htr).
  rewrite <- !app_assoc.
  destruct (decide (Z.of_nat k = 9999)) as [Heq|Hne].
  - rewrite decide_True by lia. reflexivity.
  - rewrite decide_False by lia. reflexivity.
Qed.

(** Without active descriptor, [bcm2708_dma_terminate_all] is the freeing
    of the queue. *)
Lemma terminate_all_not_active c w :
  desc c = None ->
  bcm2708_dma_terminate_all E c w =
    match vchan_dma_desc_free_list (vc_queue (vc c)) w with
    | Ret _ w' =>
        Ret (0, set_vc {| vc_queue := []; vc_cookie := vc_cookie (vc c) |}
                  (set_node false c)) w'
    | Undef u => Undef u
    end.
Proof.
  intros Hd. unfold bcm2708_dma_terminate_all. cbv zeta.
  rewrite (bind_Ret spin_lock_irqsave _ w w tt eq_refl).
  change (desc (set_node false c)) with (desc c). rewrite Hd.
  unfold mbind, M_bind, mret, M_ret, vchan_get_all_descriptors,
    spin_unlock_irqrestore; simpl.
  by destruct (vchan_dma_desc_free_list _ _).
Qed.

Lemma free_list_one p d w :
  kheap w !! p = Some d ->
  vchan_dma_desc_free_list [p] w =
    Ret tt {| kheap := delete p (kheap w);
              coherent := delete (d_control_block_base d) (coherent w);
              trace := trace w ++
                         [Ev_dma_free_coherent (d_control_block_size d)
                            (d_control_block_base d) (d_control_block_base_phys d);
                          Ev_kfree p] |}.
Proof.
  intros Hd. simpl. unfold bcm2708_dma_desc_free.
  unfold mbind, M_bind, load_desc, dma_free_coherent, kfree, mret, M_ret.
  rewrite Hd. simpl. by rewrite <- app_assoc.
Qed.

(** X16.  A transfer that is prepared and submitted but never issued is
    torn down completely by [bcm2708_dma_terminate_all]: on an idle
    channel with an empty queue, whatever the builder returned, after
    [queue_stream] and the termination the heap and the coherent memory
    are exactly as before (the allocators hand out addresses that are not
    in use), the channel is idle with an empty queue again, and the
    hardware was never touched. *)
Theorem queue_then_terminate c buf_addr buf_len period_len direction w c1 w1 :
  desc c = None -> vc_queue (vc c) = [] ->
  0 < sizeof_bcm2708_dma_cb ->
  is_u32 buf_len -> is_u32 period_len ->
  (forall p, env_kzalloc E (length (trace w)) = Some p -> kheap w !! p = None) ->
  (forall sz base phys,
     env_dma_zalloc_coherent E (S (length (trace w))) sz = Some (base, phys) ->
     coherent w !! base = None) ->
  queue_stream E c buf_addr buf_len period_len direction w = Ret c1 w1 ->
  exists c2 w2,
    bcm2708_dma_terminate_all E c1 w1 = Ret (0, c2) w2
    /\ kheap w2 = kheap w /\ coherent w2 = coherent w
    /\ desc c2 = None /\ vc_queue (vc c2) = []
    /\ Forall (fun ev => is_hw_event ev = false) (new_events w w2).
Proof.
  intros Hdesc Hq Hs Hlen Hper Hfk Hfc Hrun.
  unfold queue_stream in Hrun.
  unfold mbind at 1, M_bind at 1 in Hrun.
  destruct (bcm2708_dma_prep_dma_cyclic E c buf_addr buf_len period_len
              direction 0 w) as [[p|] w0|] eqn:Hprep; [| |discriminate].
  - destruct (prep_Some_inv E c buf_addr buf_len period_len direction 0 w p w0)
      as (dev_addr & sync & base & phys & cbs & Hgrab & Hpos & Hfit & Hphys
          & Hkh & Hch & Htr & Hl & Hcbs); try (done || (unfold is_u32 in *; lia)).
    assert (Hk : env_kzalloc E (length (trace w)) = Some p
                 /\ exists phys0, env_dma_zalloc_coherent E (S (length (trace w)))
                      (wrap32 (buf_len / period_len * sizeof_bcm2708_dma_cb))
                      = Some (base, phys0)).
    { destruct (env_kzalloc E (length (trace w))) as [p0|] eqn:Hk.
      2: { rewrite (prep_kzalloc_fails E _ _ _ _ _ _ _ _ _ Hgrab Hk) in Hprep.
           discriminate. }
      destruct (env_dma_zalloc_coherent E (S (length (trace w)))
                  (wrap32 (buf_len / period_len * sizeof_bcm2708_dma_cb)))
        as [[base0 phys0]|] eqn:Hco.
      2: { assert (Hp0 : period_len ≠ 0) by lia.
           rewrite (prep_coherent_fails E _ _ _ _ _ _ _ _ _ _ Hgrab
                      Hp0 Hk Hco) in Hprep. discriminate. }
      destruct (prep_built E c buf_addr buf_len period_len direction 0 w
                  dev_addr sync p0 base0 phys0) as (w1' & cbs' & Hrun1 & _ & Hch' & _);
        try (done || (unfold is_u32 in *; lia)).
      rewrite Hrun1 in Hprep. injection Hprep as -> <-.
      split; [done|]. exists phys0. f_equal. f_equal.
      rewrite Hch in Hch'.
      assert (Hb : (<[base:=cbs]> (coherent w) : gmap Z _) !! base0 = Some cbs')
        by (rewrite Hch'; apply lookup_insert_eq).
      destruct (decide (base = base0)) as [|Hne]; [done|].
      rewrite lookup_insert_ne in Hb by done.
      rewrite (Hfc _ _ _ Hco) in Hb. discriminate. }
    destruct Hk as (Hk & phys0 & Hco).
    pose proof (Hfk p Hk) as Hfresh. pose proof (Hfc _ _ _ Hco) as Hfreshc.
    set (d := built_desc direction buf_len period_len base phys
                (wrap32 (buf_len / period_len * period_len))) in *.
    unfold vchan_tx_submit in Hrun.
    unfold mbind, M_bind, modify_desc, mret, M_ret in Hrun.
    rewrite Hkh, lookup_insert_eq in Hrun. simpl in Hrun.
    injection Hrun as <- <-. rewrite Hq. simpl.
    rewrite terminate_all_not_active by done.
    cbn [vc vc_queue vc_cookie set_vc set_node].
    erewrite free_list_one by (simpl; apply lookup_insert_eq).
    eexists _, _. split; [reflexivity|]. simpl.
    split.
    { rewrite insert_insert_eq, delete_insert_eq. by apply delete_id. }
    split.
    { rewrite Hch, delete_insert_eq. by apply delete_id. }
    split; [done|]. split; [done|].
    unfold new_events. simpl. rewrite Htr, <- !app_assoc, drop_app_length.
    by repeat constructor.
  - injection Hrun as <- <-.
    destruct (prep_Ret_inv E c buf_addr buf_len period_len direction 0 w None w0
                Hs Hlen Hper Hprep) as (log & Htr & Hlog & Hnone).
    destruct (Hnone eq_refl) as [Hco Hkh].
    rewrite terminate_all_not_active by done. rewrite Hq. simpl.
    eexists _, _. split; [reflexivity|]. simpl.
    split.
    { destruct Hkh as [Hkh|(p & Hk & Hkh)]; [done|].
      rewrite Hkh. apply delete_id. by apply Hfk. }
    split; [done|]. split; [done|]. split; [done|].
    by rewrite (new_events_app w w0 log Htr).
Qed.

(** X17.  Of the commands of [bcm2708_dma_control] only
    [DMA_TERMINATE_ALL] can touch memory, hardware, the queue or the active
    descriptor.  [DMA_SLAVE_CONFIG] is [bcm2708_dma_slave_config], which at
    most replaces the configuration, also while a transfer runs; every
    other command (pause and resume among them) is refused with [-ENXIO]
    and changes nothing. *)
Theorem control_without_terminate c cmd arg w :
  cmd ≠ DMA_TERMINATE_ALL ->
  exists rc c',
    bcm2708_dma_control E c cmd arg w = Ret (rc, c') w
    /\ desc c' = desc c /\ vc c' = vc c /\ cyclic c' = cyclic c
    /\ (cmd = DMA_SLAVE_CONFIG -> (rc, c') = bcm2708_dma_slave_config c arg)
    /\ (cmd ≠ DMA_SLAVE_CONFIG -> rc = - ENXIO /\ c' = c).
Proof.
  intros Hcmd. destruct cmd; try done; simpl.
  - eexists _, _. split; [reflexivity|]. repeat split; try done.
  - eexists _, _. split; [reflexivity|]. repeat split; try done.
  - destruct (bcm2708_dma_slave_config c arg) as [rc c'] eqn:Hcfg.
    exists rc, c'. split; [reflexivity|].
    unfold bcm2708_dma_slave_config in Hcfg.
    destruct (_ || _); injection Hcfg as <- <-; repeat split; try done.
  - eexists _, _. split; [reflexivity|]. repeat split; try done.
Qed.

Lemma free_list_no_hw q :
  forall w w',
  vchan_dma_desc_free_list q w = Ret tt w' ->
  forall log, trace w' = trace w ++ log ->
  Forall (fun ev => is_hw_event ev = false) log.
Proof.
  induction q as [|p q IH]; intros w w' Hrun log Htr.
  - injection Hrun as <-.
    assert (log = []) as ->; [|done].
    apply (app_inv_head (trace w)). by rewrite app_nil_r.
  - simpl in Hrun. unfold bcm2708_dma_desc_free in Hrun.
    unfold mbind at 1 2, M_bind at 1 2, load_desc in Hrun.
    destruct (kheap w !! p) as [d|]; [|discriminate].
    unfold mbind at 1, M_bind at 1, dma_free_coherent, kfree in Hrun.
    simpl in Hrun.
    match type of Hrun with
    | vchan_dma_desc_free_list q ?w1 = _ => set (wmid := w1) in *
    end.
    assert (Hmid : exists log1, trace w' = trace wmid ++ log1).
    { clear IH Htr. revert Hrun. generalize wmid. clear.
      induction q as [|p q IH]; intros w0 Hrun.
      - injection Hrun as <-. exists []. by rewrite app_nil_r.
      - simpl in Hrun. unfold bcm2708_dma_desc_free in Hrun.
        unfold mbind at 1 2, M_bind at 1 2, load_desc in Hrun.
        destruct (kheap w0 !! p) as [d|]; [|discriminate].
        unfold mbind at 1, M_bind at 1, dma_free_coherent, kfree in Hrun.
        simpl in Hrun. apply IH in Hrun as [log1 Hlog1].
        simpl in Hlog1. eexists. rewrite Hlog1, <- !app_assoc. reflexivity. }
    destruct Hmid as [log1 Hlog1].
    pose proof (IH wmid w' Hrun log1 Hlog1) as Hrest.
    subst wmid. simpl in Hlog1. rewrite Htr, <- !app_assoc in Hlog1.
    apply app_inv_head in Hlog1 as ->.
    by repeat constructor.
Qed.

(** X18.  [bcm2708_dma_free_chan_resources] frees every queued descriptor
    and then gives the interrupt line back; it does not stop the hardware
    (no register access, no abort) and does not look at the active slot:
    an active descriptor stays the active descriptor and stays
    allocated. *)
Theorem free_chan_resources_spec c irqs w :
  queue_live w (vc_queue (vc c)) ->
  exists c' irqs' w',
    bcm2708_dma_free_chan_resources c irqs w = Ret (c', irqs') w'
    /\ vc_queue (vc c') = [] /\ desc c' = desc c
    /\ (irq_number c ∉ irqs')
    /\ (forall l, l ≠ irq_number c -> (l ∈ irqs') <-> (l ∈ irqs))
    /\ kfreed (new_events w w') = vc_queue (vc c)
    /\ Forall (fun ev => is_hw_event ev = false) (new_events w w')
    /\ (forall x, kheap w' !! x
                  = if decide (x ∈ vc_queue (vc c)) then None else kheap w !! x).
Proof.
  intros Hlive.
  destruct (vchan_dma_desc_free_list_run (vc_queue (vc c)) w Hlive)
    as (w' & log & Hfree & Htr & Hfreed & _ & Hkh & _).
  eexists _, _, w'. split.
  { unfold bcm2708_dma_free_chan_resources, vchan_free_chan_resources.
    unfold mbind, M_bind, spin_lock_irqsave, spin_unlock_irqrestore, mret, M_ret,
      vchan_get_all_descriptors. simpl. rewrite Hfree. reflexivity. }
  simpl. split; [done|]. split; [done|].
  unfold free_irq. split.
  { rewrite elem_of_difference, elem_of_singleton. tauto. }
  split.
  { intros l Hl. rewrite elem_of_difference, elem_of_singleton. tauto. }
  rewrite (new_events_app w w' log Htr).
  split; [done|]. split; [|done].
  by apply (free_list_no_hw _ w w' Hfree).
Qed.

End ChannelMore.

(** ** More on the residue and the status *)

Section ResidueMore.

Context {H : mach_dma}.
Variable E : env.
Variable dma_cookie_status : virt_dma_chan -> Z -> dma_status.



Lemma size_pos_fold_hit d pos l1 cb l2 :
  (forall x, x ∈ l1 ++ cb :: l2 ->
     0 <= step_addr d x /\ 0 <= cb_length x
     /\ step_addr d x + cb_length x < 2 ^ 32) ->
  (forall x, x ∈ l1 -> ~ in_step d x pos) ->
  in_step d cb pos ->
  cb_length cb + sum_lengths l2 < 2 ^ 32 ->
  size_pos_fold d pos (l1 ++ cb :: l2) 0
  = step_addr d cb + cb_length cb - pos + sum_lengths l2.
Proof.
  intros Hrange Hmiss Hin Hsum.
  unfold size_pos_fold. rewrite foldl_app.
  fold (size_pos_fold d pos l1 0).
  rewrite size_pos_fold_miss.
  - simpl. fold (size_pos_fold d pos l2).
    destruct (Hrange cb) as (Ha & Hl & Hend).
    { apply elem_of_app. right. by left. }
    rewrite size_pos_next_hit by done.
    unfold in_step in Hin.
    apply size_pos_fold_found; [|lia|lia].
    intros x Hx. apply Hrange. apply elem_of_app. right. by right.
  - intros x Hx. apply Hrange. apply elem_of_app. by left.
  - done.
Qed.

(** X20.  Builder and residue together: for a descriptor that
    [bcm2708_dma_prep_dma_cyclic] returned for a buffer strictly inside
    the 32-bit address space, [bcm2708_dma_desc_size_pos] at a position
    inside the covered part of the buffer is the distance from the
    position to the end of that part, and 0 at every other position. *)
Theorem prep_then_size_pos c buf_addr buf_len period_len direction flags w p w' pos :
  0 < sizeof_bcm2708_dma_cb ->
  is_u32 buf_addr -> is_u32 buf_len -> is_u32 period_len ->
  buf_addr + buf_len < 2 ^ 32 ->
  bcm2708_dma_prep_dma_cyclic E c buf_addr buf_len period_len direction flags w
    = Ret (Some p) w' ->
  exists d,
    kheap w' !! p = Some d
    /\ d_size d = buf_len / period_len * period_len
    /\ (buf_addr <= pos < buf_addr + d_size d ->
        bcm2708_dma_desc_size_pos d pos w' = Ret (buf_addr + d_size d - pos) w')
    /\ (pos < buf_addr \/ buf_addr + d_size d <= pos ->
        bcm2708_dma_desc_size_pos d pos w' = Ret 0 w').
Proof.
  intros Hs Haddr Hlen Hper Hspace Hrun.
  destruct (prep_Some_inv E c buf_addr buf_len period_len direction flags w p w')
    as (dev_addr & sync & base & phys & cbs & Hgrab & Hpos & Hfit & Hphys
        & Hkh & Hch & Htr & Hl & Hcbs); try (done || (unfold is_u32 in *; lia)).
  set (F := buf_len / period_len) in *.
  assert (HF : F * period_len <= buf_len).
  { subst F. rewrite Z.mul_comm. apply Z.mul_div_le. lia. }
  unfold is_u32 in *.
  assert (HF0 : 0 <= F) by (apply Z.div_pos; lia).
  set (d := built_desc direction buf_len period_len base phys (wrap32 (F * period_len))).
  assert (Hsize : d_size d = F * period_len).
  { unfold d, built_desc; simpl. apply wrap32_u32. unfold is_u32. nia. }
  assert (Hstep : forall (i : nat) cb, cbs !! i = Some cb ->
            step_addr d cb = buf_addr + Z.of_nat i * period_len
            /\ cb_length cb = period_len /\ Z.of_nat i < F).
  { intros i cb Hi.
    assert (Hlt : (i < length cbs)%nat) by (eapply lookup_lt_Some; exact Hi).
    rewrite (Hcbs i Hlt) in Hi. injection Hi as <-.
    unfold step_addr, frame_cb, d, built_desc; simpl.
    assert (Hmem : wrap32 (buf_addr + wrap32 (Z.of_nat i * period_len))
                   = buf_addr + Z.of_nat i * period_len).
    { rewrite (wrap32_u32 (Z.of_nat i * period_len)) by (unfold is_u32; nia).
      apply wrap32_u32. unfold is_u32. nia. }
    split; [by case_decide|]. split; [done|lia]. }
  assert (Hcoh : coherent w' !! d_control_block_base d = Some cbs)
    by (rewrite Hch; apply lookup_insert_eq).
  assert (Hrange : forall x, x ∈ cbs ->
            0 <= step_addr d x /\ 0 <= cb_length x
            /\ step_addr d x + cb_length x < 2 ^ 32).
  { intros x Hx. apply list_elem_of_lookup in Hx as [i Hi].
    destruct (Hstep i x Hi) as (-> & -> & Hi'). nia. }
  exists d. split; [rewrite Hkh; apply lookup_insert_eq|].
  split; [exact Hsize|]. rewrite Hsize.
  split.
  - intros Hin.
    rewrite (desc_size_pos_fold d pos w' cbs Hcoh Hl). f_equal.
    set (i := Z.to_nat ((pos - buf_addr) / period_len)).
    assert (Hi0 : 0 <= (pos - buf_addr) / period_len) by (apply Z.div_pos; lia).
    assert (HiF : (pos - buf_addr) / period_len < F)
      by (apply Z.div_lt_upper_bound; lia).
    assert (Hdm := Z.div_mod (pos - buf_addr) period_len ltac:(lia)).
    assert (Hmod := Z.mod_pos_bound (pos - buf_addr) period_len Hpos).
    destruct (lookup_lt_is_Some_2 cbs i ltac:(lia)) as [cb Hcb].
    destruct (Hstep i cb Hcb) as (Ha & Hlc & _).
    assert (Hii : Z.of_nat i = (pos - buf_addr) / period_len) by lia.
    rewrite <- (take_drop_middle cbs i cb Hcb).
    rewrite size_pos_fold_hit.
    + rewrite (sum_lengths_const (drop (S i) cbs) period_len).
      * rewrite length_drop, Ha, Hlc. nia.
      * intros j x Hj. rewrite lookup_drop in Hj.
        by destruct (Hstep _ _ Hj) as (_ & -> & _).
    + intros x Hx. apply Hrange. by rewrite <- (take_drop_middle cbs i cb Hcb).
    + intros x Hx. apply elem_of_take in Hx as (j & Hj & Hlt).
      destruct (Hstep j x Hj) as (Hax & Hlx & _).
      unfold in_step. rewrite Hax, Hlx. nia.
    + unfold in_step. rewrite Ha, Hlc. nia.
    + rewrite (sum_lengths_const (drop (S i) cbs) period_len).
      * rewrite length_drop, Hlc. nia.
      * intros j x Hj. rewrite lookup_drop in Hj.
        by destruct (Hstep _ _ Hj) as (_ & -> & _).
  - intros Hout.
    rewrite (desc_size_pos_fold d pos w' cbs Hcoh Hl). f_equal.
    apply size_pos_fold_miss; [done|].
    intros x Hx. apply list_elem_of_lookup in Hx as [i Hi].
    destruct (Hstep i x Hi) as (Hax & Hlx & Hi').
    unfold in_step. rewrite Hax, Hlx. nia.
Qed.

(** Looking a cookie up in the queue and walking a chain change
    nothing. *)
Lemma find_desc_world q cookie :
  forall w r w', find_desc q cookie w = Ret r w' -> w' = w.
Proof.
  induction q as [|vd q IH]; intros w r w' Hrun.
  - by injection Hrun as _ <-.
  - simpl in Hrun. unfold mbind, M_bind, load_desc in Hrun.
    destruct (kheap w !! vd) as [d|]; [|discriminate].
    destruct (decide (d_cookie d = cookie)).
    + by injection Hrun as _ <-.
    + by apply IH in Hrun.
Qed.

Lemma size_pos_loop_world d addr n :
  forall i size w r w', size_pos_loop n d addr i size w = Ret r w' -> w' = w.
Proof.
  induction n as [|n IH]; intros i size w r w' Hrun.
  - by injection Hrun as _ <-.
  - simpl in Hrun. unfold mbind at 1, M_bind at 1 in Hrun.
    destruct (size_pos_step d addr i size w) as [s1 w1|] eqn:Hstep; [|discriminate].
    assert (w1 = w) as ->.
    { unfold size_pos_step, mbind, M_bind, load_cb in Hstep.
      destruct (coherent w !! d_control_block_base d) as [cbs|]; [|discriminate].
      destruct (cbs !! Z.to_nat i); [|discriminate].
      repeat case_decide; by injection Hstep as _ <-. }
    by apply IH in Hrun.
Qed.

(** The cookie of a queued descriptor is found at the first descriptor
    that carries it. *)
Lemma find_desc_found q1 vd q2 cookie w d :
  (forall x, x ∈ q1 -> exists dx, kheap w !! x = Some dx /\ d_cookie dx ≠ cookie) ->
  kheap w !! vd = Some d -> d_cookie d = cookie ->
  find_desc (q1 ++ vd :: q2) cookie w = Ret (Some vd) w.
Proof.
  intros Hq1 Hd Hck. induction q1 as [|x q1 IH]; simpl.
  - unfold mbind, M_bind, load_desc. rewrite Hd. by rewrite decide_True.
  - destruct (Hq1 x ltac:(by left)) as (dx & Hx & Hne).
    unfold mbind, M_bind, load_desc. rewrite Hx. rewrite decide_False by done.
    apply IH. intros y Hy. apply Hq1. by right.
Qed.

(** A cookie that no queued descriptor carries is not found. *)
Lemma find_desc_missing q cookie w :
  (forall x, x ∈ q -> exists dx, kheap w !! x = Some dx /\ d_cookie dx ≠ cookie) ->
  find_desc q cookie w = Ret None w.
Proof.
  intros Hq. induction q as [|x q IH]; simpl; [done|].
  destruct (Hq x ltac:(by left)) as (dx & Hx & Hne).
  unfold mbind, M_bind, load_desc. rewrite Hx. rewrite decide_False by done.
  apply IH. intros y Hy. apply Hq. by right.
Qed.

(** X21.  [bcm2708_dma_tx_status] is an observer: it returns the status
    [dma_cookie_status] gave, changes neither heap nor coherent memory,
    writes no register and reads at most one, and that only when the
    cookie is the one of the active descriptor: the source address
    register for memory to device, the destination address register for
    device to memory.  Without a state to fill in, or for a completed
    cookie, it accesses nothing at all. *)
Theorem tx_status_observes c cookie txstate w st res w' :
  bcm2708_dma_tx_status E dma_cookie_status c cookie txstate w = Ret (st, res) w' ->
  st = dma_cookie_status (vc c) cookie
  /\ kheap w' = kheap w /\ coherent w' = coherent w
  /\ (st = DMA_COMPLETE \/ txstate = false -> w' = w)
  /\ (txstate = false -> res = None)
  /\ (new_events w w' = []
      \/ exists p d v,
           desc c = Some p /\ kheap w !! p = Some d /\ d_cookie d = cookie
           /\ ((d_dir d = DMA_MEM_TO_DEV
                /\ new_events w w'
                   = [Ev_readl (chan_base c + BCM2708_DMA_SOURCE_AD) v])
               \/ (d_dir d = DMA_DEV_TO_MEM
                   /\ new_events w w'
                      = [Ev_readl (chan_base c + BCM2708_DMA_DEST_AD) v]))).
Proof.
  unfold bcm2708_dma_tx_status. intros Hrun.
  assert (Hnil : forall w0 : world, new_events w0 w0 = []).
  { intros w0. unfold new_events. apply drop_all. }
  destruct (decide (dma_cookie_status (vc c) cookie = DMA_COMPLETE)) as [Hc|Hc].
  { injection Hrun as <- <- <-. repeat split; try done.
    - by intros ->.
    - by left. }
  destruct txstate; simpl in Hrun.
  2: { injection Hrun as <- <- <-. repeat split; try done. by left. }
  rewrite (bind_Ret spin_lock_irqsave _ w w tt eq_refl) in Hrun.
  unfold mbind at 1, M_bind at 1 in Hrun.
  destruct (vchan_find_desc (vc c) cookie w) as [vd w0|] eqn:Hfind; [|discriminate].
  apply find_desc_world in Hfind as ->.
  unfold mbind at 1, M_bind at 1 in Hrun.
  assert (Hgoal : forall w1 r,
            kheap w1 = kheap w -> coherent w1 = coherent w ->
            (new_events w w1 = []
             \/ exists p d v,
                  desc c = Some p /\ kheap w !! p = Some d /\ d_cookie d = cookie
                  /\ ((d_dir d = DMA_MEM_TO_DEV
                       /\ new_events w w1
                          = [Ev_readl (chan_base c + BCM2708_DMA_SOURCE_AD) v])
                      \/ (d_dir d = DMA_DEV_TO_MEM
                          /\ new_events w w1
                             = [Ev_readl (chan_base c + BCM2708_DMA_DEST_AD) v]))) ->
            (spin_unlock_irqrestore
               ≫= (fun _ => mret (dma_cookie_status (vc c) cookie, Some r))) w1
              = Ret (st, res) w' ->
            st = dma_cookie_status (vc c) cookie
            /\ kheap w' = kheap w /\ coherent w' = coherent w
            /\ (st = DMA_COMPLETE \/ true = false -> w' = w)
            /\ (true = false -> res = None)
            /\ (new_events w w' = []
                \/ exists p d v,
                     desc c = Some p /\ kheap w !! p = Some d /\ d_cookie d = cookie
                     /\ ((d_dir d = DMA_MEM_TO_DEV
                          /\ new_events w w'
                             = [Ev_readl (chan_base c + BCM2708_DMA_SOURCE_AD) v])
                         \/ (d_dir d = DMA_DEV_TO_MEM
                             /\ new_events w w'
                                = [Ev_readl (chan_base c + BCM2708_DMA_DEST_AD) v])))).
  { intros w1 r Hk1 Hc1 Hev Hend.
    unfold mbind, M_bind, spin_unlock_irqrestore, mret, M_ret in Hend.
    injection Hend as <- <- <-. repeat split; try done.
    intros [Hst|Hf]; [by destruct Hc|discriminate]. }
  destruct vd as [vd|].
  - unfold mbind at 1, M_bind at 1, load_desc in Hrun.
    destruct (kheap w !! vd) as [d|]; [|discriminate].
    eapply Hgoal; [| | |exact Hrun]; try done. left. apply Hnil.
  - destruct (desc c) as [p|] eqn:Hdesc.
    2: { eapply Hgoal; [| | |exact Hrun]; try done. left. apply Hnil. }
    unfold mbind at 1, M_bind at 1, load_desc in Hrun.
    destruct (kheap w !! p) as [d|] eqn:Hd; [|discriminate].
    destruct (decide (d_cookie d = cookie)) as [Hck|Hck].
    2: { eapply Hgoal; [| | |exact Hrun]; try done. left. apply Hnil. }
    destruct (decide (d_dir d = DMA_MEM_TO_DEV)) as [Hm|Hm].
    + unfold mbind at 1, M_bind at 1, readl at 1 in Hrun.
      match type of Hrun with
      | context [bcm2708_dma_desc_size_pos d ?v ?w1] =>
          destruct (bcm2708_dma_desc_size_pos d v w1) as [r w2|] eqn:Hsz;
            [|discriminate];
          apply size_pos_loop_world in Hsz as ->;
          eapply (Hgoal w1 r); [done|done| |exact Hrun];
          right; exists p, d, v; repeat split; try done;
          left; split; [done|]; by apply new_events_app
      end.
    + destruct (decide (d_dir d = DMA_DEV_TO_MEM)) as [Hdm|Hdm].
      * unfold mbind at 1, M_bind at 1, readl at 1 in Hrun.
        match type of Hrun with
        | context [bcm2708_dma_desc_size_pos d ?v ?w1] =>
            destruct (bcm2708_dma_desc_size_pos d v w1) as [r w2|] eqn:Hsz;
              [|discriminate];
            apply size_pos_loop_world in Hsz as ->;
            eapply (Hgoal w1 r); [done|done| |exact Hrun];
            right; exists p, d, v; repeat split; try done;
            right; split; [done|]; by apply new_events_app
        end.
      * unfold mbind at 1, M_bind at 1, mret at 1, M_ret at 1 in Hrun.
        destruct (bcm2708_dma_desc_size_pos d 0 w) as [r w2|] eqn:Hsz;
          [|discriminate].
        apply size_pos_loop_world in Hsz as ->.
        eapply Hgoal; [| | |exact Hrun]; try done. left. apply Hnil.
Qed.

(** X22.  For the cookie of a descriptor that is still queued,
    [bcm2708_dma_tx_status] reports the full size of that descriptor as
    residue, without reading a register, whether or not another
    descriptor is active. *)
Theorem tx_status_queued c cookie w q1 vd q2 d :
  dma_cookie_status (vc c) cookie ≠ DMA_COMPLETE ->
  vc_queue (vc c) = q1 ++ vd :: q2 ->
  (forall x, x ∈ q1 -> exists dx, kheap w !! x = Some dx /\ d_cookie dx ≠ cookie) ->
  kheap w !! vd = Some d ->
  d_cookie d = cookie ->
  bcm2708_dma_tx_status E dma_cookie_status c cookie true w
    = Ret (dma_cookie_status (vc c) cookie, Some (d_size d)) w.
Proof.
  intros Hst Hq Hq1 Hd Hck.
  unfold bcm2708_dma_tx_status. rewrite decide_False by done. simpl.
  rewrite (bind_Ret spin_lock_irqsave _ w w tt eq_refl).
  unfold vchan_find_desc. rewrite Hq.
  rewrite (bind_Ret _ _ _ _ _ (find_desc_found q1 vd q2 cookie w d Hq1 Hd Hck)).
  unfold mbind, M_bind, load_desc, spin_unlock_irqrestore, mret, M_ret.
  by rewrite Hd.
Qed.

(** X23.  For a cookie that belongs neither to a queued descriptor nor to
    the active one (no descriptor is active, or the active one carries
    another cookie), [bcm2708_dma_tx_status] reports a residue of 0 and
    reads no register. *)
Theorem tx_status_unknown c cookie w :
  dma_cookie_status (vc c) cookie ≠ DMA_COMPLETE ->
  (forall x, x ∈ vc_queue (vc c) ->
     exists dx, kheap w !! x = Some dx /\ d_cookie dx ≠ cookie) ->
  (desc c = None
   \/ exists p d, desc c = Some p /\ kheap w !! p = Some d /\ d_cookie d ≠ cookie) ->
  bcm2708_dma_tx_status E dma_cookie_status c cookie true w
    = Ret (dma_cookie_status (vc c) cookie, Some 0) w.
Proof.
  intros Hst Hq Hact.
  unfold bcm2708_dma_tx_status. rewrite decide_False by done. simpl.
  rewrite (bind_Ret spin_lock_irqsave _ w w tt eq_refl).
  unfold vchan_find_desc.
  rewrite (bind_Ret _ _ _ _ _ (find_desc_missing _ cookie w Hq)).
  destruct Hact as [Hnone|(p & d & Hp & Hd & Hck)].
  - rewrite Hnone. reflexivity.
  - rewrite Hp.
    unfold mbind, M_bind, load_desc, spin_unlock_irqrestore, mret, M_ret.
    rewrite Hd. by rewrite decide_False.
Qed.

(** X24.  For the cookie of the active descriptor, with a chain as the
    builder leaves it: [bcm2708_dma_tx_status] reads the position once,
    from the destination address register of a device-to-memory transfer
    and from the source address register of a memory-to-device transfer,
    and when that position lies in step [i] it reports the rest of that
    step plus the lengths of all later steps; only in a step that ends at
    2^32, the top of the address space, it reports 0 instead. *)
Theorem tx_status_active_residue c cookie w p d cbs (i : nat) cb :
  dma_cookie_status (vc c) cookie ≠ DMA_COMPLETE ->
  (forall x, x ∈ vc_queue (vc c) ->
     exists dx, kheap w !! x = Some dx /\ d_cookie dx ≠ cookie) ->
  desc c = Some p ->
  kheap w !! p = Some d ->
  d_cookie d = cookie ->
  d_dir d = DMA_DEV_TO_MEM \/ d_dir d = DMA_MEM_TO_DEV ->
  coherent w !! d_control_block_base d = Some cbs ->
  chain_fits d cbs ->
  let reg := if decide (d_dir d = DMA_DEV_TO_MEM)
             then BCM2708_DMA_DEST_AD else BCM2708_DMA_SOURCE_AD in
  let pos := wrap32 (env_readl E (length (trace w)) (chan_base c + reg)) in
  cbs !! i = Some cb ->
  in_step d cb pos ->
  bcm2708_dma_tx_status E dma_cookie_status c cookie true w
    = Ret (dma_cookie_status (vc c) cookie,
           Some (if decide (step_addr d cb + cb_length cb = 2 ^ 32) then 0
                 else step_addr d cb + cb_length cb - pos
                      + sum_lengths (drop (S i) cbs)))
        {| kheap := kheap w; coherent := coherent w;
           trace := trace w ++ [Ev_readl (chan_base c + reg) pos] |}.
Proof.
  intros Hst Hq Hdesc Hd Hck Hdir Hcbs Hfits reg pos Hi Hin.
  rewrite (tx_status_active E dma_cookie_status c cookie w p d Hst
             (find_desc_missing _ cookie w Hq) Hdesc Hd Hck Hdir).
  fold reg. fold pos.
  set (w1 := {| kheap := kheap w; coherent := coherent w;
                trace := trace w ++ [Ev_readl (chan_base c + reg) pos] |}).
  rewrite (desc_size_pos_fold d pos w1 cbs Hcbs (proj1 Hfits)).
  f_equal. f_equal. f_equal.
  by apply size_pos_fold_fits.
Qed.

End ResidueMore.

(** ** Examples for the additional properties *)

Lemma grabbed_rx :
  @grabbed bcm2708 (chan0 cfg_rx) DMA_DEV_TO_MEM (src_addr cfg_rx)
    DMA_SLAVE_BUSWIDTH_4_BYTES (@BCM2708_DMA_S_DREQ bcm2708).
Proof. left. repeat split; reflexivity. Defined.

(** Four frames of 1024 bytes are built at 0x1000. *)
Lemma prep_returns_descriptor_witness :
  exists w' d,
    @bcm2708_dma_prep_dma_cyclic bcm2708 env_busy (chan0 cfg_rx)
      0x40000000 4096 1024 DMA_DEV_TO_MEM 0 world0 = Ret (Some 0x1000) w'
    /\ new_events world0 w'
       = [Ev_kzalloc (Some 0x1000);
          Ev_dma_zalloc_coherent (4096 / 1024 * @sizeof_bcm2708_dma_cb bcm2708)
            (Some (0x2001, wrap32 0x5e000100))]
    /\ kheap w' !! 0x1000 = Some d
    /\ d_cookie d = 0 /\ d_dir d = DMA_DEV_TO_MEM
    /\ d_frames d = 4096 / 1024
    /\ d_control_block_size d = 4096 / 1024 * @sizeof_bcm2708_dma_cb bcm2708
    /\ d_control_block_base d = 0x2001
    /\ d_control_block_base_phys d = wrap32 0x5e000100
    /\ (forall q, q ≠ 0x1000 -> kheap w' !! q = kheap world0 !! q)
    /\ (forall b, b ≠ 0x2001 -> coherent w' !! b = coherent world0 !! b).
Proof.
  apply (@prep_returns_descriptor bcm2708 env_busy (chan0 cfg_rx)
           0x40000000 4096 1024 DMA_DEV_TO_MEM 0 world0
           (src_addr cfg_rx) (@BCM2708_DMA_S_DREQ bcm2708) 0x1000 0x2001 0x5e000100).
  - exact grabbed_rx.
  - reflexivity.
  - lia.
  - lia.
  - vm_compute. reflexivity.
  - reflexivity.
  - reflexivity.
Defined.

(** 2^27 periods of one byte: the array of control blocks would take 2^32
    bytes, the size wraps to 0. *)
Lemma prep_size_overflow_witness :
  @bcm2708_dma_prep_dma_cyclic bcm2708 env_busy (chan0 cfg_rx)
    0x40000000 (2 ^ 27) 1 DMA_DEV_TO_MEM 0 world0 = Undef OutOfBounds.
Proof.
  apply (@prep_size_overflow bcm2708 env_busy (chan0 cfg_rx)
           0x40000000 (2 ^ 27) 1 DMA_DEV_TO_MEM 0 world0
           (src_addr cfg_rx) (@BCM2708_DMA_S_DREQ bcm2708) 0x1000 0x2001 0x5e000100).
  - exact grabbed_rx.
  - reflexivity.
  - lia.
  - lia.
  - vm_compute. discriminate.
  - reflexivity.
  - reflexivity.
Defined.

Lemma prep_period_zero_witness :
  @bcm2708_dma_prep_dma_cyclic bcm2708 env_busy (chan0 cfg_rx)
    0x40000000 4096 0 DMA_DEV_TO_MEM 0 world0 = Undef DivByZero.
Proof.
  apply (@prep_period_zero bcm2708 env_busy (chan0 cfg_rx)
           0x40000000 4096 DMA_DEV_TO_MEM 0 world0
           (src_addr cfg_rx) (@BCM2708_DMA_S_DREQ bcm2708) 0x1000).
  - exact grabbed_rx.
  - reflexivity.
Defined.

(** No memory, and a zero period on top of it: NULL. *)
Lemma prep_kzalloc_oom_witness :
  exists w',
    @bcm2708_dma_prep_dma_cyclic bcm2708 env_no_memory (chan0 cfg_rx)
      0x40000000 4096 0 DMA_DEV_TO_MEM 0 world0 = Ret None w'
    /\ kheap w' = kheap world0 /\ coherent w' = coherent world0
    /\ new_events world0 w' = [Ev_kzalloc None].
Proof.
  apply (@prep_kzalloc_oom bcm2708 env_no_memory (chan0 cfg_rx)
           0x40000000 4096 0 DMA_DEV_TO_MEM 0 world0
           (src_addr cfg_rx) (@BCM2708_DMA_S_DREQ bcm2708)).
  - exact grabbed_rx.
  - reflexivity.
Defined.

(** 2500 bytes in periods of 1024: two frames, 452 bytes left over. *)
Lemma prep_truncates_tail_witness :
  exists p w' d cbs,
    @bcm2708_dma_prep_dma_cyclic bcm2708 env_busy (chan0 cfg_rx)
      0x40000000 2500 1024 DMA_DEV_TO_MEM 0 world0 = Ret (Some p) w'
    /\ kheap w' !! p = Some d
    /\ coherent w' !! d_control_block_base d = Some cbs
    /\ d_size d = 2500 - 2500 mod 1024
    /\ sum_lengths cbs = d_size d
    /\ 0 <= 2500 - d_size d < 1024
    /\ (forall (i : nat) cb, cbs !! i = Some cb ->
          0x40000000 <= step_addr d cb
          /\ step_addr d cb + cb_length cb <= 0x40000000 + d_size d).
Proof.
  eexists _, _.
  assert (Hrun : @bcm2708_dma_prep_dma_cyclic bcm2708 env_busy (chan0 cfg_rx)
                   0x40000000 2500 1024 DMA_DEV_TO_MEM 0 world0 = Ret _ _)
    by (vm_compute; reflexivity).
  destruct (@prep_truncates_tail bcm2708 env_busy (chan0 cfg_rx)
              0x40000000 2500 1024 DMA_DEV_TO_MEM 0 world0 _ _
              ltac:(reflexivity) ltac:(unfold is_u32; lia)
              ltac:(unfold is_u32; lia) ltac:(unfold is_u32; lia)
              ltac:(lia) Hrun) as (d & cbs & Hres).
  exists d, cbs. split; [exact Hrun|exact Hres].
Defined.

Lemma prep_request_line_witness :
  exists p w' d cbs,
    @bcm2708_dma_prep_dma_cyclic bcm2708 env_busy (chan0 cfg_rx)
      0x40000000 4096 1024 DMA_DEV_TO_MEM 0 world0 = Ret (Some p) w'
    /\ kheap w' !! p = Some d
    /\ coherent w' !! d_control_block_base d = Some cbs
    /\ forall (i : nat) cb, cbs !! i = Some cb ->
         flag_set (@BCM2708_DMA_S_DREQ bcm2708) (cb_info cb)
         /\ flag_set (@BCM2708_DMA_PER_MAP bcm2708 (slave_id cfg_rx)) (cb_info cb).
Proof.
  eexists _, _.
  assert (Hrun : @bcm2708_dma_prep_dma_cyclic bcm2708 env_busy (chan0 cfg_rx)
                   0x40000000 4096 1024 DMA_DEV_TO_MEM 0 world0 = Ret _ _)
    by (vm_compute; reflexivity).
  destruct (@prep_request_line bcm2708 env_busy (chan0 cfg_rx)
              0x40000000 4096 1024 DMA_DEV_TO_MEM 0 world0 _ _
              ltac:(reflexivity) ltac:(unfold is_u32; lia)
              ltac:(unfold is_u32; lia) Hrun) as (d & cbs & Hd & Hc & Hflags).
  exists d, cbs. split; [exact Hrun|]. split; [exact Hd|]. split; [exact Hc|].
  intros i cb Hi. destruct (Hflags i cb Hi) as (Hsync & Hmap & _).
  split; [exact Hsync|]. apply Hmap. discriminate.
Defined.

Lemma prep_only_allocates_witness :
  exists r w' log,
    @bcm2708_dma_prep_dma_cyclic bcm2708 env_no_coherent (chan0 cfg_rx)
      0x40000000 4096 1024 DMA_DEV_TO_MEM 0 world0 = Ret r w'
    /\ trace w' = trace world0 ++ log
    /\ Forall (fun ev => is_hw_event ev = false) log
    /\ (r = None ->
        coherent w' = coherent world0
        /\ forall q d, kheap w' !! q = Some d -> kheap world0 !! q = Some d).
Proof.
  eexists _, _.
  assert (Hrun : @bcm2708_dma_prep_dma_cyclic bcm2708 env_no_coherent (chan0 cfg_rx)
                   0x40000000 4096 1024 DMA_DEV_TO_MEM 0 world0 = Ret _ _)
    by (vm_compute; reflexivity).
  destruct (@prep_only_allocates bcm2708 env_no_coherent (chan0 cfg_rx)
              0x40000000 4096 1024 DMA_DEV_TO_MEM 0 world0 _ _
              ltac:(reflexivity) ltac:(unfold is_u32; lia)
              ltac:(unfold is_u32; lia) Hrun) as (log & Hres).
  exists log. split; [exact Hrun|exact Hres].
Defined.

(** The receive endpoint is accepted, the 2-byte one is refused. *)
Lemma slave_config_spec_witness :
  bcm2708_dma_slave_config (chan0 zero_cfg) cfg_rx
    = (0, set_cfg cfg_rx (chan0 zero_cfg))
  /\ bcm2708_dma_slave_config (chan0 cfg_rx) cfg_rx16
    = (- EINVAL, chan0 cfg_rx).
Proof.
  split.
  - apply (proj1 (slave_config_spec (chan0 zero_cfg) cfg_rx)).
    left. split; reflexivity.
  - apply (proj2 (slave_config_spec (chan0 cfg_rx) cfg_rx16)).
    intros [[_ Hw]|[Hd _]]; discriminate.
Defined.

Lemma slave_config_then_prep_witness :
  exists w',
    @bcm2708_dma_prep_dma_cyclic bcm2708 env_busy
      (set_cfg cfg_tx (chan0 zero_cfg)) 0x40000000 4096 1024
      (direction cfg_tx) 0 world0 = Ret (Some 0x1000) w'.
Proof.
  apply (@slave_config_then_prep bcm2708 env_busy (chan0 zero_cfg) cfg_tx
           (set_cfg cfg_tx (chan0 zero_cfg)) 0x40000000 4096 1024 0 world0
           0x1000 0x2001 0x5e000100).
  - reflexivity.
  - reflexivity.
  - lia.
  - lia.
  - vm_compute. reflexivity.
  - reflexivity.
  - reflexivity.
Defined.

Lemma chan_init_unconfigured_witness :
  exists c,
    ddev_channels
      {| ddev_chancnt := 0 + 1; ddev_channels := [] ++ [chan0 zero_cfg] |}
      = ddev_channels {| ddev_chancnt := 0; ddev_channels := [] |} ++ [c]
    /\ ch c = 0 /\ chan_base c = 0xf2007000 /\ irq_number c = 16
    /\ exists log,
         @bcm2708_dma_prep_dma_cyclic bcm2708 env_busy c 0x40000000 4096 1024
           DMA_DEV_TO_MEM 0 world0
           = Ret None {| kheap := kheap world0; coherent := coherent world0;
                         trace := trace world0 ++ log |}
         /\ filter (fun ev => is_alloc_event ev = true) log = [].
Proof.
  destruct (@chan_init_unconfigured bcm2708 env_busy true
              {| ddev_chancnt := 0; ddev_channels := [] |} 0xf2007000 0 16
              {| ddev_chancnt := 0 + 1; ddev_channels := [] ++ [chan0 zero_cfg] |}
              ltac:(reflexivity))
    as (c & Hl & _ & Hch & Hbase & Hirq & _ & _ & _ & Hprep).
  exists c. split; [exact Hl|]. split; [exact Hch|]. split; [exact Hbase|].
  split; [exact Hirq|].
  exact (Hprep 0x40000000 4096 1024 DMA_DEV_TO_MEM 0 world0).
Defined.

(** Three hardware channels are free: three channels are made. *)
Lemma probe_makes_channels_witness :
  exists od k,
    bcm2708_dma_probe probe_env_three = (0, Some od)
    /\ (k <= 16)%nat
    /\ ddev_channels od = map (probed_chan probe_env_three) (seq 0 k)
    /\ ddev_chancnt od = Z.of_nat k
    /\ ((k < 16)%nat -> (pe_chan_alloc probe_env_three k).1.1 < 0).
Proof.
  eexists.
  assert (Hrun : bcm2708_dma_probe probe_env_three = (0, Some _))
    by (vm_compute; reflexivity).
  destruct (probe_makes_channels probe_env_three _ Hrun)
    as (k & Hk & Hl & Hn & _ & Hstop & _).
  exists k. split; [exact Hrun|]. split; [exact Hk|]. split; [exact Hl|].
  split; [exact Hn|exact Hstop].
Defined.

(** No memory for the second channel: the first one is taken back. *)
Lemma probe_failure_witness :
  bcm2708_dma_probe probe_env_short
    = (- ENOMEM, Some {| ddev_chancnt := 1; ddev_channels := [] |})
  /\ ((Some {| ddev_chancnt := 1; ddev_channels := [] |} = None
       /\ (- ENOMEM = pe_dma_set_mask probe_env_short \/ - ENOMEM = - ENOMEM))
      \/ (exists od,
            Some {| ddev_chancnt := 1; ddev_channels := [] |} = Some od
            /\ ddev_channels od = []
            /\ (- ENOMEM = - ENOMEM
                \/ - ENOMEM = pe_device_register probe_env_short))).
Proof.
  assert (Hrun : bcm2708_dma_probe probe_env_short
                 = (- ENOMEM, Some {| ddev_chancnt := 1; ddev_channels := [] |}))
    by (vm_compute; reflexivity).
  split; [exact Hrun|].
  apply (probe_failure probe_env_short _ _ Hrun). discriminate.
Defined.

Lemma issue_pending_at_most_one_start_witness :
  exists c' w',
    bcm2708_dma_issue_pending chan_queued world_queued = Ret c' w'
    /\ kheap w' = kheap world_queued /\ coherent w' = coherent world_queued
    /\ cyclic c' = true.
Proof.
  eexists _, _.
  assert (Hrun : bcm2708_dma_issue_pending chan_queued world_queued = Ret _ _)
    by (vm_compute; reflexivity).
  destruct (issue_pending_at_most_one_start chan_queued world_queued _ _ Hrun)
    as (Hk & Hc & Hcy & _).
  split; [exact Hrun|]. split; [exact Hk|]. split; [exact Hc|exact Hcy].
Defined.

(** The run bit of the running example clears at the last of the 10000
    polls only: the transfer did stop, and is reported as not
    terminated. *)
Lemma terminate_all_stops_at_witness :
  exists c' w' poll_log v free_log,
    @bcm2708_dma_terminate_all bcm2708 (env_stops_at (Z.to_nat 20004))
      chan_running world_running = Ret (0, c') w'
    /\ desc c' = None /\ vc_queue (vc c') = []
    /\ new_events world_running w'
       = Ev_bcm_dma_abort 0xf2007000 :: poll_log
           ++ [Ev_readl (0xf2007000 + @BCM2708_DMA_CS bcm2708) v]
           ++ [Ev_dev_err "DMA transfer could not be terminated"]
           ++ free_log
    /\ is_poll_log (0xf2007000 + @BCM2708_DMA_CS bcm2708) (Z.to_nat 9999) poll_log
    /\ kfreed free_log = [0x1003].
Proof.
  destruct (@terminate_all_stops_at bcm2708 (env_stops_at (Z.to_nat 20004))
              chan_running world_running 0x1000 (Z.to_nat 9999))
    as (c' & w' & plog & v & flog & Hrun & Hd & Hq & Hev & Hpoll & Hfree & _).
  - reflexivity.
  - exact queue_live_running.
  - lia.
  - intros j Hj. cbn [env_readl env_stops_at].
    change (length (trace world_running)) with 5%nat.
    rewrite decide_False by lia. vm_compute. discriminate.
  - cbn [env_readl env_stops_at].
    change (length (trace world_running)) with 5%nat.
    rewrite decide_True by lia. reflexivity.
  - exists c', w', plog, v, flog.
    rewrite decide_True in Hev by lia.
    split; [exact Hrun|]. split; [exact Hd|]. split; [exact Hq|].
    split; [exact Hev|]. split; [exact Hpoll|exact Hfree].
Defined.

Lemma queue_then_terminate_witness :
  exists c1 w1 c2 w2,
    @queue_stream bcm2708 env_busy (chan0 cfg_rx) 0x40000000 4096 1024
      DMA_DEV_TO_MEM world0 = Ret c1 w1
    /\ vc_queue (vc c1) = [0x1000]
    /\ @bcm2708_dma_terminate_all bcm2708 env_busy c1 w1 = Ret (0, c2) w2
    /\ kheap w2 = kheap world0 /\ coherent w2 = coherent world0
    /\ desc c2 = None /\ vc_queue (vc c2) = []
    /\ Forall (fun ev => is_hw_event ev = false) (new_events world0 w2).
Proof.
  eexists _, _.
  assert (Hrun : @queue_stream bcm2708 env_busy (chan0 cfg_rx) 0x40000000 4096
                   1024 DMA_DEV_TO_MEM world0 = Ret _ _)
    by (vm_compute; reflexivity).
  destruct (@queue_then_terminate bcm2708 env_busy (chan0 cfg_rx) 0x40000000
              4096 1024 DMA_DEV_TO_MEM world0 _ _
              ltac:(reflexivity) ltac:(reflexivity) ltac:(reflexivity)
              ltac:(unfold is_u32; lia) ltac:(unfold is_u32; lia)
              ltac:(intros; apply lookup_empty)
              ltac:(intros; apply lookup_empty) Hrun)
    as (c2 & w2 & Hres).
  exists c2, w2. split; [exact Hrun|]. split; [reflexivity|exact Hres].
Defined.

(** Pausing the running example is refused and changes nothing. *)
Lemma control_without_terminate_witness :
  exists rc c',
    @bcm2708_dma_control bcm2708 env_busy chan_running DMA_PAUSE cfg_tx
      world_running = Ret (rc, c') world_running
    /\ rc = - ENXIO /\ c' = chan_running.
Proof.
  destruct (@control_without_terminate bcm2708 env_busy chan_running DMA_PAUSE
              cfg_tx world_running ltac:(discriminate))
    as (rc & c' & Hrun & _ & _ & _ & _ & Hother).
  exists rc, c'. split; [exact Hrun|]. apply Hother. discriminate.
Defined.

(** Releasing the running example frees the queued transfer and leaves
    the running one in place. *)
Lemma free_chan_resources_spec_witness :
  exists c' irqs' w',
    bcm2708_dma_free_chan_resources chan_running {[ 16; 17 ]} world_running
      = Ret (c', irqs') w'
    /\ vc_queue (vc c') = [] /\ desc c' = Some 0x1000
    /\ (16 ∉ irqs')
    /\ kfreed (new_events world_running w') = [0x1003]
    /\ kheap w' !! 0x1000 = Some desc_a.
Proof.
  destruct (free_chan_resources_spec chan_running {[ 16; 17 ]} world_running
              queue_live_running)
    as (c' & irqs' & w' & Hrun & Hq & Hd & Hirq & _ & Hfree & _ & Hheap).
  exists c', irqs', w'. split; [exact Hrun|]. split; [exact Hq|].
  split; [exact Hd|]. split; [exact Hirq|]. split; [exact Hfree|].
  rewrite (Hheap 0x1000). reflexivity.
Defined.


(** 2500 bytes in periods of 1024, position 1048: 1000 bytes are left of
    the 2048 covered ones. *)
Lemma prep_then_size_pos_witness :
  exists p w' d,
    @bcm2708_dma_prep_dma_cyclic bcm2708 env_busy (chan0 cfg_rx)
      0x40000000 2500 1024 DMA_DEV_TO_MEM 0 world0 = Ret (Some p) w'
    /\ kheap w' !! p = Some d
    /\ d_size d = 2048
    /\ bcm2708_dma_desc_size_pos d 0x40000418 w' = Ret 1000 w'.
Proof.
  eexists _, _.
  assert (Hrun : @bcm2708_dma_prep_dma_cyclic bcm2708 env_busy (chan0 cfg_rx)
                   0x40000000 2500 1024 DMA_DEV_TO_MEM 0 world0 = Ret _ _)
    by (vm_compute; reflexivity).
  destruct (@prep_then_size_pos bcm2708 env_busy (chan0 cfg_rx)
              0x40000000 2500 1024 DMA_DEV_TO_MEM 0 world0 _ _ 0x40000418
              ltac:(reflexivity) ltac:(unfold is_u32; lia)
              ltac:(unfold is_u32; lia) ltac:(unfold is_u32; lia)
              ltac:(lia) Hrun) as (d & Hd & Hsz & Hin & _).
  change (2500 / 1024 * 1024) with 2048 in Hsz.
  exists d. split; [exact Hrun|]. split; [exact Hd|]. split; [exact Hsz|].
  rewrite Hsz in Hin. apply Hin. lia.
Defined.

(** The status of the running transfer of the example: one read of the
    destination address register. *)
Lemma tx_status_observes_witness :
  exists st res w',
    @bcm2708_dma_tx_status bcm2708 (env_reads 0x40000418) cookie_in_progress
      chan_running 2 true world_running = Ret (st, res) w'
    /\ st = DMA_IN_PROGRESS
    /\ kheap w' = kheap world_running /\ coherent w' = coherent world_running.
Proof.
  eexists _, _, _.
  assert (Hrun : @bcm2708_dma_tx_status bcm2708 (env_reads 0x40000418)
                   cookie_in_progress chan_running 2 true world_running
                 = Ret (_, _) _)
    by (vm_compute; reflexivity).
  destruct (@tx_status_observes bcm2708 (env_reads 0x40000418)
              cookie_in_progress chan_running 2 true world_running _ _ _ Hrun)
    as (Hst & Hk & Hc & _).
  split; [exact Hrun|]. split; [exact Hst|]. split; [exact Hk|exact Hc].
Defined.

(** The queued transfer of the example: its full 1024 bytes. *)
Lemma tx_status_queued_witness :
  @bcm2708_dma_tx_status bcm2708 env_busy cookie_in_progress
    chan_running 3 true world_running
  = Ret (DMA_IN_PROGRESS, Some (d_size desc_b)) world_running.
Proof.
  apply (@tx_status_queued bcm2708 env_busy cookie_in_progress
           chan_running 3 world_running [] 0x1003 [] desc_b).
  - discriminate.
  - reflexivity.
  - intros x Hx. apply elem_of_nil in Hx. destruct Hx.
  - reflexivity.
  - reflexivity.
Defined.

(** A cookie nobody holds. *)
Lemma tx_status_unknown_witness :
  @bcm2708_dma_tx_status bcm2708 env_busy cookie_in_progress
    chan_running 7 true world_running
  = Ret (DMA_IN_PROGRESS, Some 0) world_running.
Proof.
  apply (@tx_status_unknown bcm2708 env_busy cookie_in_progress
           chan_running 7 world_running).
  - discriminate.
  - intros x Hx. apply list_elem_of_singleton in Hx as ->.
    exists desc_b. split; [reflexivity|discriminate].
  - right. exists 0x1000, desc_a.
    split; [reflexivity|]. split; [reflexivity|discriminate].
Defined.

(** The running transfer of the example, 24 bytes into its second
    period: 1000 bytes are left. *)
Lemma tx_status_active_residue_witness :
  @bcm2708_dma_tx_status bcm2708 (env_reads 0x40000418) cookie_in_progress
    chan_running 2 true world_running
  = Ret (DMA_IN_PROGRESS, Some 1000)
      {| kheap := kheap world_running; coherent := coherent world_running;
         trace := trace world_running
                    ++ [Ev_readl (0xf2007000 + @BCM2708_DMA_DEST_AD bcm2708)
                          0x40000418] |}.
Proof.
  apply (@tx_status_active_residue bcm2708 (env_reads 0x40000418)
           cookie_in_progress chan_running 2 world_running 0x1000 desc_a
           chain_a 1
           {| cb_info := 0x30411; cb_src := 0x7e203004; cb_dst := 0x40000400;
              cb_length := 1024; cb_next := 0x5e000100 |}).
  - discriminate.
  - intros x Hx. apply list_elem_of_singleton in Hx as ->.
    exists desc_b. split; [reflexivity|discriminate].
  - reflexivity.
  - reflexivity.
  - reflexivity.
  - left. reflexivity.
  - reflexivity.
  - exact (chain_ok_fits desc_a chain_a chain_ok_a).
  - reflexivity.
  - unfold in_step, step_addr. vm_compute. split; [discriminate|reflexivity].
Defined.

(** The transfer at the top of the address space, started: the status of
    its cookie while the hardware is 256 bytes into the second period
    reports a residue of 0, where 768 bytes are left. *)
Example start_stream_reaches_top :
  @start_stream bcm2708 env_busy (chan0 cfg_rx) 0xfffff800 2048 1024
    DMA_DEV_TO_MEM world0 = Ret chan_top_running world_top_running.
Proof. vm_compute. reflexivity. Qed.

Example tx_status_top_evaluated :
  @bcm2708_dma_tx_status bcm2708 (env_reads 0xfffffd00) cookie_in_progress
    chan_top_running 2 true world_top_running
  = Ret (DMA_IN_PROGRESS, Some 0)
      {| kheap := kheap world_top_running;
         coherent := coherent world_top_running;
         trace := trace world_top_running
                    ++ [Ev_readl (0xf2007000 + @BCM2708_DMA_DEST_AD bcm2708)
                          0xfffffd00] |}.
Proof. vm_compute. reflexivity. Qed.
